(** * Intel 8080 (KR580VM80A) core model: a shallow embedding of i8080.js

    The CPU object of [i8080.js] is embedded as a record of its fields, its
    methods as computations in a state monad over that record, and the
    256-entry [handler] table as a function from the opcode byte to the
    closure stored at that index.  The flat [Memory] and the [IO] device of
    the test driver provide the two back-ends. *)

From stdpp Require Import base option list gmap.
From Stdlib Require Import ZArith Lia.

#[local] Open Scope Z_scope.

(** ** JavaScript values held by the flag fields

    The flag fields are assigned numbers ([this.cf = 0], table entries,
    [a & 0x01]) as well as booleans ([(a & 0x80) != 0], [!that.cf]); the
    code then uses them in arithmetic, in bit operations, in conditions and
    in loose comparisons.  Both kinds of value are kept apart here, with the
    coercions JavaScript applies. *)

Inductive jsval : Type :=
  | JNum (n : Z)
  | JBool (b : bool).

(** ToNumber: [true] is 1 and [false] is 0. *)
Definition to_number (x : jsval) : Z :=
  match x with
  | JNum n => n
  | JBool b => if b then 1 else 0
  end.

(** ToBoolean: a number is truthy unless it is 0. *)
Definition truthy (x : jsval) : bool :=
  match x with
  | JNum n => negb (n =? 0)
  | JBool b => b
  end.

(** [x == d] for a boolean [d]: the boolean is converted to a number, and so
    is [x] when it is a boolean itself. *)
Definition loose_eq (x : jsval) (d : bool) : bool :=
  to_number x =? to_number (JBool d).

(** [!x] *)
Definition js_not (x : jsval) : jsval := JBool (negb (truthy x)).

(** [t[i]] for a table of numbers; the index is masked into the table's
    range at every use in the source. *)
Definition table_get (t : list Z) (i : Z) : Z := default 0 (t !! Z.to_nat i).

(** ** The flat memory of the driver: [mem[addr & 0xffff]]

    The array of 65536 cells is a finite map from the cell's index; a cell
    that was never written reads as the 0 the constructor put there.  The
    [stackrq] argument the CPU passes is not a parameter of this device's
    [read] and [write], which drop it. *)

Module Memory.

Definition read (mem : gmap Z Z) (addr : Z) (stackrq : bool) : Z :=
  default 0 (mem !! Z.land addr 0xffff).

Definition write (mem : gmap Z Z) (addr w8 : Z) (stackrq : bool) : gmap Z Z :=
  <[Z.land addr 0xffff := w8]> mem.

End Memory.

(** ** The I/O back-end

    The device's answers to [input] are a function of the port; the calls
    the CPU makes are recorded in the order they happen. *)

Inductive io_event : Type :=
  | EvInput (port : Z)
  | EvOutput (port w8 : Z)
  | EvInterrupt (enabled : bool).

Record IO : Type := mkIO {
  io_input : Z -> Z;
  io_calls : list io_event
}.

Module I8080.

(** ** The CPU object *)

Record state : Type := mkState {
  sp : Z;
  pc : Z;
  iff : bool;
  iff_pending : Z;
  sf : jsval;
  pf : jsval;
  hf : jsval;
  zf : jsval;
  cf : jsval;
  regs : gmap Z Z;
  memory : gmap Z Z;
  io : IO;
  last_opcode : Z;
  vcycles : Z;
  cpu_cycles : Z
}.

Definition with_sp (v : Z) (s : state) : state :=
  mkState v (pc s) (iff s) (iff_pending s) (sf s) (pf s) (hf s) (zf s) (cf s)
          (regs s) (memory s) (io s) (last_opcode s) (vcycles s) (cpu_cycles s).
Definition with_pc (v : Z) (s : state) : state :=
  mkState (sp s) v (iff s) (iff_pending s) (sf s) (pf s) (hf s) (zf s) (cf s)
          (regs s) (memory s) (io s) (last_opcode s) (vcycles s) (cpu_cycles s).
Definition with_iff (v : bool) (s : state) : state :=
  mkState (sp s) (pc s) v (iff_pending s) (sf s) (pf s) (hf s) (zf s) (cf s)
          (regs s) (memory s) (io s) (last_opcode s) (vcycles s) (cpu_cycles s).
Definition with_iff_pending (v : Z) (s : state) : state :=
  mkState (sp s) (pc s) (iff s) v (sf s) (pf s) (hf s) (zf s) (cf s)
          (regs s) (memory s) (io s) (last_opcode s) (vcycles s) (cpu_cycles s).
Definition with_sf (v : jsval) (s : state) : state :=
  mkState (sp s) (pc s) (iff s) (iff_pending s) v (pf s) (hf s) (zf s) (cf s)
          (regs s) (memory s) (io s) (last_opcode s) (vcycles s) (cpu_cycles s).
Definition with_pf (v : jsval) (s : state) : state :=
  mkState (sp s) (pc s) (iff s) (iff_pending s) (sf s) v (hf s) (zf s) (cf s)
          (regs s) (memory s) (io s) (last_opcode s) (vcycles s) (cpu_cycles s).
Definition with_hf (v : jsval) (s : state) : state :=
  mkState (sp s) (pc s) (iff s) (iff_pending s) (sf s) (pf s) v (zf s) (cf s)
          (regs s) (memory s) (io s) (last_opcode s) (vcycles s) (cpu_cycles s).
Definition with_zf (v : jsval) (s : state) : state :=
  mkState (sp s) (pc s) (iff s) (iff_pending s) (sf s) (pf s) (hf s) v (cf s)
          (regs s) (memory s) (io s) (last_opcode s) (vcycles s) (cpu_cycles s).
Definition with_cf (v : jsval) (s : state) : state :=
  mkState (sp s) (pc s) (iff s) (iff_pending s) (sf s) (pf s) (hf s) (zf s) v
          (regs s) (memory s) (io s) (last_opcode s) (vcycles s) (cpu_cycles s).
Definition with_regs (v : gmap Z Z) (s : state) : state :=
  mkState (sp s) (pc s) (iff s) (iff_pending s) (sf s) (pf s) (hf s) (zf s) (cf s)
          v (memory s) (io s) (last_opcode s) (vcycles s) (cpu_cycles s).
Definition with_memory (v : gmap Z Z) (s : state) : state :=
  mkState (sp s) (pc s) (iff s) (iff_pending s) (sf s) (pf s) (hf s) (zf s) (cf s)
          (regs s) v (io s) (last_opcode s) (vcycles s) (cpu_cycles s).
Definition with_io (v : IO) (s : state) : state :=
  mkState (sp s) (pc s) (iff s) (iff_pending s) (sf s) (pf s) (hf s) (zf s) (cf s)
          (regs s) (memory s) v (last_opcode s) (vcycles s) (cpu_cycles s).
Definition with_last_opcode (v : Z) (s : state) : state :=
  mkState (sp s) (pc s) (iff s) (iff_pending s) (sf s) (pf s) (hf s) (zf s) (cf s)
          (regs s) (memory s) (io s) v (vcycles s) (cpu_cycles s).
Definition with_vcycles (v : Z) (s : state) : state :=
  mkState (sp s) (pc s) (iff s) (iff_pending s) (sf s) (pf s) (hf s) (zf s) (cf s)
          (regs s) (memory s) (io s) (last_opcode s) v (cpu_cycles s).
Definition with_cpu_cycles (v : Z) (s : state) : state :=
  mkState (sp s) (pc s) (iff s) (iff_pending s) (sf s) (pf s) (hf s) (zf s) (cf s)
          (regs s) (memory s) (io s) (last_opcode s) (vcycles s) v.

(** ** Methods as state computations *)

Definition M (A : Type) : Type := state -> A * state.

#[export] Instance M_ret : MRet M := fun A x s => (x, s).
#[export] Instance M_bind : MBind M :=
  fun A B f m s => let (x, s') := m s in f x s'.

(** The state a computation leaves, and the value it returns. *)
Definition run {A : Type} (m : M A) (s : state) : state := (m s).2.
Definition result {A : Type} (m : M A) (s : state) : A := (m s).1.

Definition get {A : Type} (field : state -> A) : M A := fun s => (field s, s).
Definition modify (f : state -> state) : M unit := fun s => (tt, f s).

(** [this.io.input(port)], [this.io.output(port, w8)], [this.io.interrupt(iff)] *)
Definition io_record (e : io_event) (s : state) : state :=
  with_io (mkIO (io_input (io s)) (io_calls (io s) ++ [e])) s.

Definition input (port : Z) : M Z :=
  fun s => (io_input (io s) port, io_record (EvInput port) s).
Definition output (port w8 : Z) : M unit := modify (io_record (EvOutput port w8)).
Definition interrupt (enabled : bool) : M unit := modify (io_record (EvInterrupt enabled)).

Definition memory_read_byte (addr : Z) (stackrq : bool) : M Z :=
  fun s => (Z.land (Memory.read (memory s) (Z.land addr 0xffff) stackrq) 0xff, s).

Definition memory_write_byte (addr w8 : Z) (stackrq : bool) : M unit :=
  modify (fun s =>
    with_memory (Memory.write (memory s) (Z.land addr 0xffff) (Z.land w8 0xff) stackrq) s).

Definition memory_read_word (addr : Z) (stackrq : bool) : M Z :=
  lo ← memory_read_byte addr stackrq;
  hi ← memory_read_byte (addr + 1) stackrq;
  mret (Z.lor lo (Z.shiftl hi 8)).

Definition memory_write_word (addr w16 : Z) (stackrq : bool) : M unit :=
  memory_write_byte addr (Z.land w16 0xff) stackrq;;
  memory_write_byte (addr + 1) (Z.shiftr w16 8) stackrq.

(** [this.regs[r]]; a slot that is not there would read as [undefined] in
    JavaScript and reads as 0 here: the eight slots are there in every state
    the constructor and the instructions produce. *)
Definition regs_get (r : Z) : M Z := get (fun s => default 0 (regs s !! r)).

(** r - 0 (bc), 2 (de), 4 (hl), 6 (sp) *)
Definition rp (r : Z) : M Z :=
  if negb (r =? 6) then
    hi ← regs_get r;
    lo ← regs_get (r + 1);
    mret (Z.lor (Z.shiftl hi 8) lo)
  else get sp.

Definition bc : M Z := rp 0.
Definition de : M Z := rp 2.
Definition hl : M Z := rp 4.

Definition reg (r : Z) : M Z :=
  if negb (r =? 6) then regs_get r
  else addr ← hl; memory_read_byte addr false.

Definition set_reg (r w8 : Z) : M unit :=
  let w8 := Z.land w8 0xff in
  if negb (r =? 6) then modify (fun s => with_regs (<[r := w8]> (regs s)) s)
  else addr ← hl; memory_write_byte addr w8 false.

Definition set_rp (r w16 : Z) : M unit :=
  if negb (r =? 6) then
    set_reg r (Z.shiftr w16 8);;
    set_reg (r + 1) (Z.land w16 0xff)
  else modify (with_sp w16).

Definition parity_table : list Z := [
  1; 0; 0; 1; 0; 1; 1; 0; 0; 1; 1; 0; 1; 0; 0; 1;
  0; 1; 1; 0; 1; 0; 0; 1; 1; 0; 0; 1; 0; 1; 1; 0;
  0; 1; 1; 0; 1; 0; 0; 1; 1; 0; 0; 1; 0; 1; 1; 0;
  1; 0; 0; 1; 0; 1; 1; 0; 0; 1; 1; 0; 1; 0; 0; 1;
  0; 1; 1; 0; 1; 0; 0; 1; 1; 0; 0; 1; 0; 1; 1; 0;
  1; 0; 0; 1; 0; 1; 1; 0; 0; 1; 1; 0; 1; 0; 0; 1;
  1; 0; 0; 1; 0; 1; 1; 0; 0; 1; 1; 0; 1; 0; 0; 1;
  0; 1; 1; 0; 1; 0; 0; 1; 1; 0; 0; 1; 0; 1; 1; 0;
  0; 1; 1; 0; 1; 0; 0; 1; 1; 0; 0; 1; 0; 1; 1; 0;
  1; 0; 0; 1; 0; 1; 1; 0; 0; 1; 1; 0; 1; 0; 0; 1;
  1; 0; 0; 1; 0; 1; 1; 0; 0; 1; 1; 0; 1; 0; 0; 1;
  0; 1; 1; 0; 1; 0; 0; 1; 1; 0; 0; 1; 0; 1; 1; 0;
  1; 0; 0; 1; 0; 1; 1; 0; 0; 1; 1; 0; 1; 0; 0; 1;
  0; 1; 1; 0; 1; 0; 0; 1; 1; 0; 0; 1; 0; 1; 1; 0;
  0; 1; 1; 0; 1; 0; 0; 1; 1; 0; 0; 1; 0; 1; 1; 0;
  1; 0; 0; 1; 0; 1; 1; 0; 0; 1; 1; 0; 1; 0; 0; 1
].
Definition half_carry_table : list Z := [ 0; 0; 1; 0; 1; 0; 1; 1 ].
Definition sub_half_carry_table : list Z := [ 0; 1; 1; 1; 0; 0; 0; 1 ].

Definition b : M Z := reg 0.
Definition c : M Z := reg 1.
Definition d : M Z := reg 2.
Definition e : M Z := reg 3.
Definition h : M Z := reg 4.
Definition l : M Z := reg 5.
Definition a : M Z := reg 7.

Definition set_b (v : Z) : M unit := set_reg 0 v.
Definition set_c (v : Z) : M unit := set_reg 1 v.
Definition set_d (v : Z) : M unit := set_reg 2 v.
Definition set_e (v : Z) : M unit := set_reg 3 v.
Definition set_h (v : Z) : M unit := set_reg 4 v.
Definition set_l (v : Z) : M unit := set_reg 5 v.
Definition set_a (v : Z) : M unit := set_reg 7 v.

(** ** The flag byte of PUSH PSW and POP PSW *)

Definition F_CARRY : Z := 0x01.
Definition F_UN1 : Z := 0x02.
Definition F_PARITY : Z := 0x04.
Definition F_UN3 : Z := 0x08.
Definition F_HCARRY : Z := 0x10.
Definition F_UN5 : Z := 0x20.
Definition F_ZERO : Z := 0x40.
Definition F_NEG : Z := 0x80.

Definition store_flags : M Z :=
  fun s =>
    let f := 0 in
    let f := if truthy (sf s) then Z.lor f F_NEG else Z.land f (Z.lnot F_NEG) in
    let f := if truthy (zf s) then Z.lor f F_ZERO else Z.land f (Z.lnot F_ZERO) in
    let f := if truthy (hf s) then Z.lor f F_HCARRY else Z.land f (Z.lnot F_HCARRY) in
    let f := if truthy (pf s) then Z.lor f F_PARITY else Z.land f (Z.lnot F_PARITY) in
    let f := if truthy (cf s) then Z.lor f F_CARRY else Z.land f (Z.lnot F_CARRY) in
    let f := Z.lor f F_UN1 in
    let f := Z.land f (Z.lnot F_UN3) in
    let f := Z.land f (Z.lnot F_UN5) in
    (f, s).

Definition retrieve_flags (f : Z) : M unit :=
  modify (with_sf (JNum (if negb (Z.land f F_NEG =? 0) then 1 else 0)));;
  modify (with_zf (JNum (if negb (Z.land f F_ZERO =? 0) then 1 else 0)));;
  modify (with_hf (JNum (if negb (Z.land f F_HCARRY =? 0) then 1 else 0)));;
  modify (with_pf (JNum (if negb (Z.land f F_PARITY =? 0) then 1 else 0)));;
  modify (with_cf (JNum (if negb (Z.land f F_CARRY =? 0) then 1 else 0))).

Definition next_pc_byte : M Z :=
  addr ← get pc;
  v ← memory_read_byte addr false;
  modify (fun s => with_pc (Z.land (pc s + 1) 0xffff) s);;
  mret v.

Definition next_pc_word : M Z :=
  lo ← next_pc_byte;
  hi ← next_pc_byte;
  mret (Z.lor lo (Z.shiftl hi 8)).

(** ** Flag arithmetic *)

Definition inr (r : Z) : M unit :=
  v ← reg r;
  let v := Z.land (v + 1) 0xff in
  set_reg r v;;
  modify (with_sf (JBool (negb (Z.land v 0x80 =? 0))));;
  modify (with_zf (JBool (v =? 0)));;
  modify (with_hf (JBool (Z.land v 0x0f =? 0)));;
  modify (with_pf (JNum (table_get parity_table v))).

Definition dcr (r : Z) : M unit :=
  v ← reg r;
  let v := Z.land (v - 1) 0xff in
  set_reg r v;;
  modify (with_sf (JBool (negb (Z.land v 0x80 =? 0))));;
  modify (with_zf (JBool (v =? 0)));;
  modify (with_hf (JBool (negb (Z.land v 0x0f =? 0x0f))));;
  modify (with_pf (JNum (table_get parity_table v))).

Definition add_im8 (v : Z) (carry : jsval) : M unit :=
  a0 ← a;
  let w16 := a0 + v + to_number carry in
  let index := Z.lor (Z.lor (Z.shiftr (Z.land a0 0x88) 1)
                            (Z.shiftr (Z.land v 0x88) 2))
                     (Z.shiftr (Z.land w16 0x88) 3) in
  let a1 := Z.land w16 0xff in
  modify (with_sf (JBool (negb (Z.land a1 0x80 =? 0))));;
  modify (with_zf (JBool (a1 =? 0)));;
  modify (with_hf (JNum (table_get half_carry_table (Z.land index 0x7))));;
  modify (with_pf (JNum (table_get parity_table a1)));;
  modify (with_cf (JBool (negb (Z.land w16 0x0100 =? 0))));;
  set_a a1.

Definition add (r : Z) (carry : jsval) : M unit :=
  v ← reg r; add_im8 v carry.

Definition sub_im8 (v : Z) (carry : jsval) : M unit :=
  a0 ← a;
  let w16 := Z.land (a0 - v - to_number carry) 0xffff in
  let index := Z.lor (Z.lor (Z.shiftr (Z.land a0 0x88) 1)
                            (Z.shiftr (Z.land v 0x88) 2))
                     (Z.shiftr (Z.land w16 0x88) 3) in
  let a1 := Z.land w16 0xff in
  modify (with_sf (JBool (negb (Z.land a1 0x80 =? 0))));;
  modify (with_zf (JBool (a1 =? 0)));;
  modify (with_hf (js_not (JNum (table_get sub_half_carry_table (Z.land index 0x7)))));;
  modify (with_pf (JNum (table_get parity_table a1)));;
  modify (with_cf (JBool (negb (Z.land w16 0x0100 =? 0))));;
  set_a a1.

Definition sub (r : Z) (carry : jsval) : M unit :=
  v ← reg r; sub_im8 v carry.

Definition cmp_im8 (v : Z) : M unit :=
  a0 ← a;
  sub_im8 v (JNum 0);;
  set_a a0.

Definition cmp (r : Z) : M unit :=
  v ← reg r; cmp_im8 v.

Definition ana_im8 (v : Z) : M unit :=
  a0 ← a;
  modify (with_hf (JBool (negb (Z.land (Z.lor a0 v) 0x08 =? 0))));;
  let a1 := Z.land a0 v in
  modify (with_sf (JBool (negb (Z.land a1 0x80 =? 0))));;
  modify (with_zf (JBool (a1 =? 0)));;
  modify (with_pf (JNum (table_get parity_table a1)));;
  modify (with_cf (JNum 0));;
  set_a a1.

Definition ana (r : Z) : M unit :=
  v ← reg r; ana_im8 v.

Definition xra_im8 (v : Z) : M unit :=
  a0 ← a;
  let a1 := Z.lxor a0 v in
  modify (with_sf (JBool (negb (Z.land a1 0x80 =? 0))));;
  modify (with_zf (JBool (a1 =? 0)));;
  modify (with_hf (JNum 0));;
  modify (with_pf (JNum (table_get parity_table a1)));;
  modify (with_cf (JNum 0));;
  set_a a1.

Definition xra (r : Z) : M unit :=
  v ← reg r; xra_im8 v.

Definition ora_im8 (v : Z) : M unit :=
  a0 ← a;
  let a1 := Z.lor a0 v in
  modify (with_sf (JBool (negb (Z.land a1 0x80 =? 0))));;
  modify (with_zf (JBool (a1 =? 0)));;
  modify (with_hf (JNum 0));;
  modify (with_pf (JNum (table_get parity_table a1)));;
  modify (with_cf (JNum 0));;
  set_a a1.

Definition ora (r : Z) : M unit :=
  v ← reg r; ora_im8 v.

(** r - 0 (bc), 2 (de), 4 (hl), 6 (sp) *)
Definition dad (r : Z) : M unit :=
  x ← hl;
  y ← rp r;
  let hl := x + y in
  modify (with_cf (JBool (negb (Z.land hl 0x10000 =? 0))));;
  set_h (Z.shiftr hl 8);;
  set_l (Z.land hl 0xff).

Definition pop : M Z :=
  addr ← get sp;
  v ← memory_read_word addr true;
  modify (fun s => with_sp (Z.land (sp s + 2) 0xffff) s);;
  mret v.

Definition push (v : Z) : M unit :=
  modify (fun s => with_sp (Z.land (sp s - 2) 0xffff) s);;
  addr ← get sp;
  memory_write_word addr v true.

Definition call (w16 : Z) : M unit :=
  ret_addr ← get pc;
  push ret_addr;;
  modify (with_pc w16).

Definition ret : M unit :=
  w16 ← pop;
  modify (with_pc w16).

Definition rst (addr : Z) : M unit :=
  ret_addr ← get pc;
  push ret_addr;;
  modify (with_pc addr).

Definition T4 : Z := 4.
Definition T43 : Z := 8.
Definition T5 : Z := 8.
Definition T433 : Z := 12.
Definition T43333 : Z := 20.
Definition T4333 : Z := 16.
Definition T533 : Z := 16.
Definition T53333 : Z := 24.
Definition T43335 : Z := 24.

(** [that.vcycles = v; that.cpu_cycles = n;] *)
Definition cycles (v n : Z) : M unit :=
  modify (with_vcycles v);;
  modify (with_cpu_cycles n).

(** ** The closures of [initHandlers]

    Each closure is called with the opcode it was fetched for; those that
    declare no parameter ignore it. *)

(* nop, 0x00, 00rrr000 *)
Definition h_nop (opcode : Z) : M unit :=
  cycles T4 4.

(* lxi, 0x01, 00rr0001 *)
Definition h_lxi (opcode : Z) : M unit :=
  cycles T433 10;;
  w16 ← next_pc_word;
  set_rp (Z.shiftr opcode 3) w16.

(* stax, 0x02, 000r0010 *)
Definition h_stax (opcode : Z) : M unit :=
  cycles T43 7;;
  addr ← rp (Z.shiftr opcode 3);
  v ← a;
  memory_write_byte addr v false.

(* inx, 0x03, 00rr0011 *)
Definition h_inx (opcode : Z) : M unit :=
  cycles T5 5;;
  let r := Z.shiftr opcode 3 in
  w16 ← rp r;
  set_rp r (Z.land (w16 + 1) 0xffff).

(* inr, 0x04, 00rrr100 *)
Definition h_inr (opcode : Z) : M unit :=
  cycles T5 5;;
  inr (Z.shiftr opcode 3).

Definition h_inr_m (opcode : Z) : M unit :=
  cycles T433 10;;
  inr (Z.shiftr opcode 3).

(* dcr, 0x05, 00rrr100 *)
Definition h_dcr (opcode : Z) : M unit :=
  cycles T5 5;;
  dcr (Z.shiftr opcode 3).

Definition h_dcr_m (opcode : Z) : M unit :=
  cycles T433 10;;
  dcr (Z.shiftr opcode 3).

(* mvi, 0x06, 00rrr110 *)
Definition h_mvi (opcode : Z) : M unit :=
  cycles T43 7;;
  v ← next_pc_byte;
  set_reg (Z.shiftr opcode 3) v.

Definition h_mvi_m (opcode : Z) : M unit :=
  cycles T433 10;;
  v ← next_pc_byte;
  set_reg (Z.shiftr opcode 3) v.

Definition h_rlc (opcode : Z) : M unit :=
  cycles T4 4;;
  a0 ← a;
  modify (with_cf (JBool (negb (Z.land a0 0x80 =? 0))));;
  carry ← get cf;
  set_a (Z.lor (Z.land (Z.shiftl a0 1) 0xff) (to_number carry)).

(* dad, 0x09, 00rr1001 *)
Definition h_dad (opcode : Z) : M unit :=
  cycles T433 10;;
  dad (Z.shiftr (Z.land opcode 0x30) 3).

(* ldax, 0x0A, 000r1010 *)
Definition h_ldax (opcode : Z) : M unit :=
  cycles T43 7;;
  let r := Z.shiftr (Z.land opcode 0x10) 3 in
  addr ← rp r;
  v ← memory_read_byte addr false;
  set_a v.

(* dcx, 0x0B, 00rr1011 *)
Definition h_dcx (opcode : Z) : M unit :=
  cycles T5 5;;
  let r := Z.shiftr (Z.land opcode 0x30) 3 in
  w16 ← rp r;
  set_rp r (Z.land (w16 - 1) 0xffff).

Definition h_rrc (opcode : Z) : M unit :=
  cycles T4 4;;
  a0 ← a;
  modify (with_cf (JNum (Z.land a0 0x01)));;
  a1 ← a;
  carry ← get cf;
  set_a (Z.lor (Z.shiftr a1 1) (Z.shiftl (to_number carry) 7)).

Definition h_ral (opcode : Z) : M unit :=
  cycles T4 4;;
  w8 ← get cf;
  a0 ← a;
  modify (with_cf (JBool (negb (Z.land a0 0x80 =? 0))));;
  a1 ← a;
  set_a (Z.lor (Z.shiftl a1 1) (to_number w8)).

Definition h_rar (opcode : Z) : M unit :=
  cycles T4 4;;
  w8 ← get cf;
  a0 ← a;
  modify (with_cf (JNum (Z.land a0 0x01)));;
  a1 ← a;
  set_a (Z.lor (Z.shiftr a1 1) (Z.shiftl (to_number w8) 7)).

Definition h_shld (opcode : Z) : M unit :=
  cycles T43333 16;;
  w16 ← next_pc_word;
  lo ← l;
  memory_write_byte w16 lo false;;
  hi ← h;
  memory_write_byte (w16 + 1) hi false.

Definition h_daa (opcode : Z) : M unit :=
  cycles T4 4;;
  carry ← get cf;
  let add := 0 in
  a0 ← a;
  hf0 ← get hf;
  let add := if truthy hf0 || (9 <? Z.land a0 0x0f) then 0x06 else add in
  cf0 ← get cf;
  let adjust_high :=
    truthy cf0 || (9 <? Z.shiftr a0 4)
    || ((9 <=? Z.shiftr a0 4) && (9 <? Z.land a0 0xf)) in
  let add := if adjust_high then Z.lor add 0x60 else add in
  let carry := if adjust_high then JNum 1 else carry in
  add_im8 add (JNum 0);;
  a1 ← a;
  modify (with_pf (JNum (table_get parity_table a1)));;
  modify (with_cf carry).

Definition h_lhld (opcode : Z) : M unit :=
  cycles T43333 16;;
  w16 ← next_pc_word;
  lo ← memory_read_byte w16 false;
  modify (fun s => with_regs (<[5 := lo]> (regs s)) s);;
  hi ← memory_read_byte (w16 + 1) false;
  modify (fun s => with_regs (<[4 := hi]> (regs s)) s).

Definition h_cma (opcode : Z) : M unit :=
  cycles T4 4;;
  a0 ← a;
  set_a (Z.lxor a0 0xff).

Definition h_sta (opcode : Z) : M unit :=
  cycles T4333 13;;
  w16 ← next_pc_word;
  v ← a;
  memory_write_byte w16 v false.

Definition h_stc (opcode : Z) : M unit :=
  cycles T4 4;;
  modify (with_cf (JNum 1)).

Definition h_lda (opcode : Z) : M unit :=
  cycles T4333 13;;
  w16 ← next_pc_word;
  v ← memory_read_byte w16 false;
  set_a v.

Definition h_cmc (opcode : Z) : M unit :=
  cycles T4 4;;
  carry ← get cf;
  modify (with_cf (js_not carry)).

(* it should be that: that.vcycles = T43; that.cpu_cycles = 7; *)
Definition h_hlt (opcode : Z) : M unit :=
  cycles T4 4;;
  modify (fun s => with_pc (Z.land (pc s - 1) 0xffff) s).

(* [opcode & 0x08 ? that.cf : 0] *)
Definition carry_in (opcode : Z) : M jsval :=
  if negb (Z.land opcode 0x08 =? 0) then get cf else mret (JNum 0).

(* add, 0x80, 10000rrr; adc, 0x80, 10001rrr *)
Definition h_add (opcode : Z) : M unit :=
  let r := Z.land opcode 0x07 in
  cycles T4 4;;
  carry ← carry_in opcode;
  add r carry.

Definition h_add_m (opcode : Z) : M unit :=
  let r := Z.land opcode 0x07 in
  cycles T43 7;;
  carry ← carry_in opcode;
  add r carry.

(* sub, 0x90, 10010rrr; sbb, 0x98, 10010rrr *)
Definition h_sub (opcode : Z) : M unit :=
  let r := Z.land opcode 0x07 in
  cycles T4 4;;
  carry ← carry_in opcode;
  sub r carry.

Definition h_sub_m (opcode : Z) : M unit :=
  let r := Z.land opcode 0x07 in
  cycles T43 7;;
  carry ← carry_in opcode;
  sub r carry.

Definition h_ana (opcode : Z) : M unit :=
  let r := Z.land opcode 0x07 in
  cycles T4 4;;
  ana r.

Definition h_ana_m (opcode : Z) : M unit :=
  let r := Z.land opcode 0x07 in
  cycles T43 7;;
  ana r.

Definition h_xra (opcode : Z) : M unit :=
  let r := Z.land opcode 0x07 in
  cycles T4 4;;
  xra r.

Definition h_xra_m (opcode : Z) : M unit :=
  let r := Z.land opcode 0x07 in
  cycles T43 7;;
  xra r.

Definition h_ora (opcode : Z) : M unit :=
  let r := Z.land opcode 0x07 in
  cycles T4 4;;
  ora r.

Definition h_ora_m (opcode : Z) : M unit :=
  let r := Z.land opcode 0x07 in
  cycles T43 7;;
  ora r.

Definition h_cmp (opcode : Z) : M unit :=
  let r := Z.land opcode 0x07 in
  cycles T4 4;;
  cmp r.

Definition h_cmp_m (opcode : Z) : M unit :=
  let r := Z.land opcode 0x07 in
  cycles T43 7;;
  cmp r.

(** [const flags = [that.zf, that.cf, that.pf, that.sf];
     const r = (opcode >> 4) & 0x03;
     const direction = (opcode & 0x08) != 0;] and then [flags[r] == direction] *)
Definition condition (opcode : Z) : M bool :=
  fun s =>
    let flags := [zf s; cf s; pf s; sf s] in
    let r := Z.land (Z.shiftr opcode 4) 0x03 in
    let direction := negb (Z.land opcode 0x08 =? 0) in
    (loose_eq (default (JNum 0) (flags !! Z.to_nat r)) direction, s).

(* rnz, rz, rnc, rc, rpo, rpe, rp, rm; 0xC0, 11ccd000 *)
Definition h_rcc (opcode : Z) : M unit :=
  taken ← condition opcode;
  cycles T5 5;;
  if (taken : bool) then
    modify (with_cpu_cycles 11);;
    modify (with_vcycles T533);;
    ret
  else mret tt.

(* pop, 0xC1, 11rr0001 *)
Definition h_pop (opcode : Z) : M unit :=
  let r := Z.shiftr (Z.land opcode 0x30) 3 in
  cycles T433 10;;
  w16 ← pop;
  if negb (r =? 6) then set_rp r w16
  else
    set_a (Z.shiftr w16 8);;
    retrieve_flags (Z.land w16 0xff).

(* jnz, jz, jnc, jc, jpo, jpe, jp, jm; 0xC2, 11ccd010 *)
Definition h_jcc (opcode : Z) : M unit :=
  taken ← condition opcode;
  cycles T433 10;;
  w16 ← next_pc_word;
  if (taken : bool) then modify (with_pc w16) else modify (fun s => with_pc (pc s) s).

(* jmp, 0xc3, 1100r011 *)
Definition h_jmp (opcode : Z) : M unit :=
  cycles T433 10;;
  w16 ← next_pc_word;
  modify (with_pc w16).

(* cnz, cz, cnc, cc, cpo, cpe, cp, cm; 0xC4, 11ccd100 *)
Definition h_ccc (opcode : Z) : M unit :=
  taken ← condition opcode;
  w16 ← next_pc_word;
  cycles T533 11;;
  if (taken : bool) then
    cycles T53333 17;;
    call w16
  else mret tt.

(* push, 0xC5, 11rr0101 *)
Definition h_push (opcode : Z) : M unit :=
  let r := Z.shiftr (Z.land opcode 0x30) 3 in
  cycles T533 11;;
  w16 ← (if negb (r =? 6) then rp r
         else a0 ← a; f ← store_flags; mret (Z.lor (Z.shiftl a0 8) f));
  push w16.

Definition h_adi (opcode : Z) : M unit :=
  cycles T43 7;;
  v ← next_pc_byte;
  add_im8 v (JNum 0).

(* rst, 0xC7, 11aaa111 *)
Definition h_rst (opcode : Z) : M unit :=
  cycles T533 11;;
  rst (Z.land opcode 0x38).

(* ret, 0xc9, 110r1001 *)
Definition h_ret (opcode : Z) : M unit :=
  cycles T433 10;;
  ret.

(* call, 0xcd, 11rr1101 *)
Definition h_call (opcode : Z) : M unit :=
  cycles T53333 17;;
  w16 ← next_pc_word;
  call w16.

Definition h_aci (opcode : Z) : M unit :=
  cycles T43 7;;
  v ← next_pc_byte;
  carry ← get cf;
  add_im8 v carry.

Definition h_out (opcode : Z) : M unit :=
  cycles T433 10;;
  port ← next_pc_byte;
  v ← a;
  output port v.

Definition h_sui (opcode : Z) : M unit :=
  cycles T43 7;;
  v ← next_pc_byte;
  sub_im8 v (JNum 0).

Definition h_in (opcode : Z) : M unit :=
  cycles T433 10;;
  port ← next_pc_byte;
  v ← input port;
  set_a v.

Definition h_sbi (opcode : Z) : M unit :=
  cycles T43 7;;
  v ← next_pc_byte;
  carry ← get cf;
  sub_im8 v carry.

Definition h_xthl (opcode : Z) : M unit :=
  cycles T43335 18;;
  addr ← get sp;
  w16 ← memory_read_word addr true;
  x ← hl;
  memory_write_word addr x true;;
  set_l (Z.land w16 0xff);;
  set_h (Z.shiftr w16 8).

Definition h_ani (opcode : Z) : M unit :=
  cycles T43 7;;
  v ← next_pc_byte;
  ana_im8 v.

Definition h_pchl (opcode : Z) : M unit :=
  cycles T5 5;;
  x ← hl;
  modify (with_pc x).

Definition h_xchg (opcode : Z) : M unit :=
  cycles T4 4;;
  w8 ← l;
  x ← e;
  set_l x;;
  set_e w8;;
  w8 ← h;
  x ← d;
  set_h x;;
  set_d w8.

Definition h_xri (opcode : Z) : M unit :=
  cycles T43 7;;
  v ← next_pc_byte;
  xra_im8 v.

(* di/ei, 1111c011; c - 0 (di), 1 (ei) *)
Definition h_di_ei (opcode : Z) : M unit :=
  cycles T4 4;;
  if negb (Z.land opcode 0x08 =? 0) then
    modify (with_iff_pending 2)
  else
    modify (with_iff false);;
    interrupt false.

Definition h_ori (opcode : Z) : M unit :=
  cycles T43 7;;
  v ← next_pc_byte;
  ora_im8 v.

Definition h_sphl (opcode : Z) : M unit :=
  cycles T5 5;;
  x ← hl;
  modify (with_sp x).

Definition h_cpi (opcode : Z) : M unit :=
  cycles T43 7;;
  v ← next_pc_byte;
  cmp_im8 v.

(* mov, 0x40, 01dddsss *)
Definition h_mov (opcode : Z) : M unit :=
  let src := Z.land opcode 7 in
  let dst := Z.land (Z.shiftr opcode 3) 7 in
  (if (src =? 6) || (dst =? 6) then cycles T43 7
   else cycles T5 (if (src =? 6) || (dst =? 6) then 7 else 5));;
  v ← reg src;
  set_reg dst v.

(** ** The dispatch table [this.handler]

    [handler opcode] is the closure stored at index [opcode], [None] where
    the table has no entry. *)

Definition handler (opcode : Z) : option (Z -> M unit) :=
  match opcode with
  | 0x00 | 0x08 | 0x10 | 0x18 | 0x20 | 0x28 | 0x30 | 0x38 => Some h_nop
  | 0x01 | 0x11 | 0x21 | 0x31 => Some h_lxi
  | 0x02 | 0x12 => Some h_stax
  | 0x03 | 0x13 | 0x23 | 0x33 => Some h_inx
  | 0x04 | 0x0C | 0x14 | 0x1C | 0x24 | 0x2C | 0x3C => Some h_inr
  | 0x34 => Some h_inr_m
  | 0x05 | 0x0D | 0x15 | 0x1D | 0x25 | 0x2D | 0x3D => Some h_dcr
  | 0x35 => Some h_dcr_m
  | 0x06 | 0x0E | 0x16 | 0x1E | 0x26 | 0x2E | 0x3E => Some h_mvi
  | 0x36 => Some h_mvi_m
  | 0x07 => Some h_rlc
  | 0x09 | 0x19 | 0x29 | 0x39 => Some h_dad
  | 0x0A | 0x1A => Some h_ldax
  | 0x0B | 0x1B | 0x2B | 0x3B => Some h_dcx
  | 0x0F => Some h_rrc
  | 0x17 => Some h_ral
  | 0x1F => Some h_rar
  | 0x22 => Some h_shld
  | 0x27 => Some h_daa
  | 0x2A => Some h_lhld
  | 0x2F => Some h_cma
  | 0x32 => Some h_sta
  | 0x37 => Some h_stc
  | 0x3A => Some h_lda
  | 0x3F => Some h_cmc
  | 0x76 => Some h_hlt
  | 0x80 | 0x81 | 0x82 | 0x83 | 0x84 | 0x85 | 0x87
  | 0x88 | 0x89 | 0x8A | 0x8B | 0x8C | 0x8D | 0x8F => Some h_add
  | 0x86 | 0x8E => Some h_add_m
  | 0x90 | 0x91 | 0x92 | 0x93 | 0x94 | 0x95 | 0x97
  | 0x98 | 0x99 | 0x9A | 0x9B | 0x9C | 0x9D | 0x9F => Some h_sub
  | 0x96 | 0x9E => Some h_sub_m
  | 0xA0 | 0xA1 | 0xA2 | 0xA3 | 0xA4 | 0xA5 | 0xA7 => Some h_ana
  | 0xA6 => Some h_ana_m
  | 0xA8 | 0xA9 | 0xAA | 0xAB | 0xAC | 0xAD | 0xAF => Some h_xra
  | 0xAE => Some h_xra_m
  | 0xB0 | 0xB1 | 0xB2 | 0xB3 | 0xB4 | 0xB5 | 0xB7 => Some h_ora
  | 0xB6 => Some h_ora_m
  | 0xB8 | 0xB9 | 0xBA | 0xBB | 0xBC | 0xBD | 0xBF => Some h_cmp
  | 0xBE => Some h_cmp_m
  | 0xC0 | 0xC8 | 0xD0 | 0xD8 | 0xE0 | 0xE8 | 0xF0 | 0xF8 => Some h_rcc
  | 0xC1 | 0xD1 | 0xE1 | 0xF1 => Some h_pop
  | 0xC2 | 0xCA | 0xD2 | 0xDA | 0xE2 | 0xEA | 0xF2 | 0xFA => Some h_jcc
  | 0xC3 | 0xCB => Some h_jmp
  | 0xC4 | 0xCC | 0xD4 | 0xDC | 0xE4 | 0xEC | 0xF4 | 0xFC => Some h_ccc
  | 0xC5 | 0xD5 | 0xE5 | 0xF5 => Some h_push
  | 0xC6 => Some h_adi
  | 0xC7 | 0xCF | 0xD7 | 0xDF | 0xE7 | 0xEF | 0xF7 | 0xFF => Some h_rst
  | 0xC9 | 0xD9 => Some h_ret
  | 0xCD | 0xDD | 0xED | 0xFD => Some h_call
  | 0xCE => Some h_aci
  | 0xD3 => Some h_out
  | 0xD6 => Some h_sui
  | 0xDB => Some h_in
  | 0xDE => Some h_sbi
  | 0xE3 => Some h_xthl
  | 0xE6 => Some h_ani
  | 0xE9 => Some h_pchl
  | 0xEB => Some h_xchg
  | 0xEE => Some h_xri
  | 0xF3 | 0xFB => Some h_di_ei
  | 0xF6 => Some h_ori
  | 0xF9 => Some h_sphl
  | 0xFE => Some h_cpi
  | 0x40 | 0x41 | 0x42 | 0x43 | 0x44 | 0x45 | 0x46 | 0x47
  | 0x48 | 0x49 | 0x4A | 0x4B | 0x4C | 0x4D | 0x4E | 0x4F
  | 0x50 | 0x51 | 0x52 | 0x53 | 0x54 | 0x55 | 0x56 | 0x57
  | 0x58 | 0x59 | 0x5A | 0x5B | 0x5C | 0x5D | 0x5E | 0x5F
  | 0x60 | 0x61 | 0x62 | 0x63 | 0x64 | 0x65 | 0x66 | 0x67
  | 0x68 | 0x69 | 0x6A | 0x6B | 0x6C | 0x6D | 0x6E | 0x6F
  | 0x70 | 0x71 | 0x72 | 0x73 | 0x74 | 0x75 | 0x77
  | 0x78 | 0x79 | 0x7A | 0x7B | 0x7C | 0x7D | 0x7E | 0x7F => Some h_mov
  | _ => None
  end.

(** ** The instruction step *)

(** The tail of [execute]: the count-down that EI starts. *)
Definition iff_countdown : M unit :=
  pending ← get iff_pending;
  if negb ((pending : Z) =? 0) then
    modify (with_iff_pending (pending - 1));;
    if pending - 1 =? 0 then
      modify (with_iff true);;
      interrupt true
    else mret tt
  else mret tt.

Definition execute (opcode : Z) : M Z :=
  modify (with_last_opcode opcode);;
  match handler opcode with
  | Some h => h opcode
  | None => mret tt (* alert("Oops! Unhandled opcode ...") *)
  end;;
  iff_countdown;;
  get cpu_cycles.

Definition instruction : M Z :=
  opcode ← next_pc_byte;
  execute opcode.

Definition jump (addr : Z) : M unit :=
  modify (with_pc (Z.land addr 0xffff)).

(** The object the constructor builds; [vcycles] and [cpu_cycles] exist only
    once the first instruction has assigned them and stand at 0 until then. *)
Definition new (mem : gmap Z Z) (device : IO) : state :=
  {| sp := 0; pc := 0; iff := false; iff_pending := 0;
     sf := JNum 0; pf := JNum 0; hf := JNum 0; zf := JNum 0; cf := JNum 0;
     regs := list_to_map [(0, 0); (1, 0); (2, 0); (3, 0);
                          (4, 0); (5, 0); (6, 0); (7, 0)];
     memory := mem; io := device;
     last_opcode := 0; vcycles := 0; cpu_cycles := 0 |}.

End I8080.

(** The [IO] device of the driver: [input] answers 0, nothing is recorded yet. *)
Definition IO_new : IO := mkIO (fun _ => 0) [].

Import I8080.

(** * Notions used in the statements *)

(** The state the closure of [opcode] leaves, before the count-down. *)
Definition run_handler (opcode : Z) (s : state) : state :=
  run (match handler opcode with
       | Some h => h opcode
       | None => mret tt
       end) (with_last_opcode opcode s).

(** A computation leaves a field of the state as it found it. *)
Definition preserves {A B : Type} (field : state -> B) (m : M A) : Prop :=
  forall s, field (run m s) = field s.

(** 8-bit and 16-bit unsigned values. *)
Definition is_byte (v : Z) : bool := (0 <=? v) && (v <? 256).
Definition is_word (v : Z) : bool := (0 <=? v) && (v <? 65536).

(** A flag holds 0, 1, [false] or [true]. *)
Definition is_flag (f : jsval) : bool :=
  match f with
  | JNum n => (n =? 0) || (n =? 1)
  | JBool _ => true
  end.

(** The invariants of the data model: the eight slots of [regs] hold bytes,
    [pc] and [sp] are 16-bit, the flags are flags.  On such states every
    number the code computes stays far below 2^31, where JavaScript's 32-bit
    bit operations and those of [Z] agree. *)
Definition wf_state (s : state) : bool :=
  forallb (fun r => from_option is_byte false (regs s !! r)) (seqZ 0 8)
  && is_word (pc s) && is_word (sp s)
  && is_flag (sf s) && is_flag (zf s) && is_flag (hf s)
  && is_flag (pf s) && is_flag (cf s).

(** Bit [n] of [x], as 0 or 1. *)
Definition bit (x n : Z) : Z := Z.b2z (Z.testbit x n).

(** 1 when the number of set bits among the low eight of [x] is even. *)
Definition even_parity (x : Z) : Z :=
  if Z.even (foldr Z.add 0 (bit x <$> seqZ 0 8)) then 1 else 0.

(** What [add_im8] stores, for an accumulator [a0], an operand [v] and a
    carry-in [c]: the sum's low byte and the five flags. *)
Definition add_im8_result (a0 v c : Z) : Z * jsval * jsval * jsval * jsval * jsval :=
  let w16 := a0 + v + c in
  let index := Z.lor (Z.lor (Z.shiftr (Z.land a0 0x88) 1)
                            (Z.shiftr (Z.land v 0x88) 2))
                     (Z.shiftr (Z.land w16 0x88) 3) in
  let a1 := Z.land w16 0xff in
  (a1,
   JBool (negb (Z.land a1 0x80 =? 0)),
   JBool (a1 =? 0),
   JNum (table_get half_carry_table (Z.land index 0x7)),
   JNum (table_get parity_table a1),
   JBool (negb (Z.land w16 0x0100 =? 0))).

(** The accumulator and the flags of a sum, as the specification describes
    them, against what [add_im8] stores. *)
Definition add_flags_ok (a0 v c : Z) : bool :=
  let sum := a0 + v + c in
  let r := sum mod 256 in
  let '(a1, sf1, zf1, hf1, pf1, cf1) := add_im8_result a0 v c in
  (Z.land a1 0xff =? r)
  && (to_number cf1 =? bit sum 8)
  && (to_number sf1 =? bit r 7)
  && (to_number zf1 =? Z.b2z (r =? 0))
  && (to_number pf1 =? even_parity r)
  && (to_number hf1 =?
      table_get [0; 0; 1; 0; 1; 0; 1; 1] (4 * bit a0 3 + 2 * bit v 3 + bit r 3)).

(** The operand and the carry-in of the instructions of the ADD family:
    ADD r (0x80..0x87), ADC r (0x88..0x8F), ADI d8 (0xC6), ACI d8 (0xCE);
    r = 6 is M, the byte at HL, and d8 is the byte at [pc]. *)
Definition add_family (opcode : Z) (s : state) : option (Z * Z) :=
  if (0x80 <=? opcode) && (opcode <=? 0x87) then
    Some (result (reg (opcode - 0x80)) s, 0)
  else if (0x88 <=? opcode) && (opcode <=? 0x8F) then
    Some (result (reg (opcode - 0x88)) s, to_number (cf s))
  else if opcode =? 0xC6 then
    Some (result next_pc_byte s, 0)
  else if opcode =? 0xCE then
    Some (result next_pc_byte s, to_number (cf s))
  else None.

(** The five flags, in the order SF, ZF, HF, PF, CF. *)
Definition flags (s : state) : jsval * jsval * jsval * jsval * jsval :=
  (sf s, zf s, hf s, pf s, cf s).

(** Two bytes side by side. *)
Definition bytes_join_ok (lo hi : Z) : bool :=
  (Z.lor lo (Z.shiftl hi 8) =? lo + 256 * hi)
  && (Z.lor (Z.shiftl hi 8) lo =? lo + 256 * hi).

(** The flag byte, from the truth values of SF, ZF, HF, PF and CF. *)
Definition flag_byte (s z h p c : bool) : Z :=
  2 + (if s then 0x80 else 0) + (if z then 0x40 else 0) + (if h then 0x10 else 0)
    + (if p then 0x04 else 0) + (if c then 0x01 else 0).

(** The T-state counts of the Intel 8080 data sheet, by opcode; [taken]
    tells whether the condition of a conditional call or return holds.  The
    undocumented opcodes count as the instructions they are aliases of. *)
Definition documented_tstates (opcode : Z) (taken : bool) : Z :=
  match opcode with
  (* NOP *)
  | 0x00 | 0x08 | 0x10 | 0x18 | 0x20 | 0x28 | 0x30 | 0x38 => 4
  (* LXI, DAD *)
  | 0x01 | 0x11 | 0x21 | 0x31 | 0x09 | 0x19 | 0x29 | 0x39 => 10
  (* STAX, LDAX *)
  | 0x02 | 0x12 | 0x0A | 0x1A => 7
  (* SHLD, LHLD *)
  | 0x22 | 0x2A => 16
  (* STA, LDA *)
  | 0x32 | 0x3A => 13
  (* INX, DCX *)
  | 0x03 | 0x13 | 0x23 | 0x33 | 0x0B | 0x1B | 0x2B | 0x3B => 5
  (* INR r, DCR r *)
  | 0x04 | 0x0C | 0x14 | 0x1C | 0x24 | 0x2C | 0x3C
  | 0x05 | 0x0D | 0x15 | 0x1D | 0x25 | 0x2D | 0x3D => 5
  (* INR M, DCR M, MVI M *)
  | 0x34 | 0x35 | 0x36 => 10
  (* MVI r *)
  | 0x06 | 0x0E | 0x16 | 0x1E | 0x26 | 0x2E | 0x3E => 7
  (* RLC, RRC, RAL, RAR, DAA, CMA, STC, CMC *)
  | 0x07 | 0x0F | 0x17 | 0x1F | 0x27 | 0x2F | 0x37 | 0x3F => 4
  (* HLT *)
  | 0x76 => 7
  (* MOV r, M and MOV M, r *)
  | 0x46 | 0x4E | 0x56 | 0x5E | 0x66 | 0x6E | 0x7E
  | 0x70 | 0x71 | 0x72 | 0x73 | 0x74 | 0x75 | 0x77 => 7
  (* ADD M ... CMP M *)
  | 0x86 | 0x8E | 0x96 | 0x9E | 0xA6 | 0xAE | 0xB6 | 0xBE => 7
  (* Rcc *)
  | 0xC0 | 0xC8 | 0xD0 | 0xD8 | 0xE0 | 0xE8 | 0xF0 | 0xF8 =>
      if taken then 11 else 5
  (* POP, JMP, Jcc, RET, OUT, IN *)
  | 0xC1 | 0xD1 | 0xE1 | 0xF1 | 0xC3 | 0xCB
  | 0xC2 | 0xCA | 0xD2 | 0xDA | 0xE2 | 0xEA | 0xF2 | 0xFA
  | 0xC9 | 0xD9 | 0xD3 | 0xDB => 10
  (* Ccc *)
  | 0xC4 | 0xCC | 0xD4 | 0xDC | 0xE4 | 0xEC | 0xF4 | 0xFC =>
      if taken then 17 else 11
  (* PUSH, RST *)
  | 0xC5 | 0xD5 | 0xE5 | 0xF5
  | 0xC7 | 0xCF | 0xD7 | 0xDF | 0xE7 | 0xEF | 0xF7 | 0xFF => 11
  (* ADI, ACI, SUI, SBI, ANI, XRI, ORI, CPI *)
  | 0xC6 | 0xCE | 0xD6 | 0xDE | 0xE6 | 0xEE | 0xF6 | 0xFE => 7
  (* CALL *)
  | 0xCD | 0xDD | 0xED | 0xFD => 17
  (* XTHL *)
  | 0xE3 => 18
  (* PCHL, SPHL *)
  | 0xE9 | 0xF9 => 5
  (* XCHG, DI, EI *)
  | 0xEB | 0xF3 | 0xFB => 4
  (* MOV r, r *)
  | 0x40 | 0x41 | 0x42 | 0x43 | 0x44 | 0x45 | 0x47
  | 0x48 | 0x49 | 0x4A | 0x4B | 0x4C | 0x4D | 0x4F
  | 0x50 | 0x51 | 0x52 | 0x53 | 0x54 | 0x55 | 0x57
  | 0x58 | 0x59 | 0x5A | 0x5B | 0x5C | 0x5D | 0x5F
  | 0x60 | 0x61 | 0x62 | 0x63 | 0x64 | 0x65 | 0x67
  | 0x68 | 0x69 | 0x6A | 0x6B | 0x6C | 0x6D | 0x6F
  | 0x78 | 0x79 | 0x7A | 0x7B | 0x7C | 0x7D | 0x7F => 5
  (* ADD r ... CMP r *)
  | _ => 4
  end.

(** The closure of [opcode] counts the documented T-states. *)
Definition handler_tstates (opcode : Z) : Prop :=
  forall s, cpu_cycles (run_handler opcode s) =
            documented_tstates opcode (result (condition opcode) s).

(** A computation keeps the invariants, and its value satisfies [R]. *)
Definition keeps_wf {A : Type} (R : A -> Prop) (m : M A) : Prop :=
  forall s, wf_state s = true -> wf_state (run m s) = true /\ R (result m s).

(** Every entry of a table is 0 or 1. *)
Definition flag_entries (t : list Z) : bool :=
  forallb (fun v => is_flag (JNum v)) t.

(** The closure of [opcode], if there is one, keeps the invariants. *)
Definition handler_keeps_wf (opcode : Z) : Prop :=
  keeps_wf (fun _ => True)
    (match handler opcode with Some h => h opcode | None => mret tt end).

(** ** Notions for the properties beyond the claims *)

(** [vcycles] and [cpu_cycles] together. *)
Definition cycle_pair (s : state) : Z * Z := (vcycles s, cpu_cycles s).

(** The pairs of [vcycles] and [cpu_cycles] that the closures store. *)
Definition cycle_pairs : list (Z * Z) :=
  [(T4, 4); (T43, 7); (T5, 5); (T433, 10); (T43333, 16); (T4333, 13);
   (T533, 11); (T53333, 17); (T43335, 18)].

(** The closure of [opcode] leaves one of the pairs of [cycle_pairs]. *)
Definition handler_cycle_pair (opcode : Z) : Prop :=
  forall s, cycle_pair (run_handler opcode s) ∈ cycle_pairs.

(** The byte the CPU reads at an address. *)
Definition mem_byte (s : state) (addr : Z) : Z :=
  result (memory_read_byte addr false) s.

(** The little-endian word the CPU reads at an address. *)
Definition mem_word (s : state) (addr : Z) : Z :=
  mem_byte s addr + 256 * mem_byte s ((addr + 1) mod 65536).

(** The flag a condition code selects: 0 (ZF), 1 (CF), 2 (PF), 3 (SF). *)
Definition selected_flag (cc : Z) (s : state) : jsval :=
  if cc =? 0 then zf s else if cc =? 1 then cf s
  else if cc =? 2 then pf s else sf s.

(** [store_flags] after [retrieve_flags], on a byte. *)
Definition flag_byte_roundtrip_ok (f : Z) : bool :=
  flag_byte (negb (Z.land f F_NEG =? 0)) (negb (Z.land f F_ZERO =? 0))
            (negb (Z.land f F_HCARRY =? 0)) (negb (Z.land f F_PARITY =? 0))
            (negb (Z.land f F_CARRY =? 0))
  =? Z.lor (Z.land f 0xD5) 0x02.

(** The opcodes whose closure assigns a flag. *)
Definition affects_flags (opcode : Z) : bool :=
  ((opcode <? 0x40)
   && ((Z.land opcode 0x06 =? 0x04)                 (* INR, DCR: 00rrr10x *)
       || ((Z.land opcode 0x07 =? 0x07)
           && negb (opcode =? 0x2F))   (* RLC RRC RAL RAR DAA STC CMC, not CMA *)
       || (Z.land opcode 0x0F =? 0x09)))            (* DAD: 00rr1001 *)
  || ((0x80 <=? opcode) && (opcode <? 0xC0))        (* ADD ... CMP *)
  || ((0xC0 <=? opcode) && (Z.land opcode 0x07 =? 0x06))   (* ADI ... CPI *)
  || (opcode =? 0xF1).                              (* POP PSW *)

(** The opcodes whose closure can write to the memory. *)
Definition writes_memory (opcode : Z) : bool :=
  (opcode =? 0x02) || (opcode =? 0x12)              (* STAX B, STAX D *)
  || (opcode =? 0x22) || (opcode =? 0x32)           (* SHLD, STA *)
  || (opcode =? 0x34) || (opcode =? 0x35) || (opcode =? 0x36)
                                                    (* INR M, DCR M, MVI M *)
  || ((0x70 <=? opcode) && (opcode <? 0x78)
      && negb (opcode =? 0x76))                     (* MOV M, r *)
  || ((0xC0 <=? opcode)
      && ((Z.land opcode 0x07 =? 0x04)              (* Ccc *)
          || (Z.land opcode 0x07 =? 0x07)           (* RST *)
          || (Z.land opcode 0x0F =? 0x05)           (* PUSH *)
          || (Z.land opcode 0x0F =? 0x0D)           (* CALL and its aliases *)
          || (opcode =? 0xE3))).                    (* XTHL *)

(** The closure of an opcode, the empty one where the table has none. *)
Definition closure (opcode : Z) : M unit :=
  match handler opcode with
  | Some h => h opcode
  | None => mret tt
  end.

(** What [sub_im8] stores, for an accumulator [a0], an operand [v] and a
    borrow-in [c]: the difference's low byte and the five flags. *)
Definition sub_im8_result (a0 v c : Z) : Z * jsval * jsval * jsval * jsval * jsval :=
  let w16 := Z.land (a0 - v - c) 0xffff in
  let index := Z.lor (Z.lor (Z.shiftr (Z.land a0 0x88) 1)
                            (Z.shiftr (Z.land v 0x88) 2))
                     (Z.shiftr (Z.land w16 0x88) 3) in
  let a1 := Z.land w16 0xff in
  (a1,
   JBool (negb (Z.land a1 0x80 =? 0)),
   JBool (a1 =? 0),
   js_not (JNum (table_get sub_half_carry_table (Z.land index 0x7))),
   JNum (table_get parity_table a1),
   JBool (negb (Z.land w16 0x0100 =? 0))).

(** The accumulator and the flags of a difference, in arithmetic terms,
    against what [sub_im8] stores. *)
Definition sub_flags_ok (a0 v c : Z) : bool :=
  let r := (a0 - v - c) mod 256 in
  let '(a1, sf1, zf1, hf1, pf1, cf1) := sub_im8_result a0 v c in
  (Z.land a1 0xff =? r)
  && Bool.eqb (truthy cf1) (a0 <? v + c)
  && (to_number sf1 =? bit r 7)
  && Bool.eqb (truthy zf1) (r =? 0)
  && (to_number pf1 =? even_parity r)
  && Bool.eqb (truthy hf1) (v mod 16 + c <=? a0 mod 16).

(** The operand and the borrow-in of the instructions of the SUB family:
    SUB r (0x90..0x97), SBB r (0x98..0x9F), SUI d8 (0xD6), SBI d8 (0xDE);
    r = 6 is M, the byte at HL, and d8 is the byte at [pc]. *)
Definition sub_family (opcode : Z) (s : state) : option (Z * Z) :=
  if (0x90 <=? opcode) && (opcode <=? 0x97) then
    Some (result (reg (opcode - 0x90)) s, 0)
  else if (0x98 <=? opcode) && (opcode <=? 0x9F) then
    Some (result (reg (opcode - 0x98)) s, to_number (cf s))
  else if opcode =? 0xD6 then
    Some (result next_pc_byte s, 0)
  else if opcode =? 0xDE then
    Some (result next_pc_byte s, to_number (cf s))
  else None.

(** The three bitwise operations of the logic instructions. *)
Inductive logic_op : Type := OpAnd | OpXor | OpOr.

Definition logic_apply (op : logic_op) (x y : Z) : Z :=
  match op with
  | OpAnd => Z.land x y
  | OpXor => Z.lxor x y
  | OpOr => Z.lor x y
  end.

(** The method behind each operation. *)
Definition logic_im8 (op : logic_op) : Z -> M unit :=
  match op with
  | OpAnd => ana_im8
  | OpXor => xra_im8
  | OpOr => ora_im8
  end.

(** The operation and the operand of the logic instructions: ANA r
    (0xA0..0xA7), XRA r (0xA8..0xAF), ORA r (0xB0..0xB7), ANI d8 (0xE6),
    XRI d8 (0xEE), ORI d8 (0xF6). *)
Definition logic_family (opcode : Z) (s : state) : option (logic_op * Z) :=
  if (0xA0 <=? opcode) && (opcode <=? 0xA7) then
    Some (OpAnd, result (reg (opcode - 0xA0)) s)
  else if (0xA8 <=? opcode) && (opcode <=? 0xAF) then
    Some (OpXor, result (reg (opcode - 0xA8)) s)
  else if (0xB0 <=? opcode) && (opcode <=? 0xB7) then
    Some (OpOr, result (reg (opcode - 0xB0)) s)
  else if opcode =? 0xE6 then Some (OpAnd, result next_pc_byte s)
  else if opcode =? 0xEE then Some (OpXor, result next_pc_byte s)
  else if opcode =? 0xF6 then Some (OpOr, result next_pc_byte s)
  else None.

(** Bitwise operations on bytes give bytes. *)
Definition logic_bytes_ok (x y : Z) : bool :=
  is_byte (Z.land x y) && is_byte (Z.lxor x y) && is_byte (Z.lor x y).

(** What the rotate closures and CMA compute from the accumulator [x] and
    the carry [c], against shifts written with arithmetic; and the way
    back. *)
Definition rotate_ok (x : Z) : bool :=
  let top := JBool (negb (Z.land x 0x80 =? 0)) in
  let low := JNum (Z.land x 0x01) in
  (Z.land (Z.lor (Z.land (Z.shiftl x 1) 0xff) (to_number top)) 0xff
     =? (2 * x) mod 256 + x / 128)
  && (to_number top =? x / 128)
  && (Z.land (Z.lor (Z.shiftr x 1) (Z.shiftl (to_number low) 7)) 0xff
        =? x / 2 + 128 * (x mod 2))
  && (to_number low =? x mod 2)
  && forallb (fun c =>
        (Z.land (Z.lor (Z.shiftl x 1) c) 0xff =? (2 * x + c) mod 256)
        && (Z.land (Z.lor (Z.shiftr x 1) (Z.shiftl c 7)) 0xff =? x / 2 + 128 * c)
        && (((2 * x + c) mod 256) / 2 + 128 * (x / 128) =? x)
        && (((2 * x + c) mod 256) mod 2 =? c)) [0; 1]
  && (Z.land (Z.lxor x 0xff) 0xff =? 255 - x)
  && (((2 * x) mod 256 + x / 128) / 2
        + 128 * (((2 * x) mod 256 + x / 128) mod 2) =? x).

(** A number below 100 as two decimal digits, one per nibble. *)
Definition bcd (n : Z) : Z := 16 * (n / 10) + n mod 10.

(** What the closure of DAA leaves in the accumulator and in CF, from the
    accumulator [a0] and the flags HF and CF it finds. *)
Definition daa_result (a0 : Z) (hf0 cf0 : jsval) : Z * jsval :=
  let add := 0 in
  let add := if truthy hf0 || (9 <? Z.land a0 0x0f) then 0x06 else add in
  let adjust_high :=
    truthy cf0 || (9 <? Z.shiftr a0 4)
    || ((9 <=? Z.shiftr a0 4) && (9 <? Z.land a0 0xf)) in
  let add := if adjust_high then Z.lor add 0x60 else add in
  let carry := if adjust_high then JNum 1 else cf0 in
  (Z.land (Z.land (a0 + add + 0) 0xff) 0xff, carry).

(** ADD or ADC of two decimal bytes followed by DAA, on the values. *)
Definition bcd_add_ok (x y : Z) : bool :=
  forallb (fun c =>
    let '(a1, _, _, hf1, _, cf1) := add_im8_result (bcd x) (bcd y) c in
    let '(a2, cf2) := daa_result (Z.land a1 0xff) hf1 cf1 in
    (a2 =? bcd ((x + y + c) mod 100))
    && Bool.eqb (truthy cf2) (100 <=? x + y + c)) [0; 1].

(** [n] calls of [instruction], one after the other. *)
Fixpoint instructions (n : nat) (s : state) : state :=
  match n with
  | O => s
  | S n' => instructions n' (run instruction s)
  end.

(** * Properties *)

(** ** Running computations *)

Lemma run_bind {A B : Type} (m : M A) (k : A -> M B) (s : state) :
  run (m ≫= k) s = run (k (result m s)) (run m s).
Proof. unfold run, result, mbind, M_bind. destruct (m s); reflexivity. Qed.

Lemma result_bind {A B : Type} (m : M A) (k : A -> M B) (s : state) :
  result (m ≫= k) s = result (k (result m s)) (run m s).
Proof. unfold run, result, mbind, M_bind. destruct (m s); reflexivity. Qed.

Lemma run_modify (f : state -> state) (s : state) : run (modify f) s = f s.
Proof. reflexivity. Qed.

Lemma run_ret {A : Type} (x : A) (s : state) : run (mret x) s = s.
Proof. reflexivity. Qed.

Lemma run_get {A : Type} (f : state -> A) (s : state) : run (get f) s = s.
Proof. reflexivity. Qed.

Lemma result_get {A : Type} (f : state -> A) (s : state) : result (get f) s = f s.
Proof. reflexivity. Qed.

Lemma run_execute (opcode : Z) (s : state) :
  run (execute opcode) s = run iff_countdown (run_handler opcode s).
Proof.
  unfold execute, run_handler.
  rewrite !run_bind, run_modify, run_get. reflexivity.
Qed.

Lemma result_execute (opcode : Z) (s : state) :
  result (execute opcode) s = cpu_cycles (run (execute opcode) s).
Proof.
  unfold execute.
  rewrite !result_bind, !run_bind, result_get, run_get. reflexivity.
Qed.

Lemma run_instruction (s : state) :
  run instruction s =
  run (execute (result (memory_read_byte (pc s) false) s))
      (with_pc (Z.land (pc s + 1) 0xffff) s).
Proof. reflexivity. Qed.

(** The count-down touches [iff_pending], [iff] and the I/O device only. *)
Lemma iff_countdown_frame (s : state) :
  let s' := run iff_countdown s in
  sp s' = sp s /\ pc s' = pc s /\
  sf s' = sf s /\ pf s' = pf s /\ hf s' = hf s /\ zf s' = zf s /\ cf s' = cf s /\
  regs s' = regs s /\ memory s' = memory s /\
  last_opcode s' = last_opcode s /\ vcycles s' = vcycles s /\
  cpu_cycles s' = cpu_cycles s.
Proof.
  unfold iff_countdown, run, get, mbind, M_bind; simpl.
  destruct (iff_pending s =? 0); simpl; [tauto|].
  destruct (iff_pending s - 1 =? 0); simpl; tauto.
Qed.

Lemma iff_countdown_idle (s : state) :
  iff_pending s = 0 -> run iff_countdown s = s.
Proof.
  intros H. unfold iff_countdown, run, get, mbind, M_bind; simpl.
  rewrite H. reflexivity.
Qed.

Lemma iff_countdown_fire (s : state) :
  iff_pending s = 1 ->
  run iff_countdown s =
  io_record (EvInterrupt true) (with_iff true (with_iff_pending 0 s)).
Proof.
  intros H. unfold iff_countdown, run, get, mbind, M_bind; simpl.
  rewrite H. reflexivity.
Qed.

Lemma iff_countdown_wait (s : state) :
  iff_pending s <> 0 -> iff_pending s <> 1 ->
  run iff_countdown s = with_iff_pending (iff_pending s - 1) s.
Proof.
  intros H0 H1. unfold iff_countdown, run, get, mbind, M_bind; simpl.
  destruct (Z.eqb_spec (iff_pending s) 0); [contradiction|].
  destruct (Z.eqb_spec (iff_pending s - 1) 0); [lia|]. reflexivity.
Qed.

(** Masking to 16 bits. *)
Lemma land_ffff (x : Z) : Z.land x 0xffff = x mod 65536.
Proof. apply (Z.land_ones x 16). lia. Qed.

Lemma land_ff (x : Z) : Z.land x 0xff = x mod 256.
Proof. apply (Z.land_ones x 8). lia. Qed.

(** ** C6: HLT keeps the program counter in place *)

(** C6. If the byte at address [p] is 0x76 (HLT) and the program counter is
    [p], one call of [instruction] leaves the program counter at [p], for
    every 16-bit address [p], 0 and 0xFFFF included. *)
Theorem hlt_parks_pc (s : state) (p : Z) :
  0 <= p < 65536 ->
  pc s = p ->
  result (memory_read_byte p false) s = 0x76 ->
  pc (run instruction s) = p.
Proof.
  intros Hp Hpc Hop.
  rewrite run_instruction, Hpc, Hop, run_execute.
  destruct (iff_countdown_frame
              (run_handler 118 (with_pc (Z.land (p + 1) 65535) s)))
    as (_ & -> & _).
  unfold run_handler; simpl.
  rewrite !land_ffff.
  destruct (Z.eq_dec p 65535) as [->|Hne]; [reflexivity|].
  rewrite (Z.mod_small (p + 1)) by lia.
  replace (p + 1 - 1) with p by lia.
  apply Z.mod_small; lia.
Qed.

Lemma hlt_parks_pc_witness :
  pc (run instruction (with_pc 0 (new (<[0 := 0x76]> ∅) IO_new))) = 0.
Proof.
  apply (hlt_parks_pc (with_pc 0 (new (<[0 := 0x76]> ∅) IO_new)) 0);
    [lia | reflexivity | reflexivity].
Defined.

(** ** What [execute] leaves of the closure's work *)

Lemma execute_cf (opcode : Z) (s : state) :
  cf (run (execute opcode) s) = cf (run_handler opcode s).
Proof. rewrite run_execute. apply iff_countdown_frame. Qed.

Lemma execute_regs (opcode : Z) (s : state) :
  regs (run (execute opcode) s) = regs (run_handler opcode s).
Proof. rewrite run_execute. apply iff_countdown_frame. Qed.

Lemma execute_a (opcode : Z) (s : state) :
  result a (run (execute opcode) s) = result a (run_handler opcode s).
Proof.
  unfold result, a, reg, regs_get, get; simpl. now rewrite execute_regs.
Qed.

Lemma execute_cpu_cycles (opcode : Z) (s : state) :
  cpu_cycles (run (execute opcode) s) = cpu_cycles (run_handler opcode s).
Proof. rewrite run_execute. apply iff_countdown_frame. Qed.

(** ** C9: STC and CMC *)

(** C9 (as amended). From every state, STC followed by CMC leaves the carry
    flag clear, whatever it was before the STC; and a single CMC leaves the
    logical negation of the carry flag it found. *)
Theorem stc_cmc_clears_and_cmc_toggles (s : state) :
  truthy (cf (run (execute 0x3F) (run (execute 0x37) s))) = false /\
  truthy (cf (run (execute 0x3F) s)) = negb (truthy (cf s)).
Proof.
  assert (Hcmc : forall t, cf (run (execute 0x3F) t) = js_not (cf t))
    by (intros t; rewrite execute_cf; reflexivity).
  assert (Hstc : cf (run (execute 0x37) s) = JNum 1)
    by (rewrite execute_cf; reflexivity).
  rewrite !Hcmc, Hstc. split; reflexivity.
Qed.

(** A carry flag that is set before STC; CMC is clear after it. *)
Lemma stc_cmc_changes_set_carry :
  let s := with_cf (JNum 1) (new ∅ IO_new) in
  truthy (cf s) = true /\
  truthy (cf (run (execute 0x3F) (run (execute 0x37) s))) = false.
Proof. split; reflexivity. Qed.

(** ** C2: DAA at A = 0x3A with the carry set *)

(** C2 (as amended). From a state with A = 0x3A, the carry flag set and the
    auxiliary carry clear, DAA (opcode 0x27) yields A = 0xA0 and CF = 1:
    both the low-nibble and the high-nibble corrections are added. *)
Theorem daa_3A_carry (s : state) :
  result a s = 0x3A ->
  truthy (cf s) = true ->
  truthy (hf s) = false ->
  result a (run (execute 0x27) s) = 0xA0 /\
  cf (run (execute 0x27) s) = JNum 1.
Proof.
  intros Ha Hc Hh.
  rewrite execute_a, execute_cf.
  unfold result, a, reg, regs_get, get in Ha; simpl in Ha.
  unfold run_handler, result; simpl.
  rewrite Ha, Hc, Hh; simpl.
  rewrite lookup_insert_eq. split; reflexivity.
Qed.

Lemma daa_3A_carry_witness :
  let s := with_cf (JNum 1) (run (set_a 0x3A) (new ∅ IO_new)) in
  result a (run (execute 0x27) s) = 0xA0 /\
  cf (run (execute 0x27) s) = JNum 1.
Proof.
  apply (daa_3A_carry (with_cf (JNum 1) (run (set_a 0x3A) (new ∅ IO_new))));
    reflexivity.
Defined.

(** DAA does not leave 0x40 there. *)
Lemma daa_3A_carry_is_not_40 :
  let s := with_cf (JNum 1) (run (set_a 0x3A) (new ∅ IO_new)) in
  result a s = 0x3A /\ truthy (cf s) = true /\ truthy (hf s) = false /\
  result a (run (execute 0x27) s) <> 0x40.
Proof. repeat split. vm_compute. discriminate. Qed.

(** ** Fields a computation leaves alone *)

Lemma preserves_bind {A B C : Type} (field : state -> C) (m : M A) (k : A -> M B) :
  preserves field m -> (forall x, preserves field (k x)) ->
  preserves field (m ≫= k).
Proof. intros Hm Hk s. rewrite run_bind, Hk. apply Hm. Qed.

Lemma preserves_ret {A C : Type} (field : state -> C) (x : A) :
  preserves field (mret x).
Proof. intros s. reflexivity. Qed.

Lemma preserves_get {A C : Type} (field : state -> C) (f : state -> A) :
  preserves field (get f).
Proof. intros s. reflexivity. Qed.

Lemma preserves_modify {C : Type} (field : state -> C) (f : state -> state) :
  (forall s, field (f s) = field s) -> preserves field (modify f).
Proof. intros H s. apply H. Qed.

Ltac head_of t :=
  lazymatch t with
  | ?f _ => head_of f
  | _ => t
  end.

(** Walks a method's body: binds are split, branches are taken both ways,
    assignments are checked not to be to the field, calls are unfolded. *)
Ltac frame_step :=
  lazymatch goal with
  | |- preserves _ (mbind _ _) => apply preserves_bind
  | |- preserves _ (mret _) => apply preserves_ret
  | |- preserves _ (get _) => apply preserves_get
  | |- preserves _ (modify _) => apply preserves_modify; intros ?; reflexivity
  | |- preserves _ (if ?c then _ else _) =>
      first [ let c' := eval cbv in c in
              lazymatch c' with
              | true => change c with true
              | false => change c with false
              end; cbv iota
            | destruct c ]
  | |- preserves _ (input _) => intros ?; reflexivity
  | |- preserves _ (memory_read_byte _ _) => intros ?; reflexivity
  | |- preserves _ store_flags => intros ?; reflexivity
  | |- preserves _ (condition _) => intros ?; reflexivity
  | |- preserves _ ?m => let f := head_of m in unfold f; cbv beta zeta
  end.

Ltac frame := repeat (intros; frame_step).

(** Case analysis on an opcode: one case for each entry of [handler], and
    the opcodes the table has no entry for. *)
Ltac opcode_cases op tac :=
  destruct op as [|op|op]; simpl; try (solve [tac]);
  do 8 (try (destruct op as [op|op|]; simpl; try (solve [tac]))).

(** Every closure but that of EI leaves [iff_pending] as it found it. *)
Lemma handler_iff_pending (opcode : Z) (s : state) :
  opcode <> 0xFB ->
  iff_pending (run_handler opcode s) = iff_pending s.
Proof.
  intros Hop. unfold run_handler.
  change (iff_pending s) with (iff_pending (with_last_opcode opcode s)).
  generalize (with_last_opcode opcode s). revert Hop.
  change (opcode <> 0xFB ->
          preserves iff_pending
            (match handler opcode with Some h => h opcode | None => mret tt end)).
  opcode_cases opcode ltac:(intros; first [congruence | frame]).
Qed.

Lemma execute_fire (opcode : Z) (s : state) :
  iff_pending (run_handler opcode s) = 1 ->
  let s' := run (execute opcode) s in
  iff s' = true /\ iff_pending s' = 0 /\
  io_calls (io s') = io_calls (io (run_handler opcode s)) ++ [EvInterrupt true].
Proof.
  intros H. simpl. rewrite run_execute, (iff_countdown_fire _ H).
  repeat split.
Qed.

Lemma ei_handler (s : state) :
  run_handler 0xFB s =
  with_iff_pending 2 (with_cpu_cycles 4 (with_vcycles T4 (with_last_opcode 0xFB s))).
Proof. reflexivity. Qed.

Lemma ei_execute (s : state) :
  run (execute 0xFB) s =
  with_iff_pending 1 (with_cpu_cycles 4 (with_vcycles T4 (with_last_opcode 0xFB s))).
Proof. rewrite run_execute, ei_handler. reflexivity. Qed.

Lemma di_handler (s : state) :
  run_handler 0xF3 s =
  io_record (EvInterrupt false)
    (with_iff false (with_cpu_cycles 4 (with_vcycles T4 (with_last_opcode 0xF3 s)))).
Proof. reflexivity. Qed.

(** ** C4: the delay of EI *)

(** C4 (as amended). The closure of EI (opcode 0xFB) sets [iff_pending] to
    2.  At the end of every executed instruction a positive [iff_pending] is
    decremented, and when it reaches 0 [iff] becomes true and
    [interrupt(true)] is called.  So EI itself leaves [iff] as it was with
    one step pending and no call made, and [iff] becomes true at the end of
    the instruction that follows EI, provided that instruction is neither EI
    again, which reloads the counter, nor DI, whose effect on [iff] is the
    matter of C1. *)
Theorem ei_delay (s : state) (next : Z) :
  next <> 0xFB -> next <> 0xF3 ->
  let s1 := run (execute 0xFB) s in
  let s2 := run (execute next) s1 in
  iff_pending (run_handler 0xFB s) = 2 /\
  (forall op t,
     0 < iff_pending (run_handler op t) ->
     let t' := run (execute op) t in
     iff_pending t' = iff_pending (run_handler op t) - 1 /\
     (iff_pending t' = 0 ->
      iff t' = true /\
      io_calls (io t') = io_calls (io (run_handler op t)) ++ [EvInterrupt true]) /\
     (iff_pending t' <> 0 ->
      iff t' = iff (run_handler op t) /\ io t' = io (run_handler op t))) /\
  (iff s1 = iff s /\ iff_pending s1 = 1 /\ io s1 = io s) /\
  (iff s2 = true /\ iff_pending s2 = 0 /\
   io_calls (io s2) = io_calls (io (run_handler next s1)) ++ [EvInterrupt true]).
Proof.
  intros Hnext _. cbv zeta. split; [reflexivity|]. split; [|split].
  - intros op t Hpos.
    destruct (Z.eq_dec (iff_pending (run_handler op t)) 1) as [H1|H1].
    + destruct (execute_fire op t H1) as (Hi & Hp & Hc).
      rewrite Hp, H1. repeat split; [exact Hi | exact Hc | congruence | congruence].
    + rewrite run_execute, iff_countdown_wait by lia.
      simpl. repeat split; intros; lia.
  - rewrite ei_execute. repeat split.
  - apply execute_fire.
    rewrite handler_iff_pending by exact Hnext.
    rewrite ei_execute. reflexivity.
Qed.

Lemma ei_delay_witness :
  iff (run (execute 0x00) (run (execute 0xFB) (new ∅ IO_new))) = true.
Proof.
  assert (H : 0x00 <> 0xFB) by discriminate.
  assert (H' : 0x00 <> 0xF3) by discriminate.
  exact (proj1 (proj2 (proj2 (proj2 (ei_delay (new ∅ IO_new) 0x00 H H'))))).
Defined.

(** When the instruction after EI is EI again, [iff] is still false at its
    end. *)
Lemma ei_ei_leaves_iff_false :
  let s := new ∅ IO_new in
  iff s = false /\
  iff (run (execute 0xFB) (run (execute 0xFB) s)) = false.
Proof. split; reflexivity. Qed.

(** ** C1: DI *)

(** With no step of EI pending, DI does what its closure says. *)
Lemma di_when_idle (s : state) :
  result (memory_read_byte (pc s) false) s = 0xF3 ->
  iff_pending s = 0 ->
  let s' := run instruction s in
  iff s' = false /\ iff_pending s' = 0 /\
  io_calls (io s') = io_calls (io s) ++ [EvInterrupt false].
Proof.
  intros Hop Hidle. cbv zeta.
  rewrite run_instruction, Hop, run_execute, di_handler.
  rewrite iff_countdown_idle by exact Hidle.
  simpl. rewrite Hidle. repeat split.
Qed.

(** C1 (the code's behaviour where it departs from the claim). DI fetched
    right after EI: the closure of DI sets [iff] to false and calls
    [interrupt(false)], but the step EI left pending then runs out at the end
    of this very instruction, so that [iff] is true again when DI completes
    and [interrupt(true)] has been called after [interrupt(false)]. *)
Theorem di_after_ei_enables (s : state) :
  result (memory_read_byte (pc s) false) s = 0xFB ->
  result (memory_read_byte (pc s + 1) false) s = 0xF3 ->
  let s' := run instruction (run instruction s) in
  iff s' = true /\ iff_pending s' = 0 /\
  io_calls (io s') = io_calls (io s) ++ [EvInterrupt false; EvInterrupt true].
Proof.
  intros Hei Hdi. cbv zeta.
  rewrite (run_instruction s), Hei, ei_execute.
  rewrite run_instruction.
  assert (Hop : result (memory_read_byte (Z.land (pc s + 1) 0xffff) false) s = 0xF3).
  { revert Hdi. unfold result, memory_read_byte, Memory.read; simpl.
    rewrite !land_ffff, !Z.mod_mod by lia. trivial. }
  unfold result, memory_read_byte in Hop |- *; simpl in Hop |- *.
  rewrite Hop.
  match goal with |- context [run (execute 243) ?t] =>
    destruct (execute_fire 243 t) as (Hi & Hp & Hc); [reflexivity|];
    cbv zeta in Hi, Hp, Hc; rewrite Hi, Hp, Hc end.
  rewrite di_handler; simpl. rewrite <- app_assoc. repeat split.
Qed.

Lemma di_after_ei_enables_witness :
  iff (run instruction (run instruction
        (new (<[0 := 0xFB]> (<[1 := 0xF3]> ∅)) IO_new))) = true.
Proof.
  apply (di_after_ei_enables (new (<[0 := 0xFB]> (<[1 := 0xF3]> ∅)) IO_new));
    reflexivity.
Defined.

(** ** Bytes, bits and the states of the data model *)

Lemma is_byte_spec (v : Z) : is_byte v = true <-> 0 <= v < 256.
Proof. unfold is_byte. rewrite andb_true_iff, Z.leb_le, Z.ltb_lt. tauto. Qed.

Lemma is_word_spec (v : Z) : is_word v = true <-> 0 <= v < 65536.
Proof. unfold is_word. rewrite andb_true_iff, Z.leb_le, Z.ltb_lt. tauto. Qed.

Lemma is_flag_spec (f : jsval) :
  is_flag f = true -> to_number f = Z.b2z (truthy f).
Proof.
  destruct f as [n|[|]]; simpl; try reflexivity.
  rewrite orb_true_iff, !Z.eqb_eq. intros [->| ->]; reflexivity.
Qed.

Lemma forallb_bytes (P : Z -> bool) :
  forallb P (seqZ 0 256) = true -> forall x, 0 <= x < 256 -> P x = true.
Proof.
  intros H x Hx. rewrite forallb_forall in H. apply H.
  apply list_elem_of_In, elem_of_seqZ. lia.
Qed.

Lemma forallb_bytes2 (P : Z -> Z -> bool) :
  forallb (fun x => forallb (P x) (seqZ 0 256)) (seqZ 0 256) = true ->
  forall x y, 0 <= x < 256 -> 0 <= y < 256 -> P x y = true.
Proof.
  intros H x y Hx Hy.
  apply (forallb_bytes (P x)); [|exact Hy].
  apply (forallb_bytes (fun x => forallb (P x) (seqZ 0 256))); assumption.
Qed.

(** Testing one bit with a mask. *)
Lemma testbit_mask (x k : Z) :
  0 <= k -> negb (Z.land x (2 ^ k) =? 0) = Z.testbit x k.
Proof.
  intros Hk.
  assert (H : Z.land x (2 ^ k) = Z.b2z (Z.testbit x k) * 2 ^ k).
  { apply Z.bits_inj'. intros n Hn.
    rewrite Z.land_spec, Z.pow2_bits_eqb by exact Hk.
    destruct (Z.testbit x k) eqn:Hb; simpl Z.b2z.
    - rewrite Z.mul_1_l, Z.pow2_bits_eqb by exact Hk.
      destruct (Z.eqb_spec k n) as [<-|]; [rewrite Hb|rewrite andb_false_r]; reflexivity.
    - rewrite Z.mul_0_l, Z.bits_0.
      destruct (Z.eqb_spec k n) as [<-|]; [rewrite Hb|rewrite andb_false_r]; reflexivity. }
  rewrite H. destruct (Z.testbit x k); simpl Z.b2z.
  - rewrite Z.mul_1_l. destruct (Z.eqb_spec (2 ^ k) 0); [lia|reflexivity].
  - reflexivity.
Qed.

Lemma wf_state_regs (s : state) (r : Z) :
  wf_state s = true -> 0 <= r < 8 ->
  exists v, regs s !! r = Some v /\ 0 <= v < 256.
Proof.
  unfold wf_state. rewrite !andb_true_iff. intros (((((((H & _) & _) & _) & _) & _) & _) & _) Hr.
  rewrite forallb_forall in H.
  specialize (H r). rewrite <- list_elem_of_In, elem_of_seqZ in H.
  specialize (H ltac:(lia)).
  destruct (regs s !! r) as [v|]; simpl in H; [|discriminate].
  exists v. split; [reflexivity|]. now apply is_byte_spec.
Qed.

Lemma wf_state_a (s : state) : wf_state s = true -> 0 <= result a s < 256.
Proof.
  intros H. destruct (wf_state_regs s 7 H) as (v & Hv & Hb); [lia|].
  unfold result, a, reg, regs_get, get; simpl. rewrite Hv. exact Hb.
Qed.

Lemma wf_state_cf (s : state) :
  wf_state s = true -> to_number (cf s) = Z.b2z (truthy (cf s)).
Proof.
  unfold wf_state. rewrite !andb_true_iff. intros (_ & H). now apply is_flag_spec.
Qed.

(** ** C3: the ADD family *)

Lemma add_im8_run (s : state) (v : Z) (carry : jsval) :
  let '(a1, sf1, zf1, hf1, pf1, cf1) :=
    add_im8_result (result a s) v (to_number carry) in
  run (add_im8 v carry) s =
  with_regs (<[7 := Z.land a1 0xff]> (regs s))
    (with_cf cf1 (with_pf pf1 (with_hf hf1 (with_zf zf1 (with_sf sf1 s))))).
Proof. reflexivity. Qed.

Lemma add_flags_ok_bytes (a0 v c : Z) :
  0 <= a0 < 256 -> 0 <= v < 256 -> 0 <= c <= 1 ->
  add_flags_ok a0 v c = true.
Proof.
  intros Ha Hv Hc.
  assert (H : forallb (fun x => forallb (fun y =>
                add_flags_ok x y 0 && add_flags_ok x y 1) (seqZ 0 256))
                (seqZ 0 256) = true) by (vm_compute; reflexivity).
  pose proof (forallb_bytes2 _ H a0 v Ha Hv) as Hxy.
  apply andb_true_iff in Hxy. destruct Hxy as [H0 H1].
  assert (c = 0 \/ c = 1) as [-> | ->] by lia; assumption.
Qed.

Lemma memory_read_byte_range (addr : Z) (q : bool) (s : state) :
  0 <= result (memory_read_byte addr q) s < 256.
Proof.
  unfold result, memory_read_byte; simpl.
  rewrite land_ff. apply Z.mod_pos_bound. lia.
Qed.

Lemma reg_range (r : Z) (s : state) :
  wf_state s = true -> 0 <= r < 8 -> 0 <= result (reg r) s < 256.
Proof.
  intros Hwf Hr. unfold reg.
  destruct (Z.eqb_spec r 6) as [->|Hne]; simpl.
  - rewrite result_bind. apply memory_read_byte_range.
  - destruct (wf_state_regs s r Hwf Hr) as (v & Hv & Hb).
    unfold result, regs_get, get; simpl. rewrite Hv. exact Hb.
Qed.

Lemma add_family_run (opcode : Z) (s : state) (v c : Z) :
  add_family opcode s = Some (v, c) ->
  exists carry s0,
    run_handler opcode s = run (add_im8 v carry) s0 /\
    to_number carry = c /\ regs s0 = regs s /\
    (wf_state s = true -> 0 <= v < 256 /\ 0 <= c <= 1).
Proof.
  unfold add_family. intros H.
  assert (Hc0 : 0 <= 0 <= 1) by lia.
  assert (Hc1 : wf_state s = true -> 0 <= to_number (cf s) <= 1).
  { intros Hwf. rewrite (wf_state_cf s Hwf). destruct (truthy (cf s)); simpl; lia. }
  destruct ((0x80 <=? opcode) && (opcode <=? 0x87)) eqn:Hadd;
    [|destruct ((0x88 <=? opcode) && (opcode <=? 0x8F)) eqn:Hadc;
      [|destruct (Z.eqb_spec opcode 0xC6) as [->|_];
        [|destruct (Z.eqb_spec opcode 0xCE) as [->|_]; [|discriminate]]]].
  - apply andb_true_iff in Hadd. rewrite Z.leb_le, Z.leb_le in Hadd.
    injection H as <- <-.
    assert (Hr : 0 <= opcode - 0x80 < 8) by lia.
    exists (JNum 0), (with_cpu_cycles (if opcode =? 0x86 then 7 else 4)
                     (with_vcycles (if opcode =? 0x86 then T43 else T4)
                        (with_last_opcode opcode s))).
    split; [|split; [reflexivity|split; [reflexivity|]]].
    + assert (opcode = 0x80 \/ opcode = 0x81 \/ opcode = 0x82 \/ opcode = 0x83 \/
              opcode = 0x84 \/ opcode = 0x85 \/ opcode = 0x86 \/ opcode = 0x87)
        as Hcase by lia.
      repeat (destruct Hcase as [->|Hcase]; [reflexivity|]). subst; reflexivity.
    + intros Hwf. split; [apply reg_range; assumption | exact Hc0].
  - apply andb_true_iff in Hadc. rewrite Z.leb_le, Z.leb_le in Hadc.
    injection H as <- <-.
    assert (Hr : 0 <= opcode - 0x88 < 8) by lia.
    exists (cf s), (with_cpu_cycles (if opcode =? 0x8E then 7 else 4)
                     (with_vcycles (if opcode =? 0x8E then T43 else T4)
                        (with_last_opcode opcode s))).
    split; [|split; [reflexivity|split; [reflexivity|]]].
    + assert (opcode = 0x88 \/ opcode = 0x89 \/ opcode = 0x8A \/ opcode = 0x8B \/
              opcode = 0x8C \/ opcode = 0x8D \/ opcode = 0x8E \/ opcode = 0x8F)
        as Hcase by lia.
      repeat (destruct Hcase as [->|Hcase]; [reflexivity|]). subst; reflexivity.
    + intros Hwf. split; [apply reg_range; assumption | exact (Hc1 Hwf)].
  - injection H as <- <-.
    exists (JNum 0), (with_pc (Z.land (pc s + 1) 0xffff)
                     (with_cpu_cycles 7 (with_vcycles T43 (with_last_opcode 0xC6 s)))).
    split; [reflexivity|split; [reflexivity|split; [reflexivity|]]].
    intros _. split; [|exact Hc0].
    unfold next_pc_byte. rewrite !result_bind. apply memory_read_byte_range.
  - injection H as <- <-.
    exists (cf s), (with_pc (Z.land (pc s + 1) 0xffff)
                     (with_cpu_cycles 7 (with_vcycles T43 (with_last_opcode 0xCE s)))).
    split; [reflexivity|split; [reflexivity|split; [reflexivity|]]].
    intros Hwf. split; [|exact (Hc1 Hwf)].
    unfold next_pc_byte. rewrite !result_bind. apply memory_read_byte_range.
Qed.

(** C3. For an instruction of the ADD family (ADD, ADC, ADI, ACI) executed
    in a state of the data model, with accumulator [A], operand [v] and
    carry-in [c]: the accumulator becomes (A + v + c) mod 256, CF is bit 8
    of A + v + c, SF is bit 7 of the result, ZF tells whether the result is
    0, PF is the even parity of the result, and HF is the entry of
    {0,0,1,0,1,0,1,1} at the index made of bit 3 of A, of v and of the
    result.  In particular ADD B with A = 0x88 and B = 0x88 yields A = 0x10,
    CF = 1, HF = 1, SF = 0, ZF = 0, PF = 0. *)
Theorem add_family_result (s : state) (opcode v c : Z) :
  wf_state s = true ->
  add_family opcode s = Some (v, c) ->
  let a0 := result a s in
  let sum := a0 + v + c in
  let r := sum mod 256 in
  let s' := run (execute opcode) s in
  (0 <= a0 < 256 /\ 0 <= v < 256 /\ 0 <= c <= 1) /\
  (result a s' = r /\
   to_number (cf s') = bit sum 8 /\
   to_number (sf s') = bit r 7 /\
   to_number (zf s') = Z.b2z (r =? 0) /\
   to_number (pf s') = even_parity r /\
   to_number (hf s') =
     table_get [0; 0; 1; 0; 1; 0; 1; 1] (4 * bit a0 3 + 2 * bit v 3 + bit r 3)) /\
  (opcode = 0x80 -> a0 = 0x88 -> v = 0x88 ->
   result a s' = 0x10 /\ to_number (cf s') = 1 /\ to_number (hf s') = 1 /\
   to_number (sf s') = 0 /\ to_number (zf s') = 0 /\ to_number (pf s') = 0).
Proof.
  intros Hwf Hfam. cbv zeta.
  destruct (add_family_run opcode s v c Hfam) as (carry & s0 & Hrun & Hc & Hregs & Hrange).
  destruct (Hrange Hwf) as [Hv Hcr].
  pose proof (wf_state_a s Hwf) as Ha.
  assert (Ha0 : result a s0 = result a s).
  { unfold result, a, reg, regs_get, get; simpl. now rewrite Hregs. }
  assert (Hmain :
    result a (run (execute opcode) s) = (result a s + v + c) mod 256 /\
    to_number (cf (run (execute opcode) s)) = bit (result a s + v + c) 8 /\
    to_number (sf (run (execute opcode) s)) = bit ((result a s + v + c) mod 256) 7 /\
    to_number (zf (run (execute opcode) s)) = Z.b2z ((result a s + v + c) mod 256 =? 0) /\
    to_number (pf (run (execute opcode) s)) = even_parity ((result a s + v + c) mod 256) /\
    to_number (hf (run (execute opcode) s)) =
      table_get [0; 0; 1; 0; 1; 0; 1; 1]
        (4 * bit (result a s) 3 + 2 * bit v 3 + bit ((result a s + v + c) mod 256) 3)).
  { pose proof (add_flags_ok_bytes (result a s) v c Ha Hv Hcr) as Hok.
    pose proof (add_im8_run s0 v carry) as Hst.
    rewrite Ha0, Hc in Hst. unfold add_flags_ok in Hok.
    destruct (add_im8_result (result a s) v c) as [[[[[a1 sf1] zf1] hf1] pf1] cf1].
    rewrite !andb_true_iff, !Z.eqb_eq in Hok.
    destruct Hok as (((((H1 & H2) & H3) & H4) & H5) & H6).
    rewrite execute_a, run_execute.
    destruct (iff_countdown_frame (run_handler opcode s))
      as (_ & _ & -> & -> & -> & -> & -> & _).
    rewrite Hrun, Hst.
    unfold result, a, reg, regs_get, get; simpl.
    rewrite lookup_insert_eq; simpl. tauto. }
  split; [tauto|]. split; [exact Hmain|].
  intros -> Ha88 ->. rewrite Ha88 in Hmain.
  vm_compute in Hfam. injection Hfam as _ <-.
  destruct Hmain as (H1 & H2 & H3 & H4 & H5 & H6).
  rewrite H1, H2, H3, H4, H5, H6. repeat split.
Qed.

Lemma add_family_result_witness :
  let s := run (set_b 0x88) (run (set_a 0x88) (new ∅ IO_new)) in
  result a (run (execute 0x80) s) = 0x10 /\
  to_number (cf (run (execute 0x80) s)) = 1 /\
  to_number (hf (run (execute 0x80) s)) = 1 /\
  to_number (sf (run (execute 0x80) s)) = 0 /\
  to_number (zf (run (execute 0x80) s)) = 0 /\
  to_number (pf (run (execute 0x80) s)) = 0.
Proof.
  refine (proj2 (proj2 (add_family_result
           (run (set_b 0x88) (run (set_a 0x88) (new ∅ IO_new))) 0x80 0x88 0
           _ _)) _ _ _); reflexivity.
Defined.

(** ** C7: CMP is SUB without the write to the accumulator *)

Lemma execute_flags (opcode : Z) (s : state) :
  flags (run (execute opcode) s) = flags (run_handler opcode s).
Proof.
  rewrite run_execute. unfold flags.
  destruct (iff_countdown_frame (run_handler opcode s))
    as (_ & _ & -> & -> & -> & -> & -> & _).
  reflexivity.
Qed.

Lemma cmp_im8_a (v : Z) (s : state) :
  0 <= result a s < 256 -> result a (run (cmp_im8 v) s) = result a s.
Proof.
  intros Ha. unfold result, a, reg, regs_get, get in *; simpl in *.
  rewrite lookup_insert_eq; simpl.
  rewrite land_ff. apply Z.mod_small. exact Ha.
Qed.

Lemma byte_index_cases (r : Z) :
  0 <= r < 8 ->
  r = 0 \/ r = 1 \/ r = 2 \/ r = 3 \/ r = 4 \/ r = 5 \/ r = 6 \/ r = 7.
Proof. lia. Qed.

Ltac index_cases H :=
  apply byte_index_cases in H;
  destruct H as [->|[->|[->|[->|[->|[->|[->| ->]]]]]]].

(** CMP r and CMP M call [cmp] on the register field of the opcode. *)
Lemma cmp_handler_run (r : Z) (s : state) :
  0 <= r < 8 ->
  run_handler (0xB8 + r) s =
  run (cmp_im8 (result (reg r) s))
      (with_cpu_cycles (if r =? 6 then 7 else 4)
         (with_vcycles (if r =? 6 then T43 else T4)
            (with_last_opcode (0xB8 + r) s))).
Proof. intros Hr. index_cases Hr; reflexivity. Qed.

Lemma cmp_sub_handler_flags (r : Z) (s : state) :
  0 <= r < 8 ->
  flags (run_handler (0xB8 + r) s) = flags (run_handler (0x90 + r) s).
Proof. intros Hr. index_cases Hr; reflexivity. Qed.

Lemma cpi_handler_run (s : state) :
  run_handler 0xFE s =
  run (cmp_im8 (result next_pc_byte s))
      (with_pc (Z.land (pc s + 1) 0xffff)
         (with_cpu_cycles 7 (with_vcycles T43 (with_last_opcode 0xFE s)))).
Proof. reflexivity. Qed.

(** C7. In a state of the data model, CMP with any operand (a register or M,
    opcodes 0xB8 + r for r in 0..7, or an immediate byte, CPI, opcode 0xFE)
    leaves the accumulator as it was, and leaves SF, ZF, HF, PF and CF as
    SUB with the same operand (opcode 0x90 + r, or SUI, opcode 0xD6) leaves
    them from the same state. *)
Theorem cmp_flags_as_sub (s : state) (r : Z) :
  wf_state s = true ->
  0 <= r < 8 ->
  (result a (run (execute (0xB8 + r)) s) = result a s /\
   flags (run (execute (0xB8 + r)) s) = flags (run (execute (0x90 + r)) s)) /\
  (result a (run (execute 0xFE) s) = result a s /\
   flags (run (execute 0xFE) s) = flags (run (execute 0xD6) s)).
Proof.
  intros Hwf Hr. pose proof (wf_state_a s Hwf) as Ha.
  rewrite !execute_a, !execute_flags.
  split; split.
  - rewrite (cmp_handler_run r s Hr), cmp_im8_a; [reflexivity | exact Ha].
  - apply cmp_sub_handler_flags, Hr.
  - rewrite cpi_handler_run, cmp_im8_a; [reflexivity | exact Ha].
  - reflexivity.
Qed.

Lemma cmp_flags_as_sub_witness :
  let s := run (set_b 0x05) (run (set_a 0x03) (new ∅ IO_new)) in
  result a (run (execute 0xB8) s) = 0x03 /\
  flags (run (execute 0xB8) s) = flags (run (execute 0x90) s).
Proof.
  refine (proj1 (cmp_flags_as_sub
           (run (set_b 0x05) (run (set_a 0x03) (new ∅ IO_new))) 0 _ _));
    [reflexivity | lia].
Defined.

(** ** C8: PUSH PSW and POP PSW *)

Lemma bytes_join (lo hi : Z) :
  0 <= lo < 256 -> 0 <= hi < 256 ->
  Z.lor lo (Z.shiftl hi 8) = lo + 256 * hi /\
  Z.lor (Z.shiftl hi 8) lo = lo + 256 * hi.
Proof.
  intros Hlo Hhi.
  assert (H : forallb (fun x => forallb (bytes_join_ok x) (seqZ 0 256))
                (seqZ 0 256) = true) by (vm_compute; reflexivity).
  pose proof (forallb_bytes2 _ H lo hi Hlo Hhi) as Hok.
  unfold bytes_join_ok in Hok.
  rewrite andb_true_iff, !Z.eqb_eq in Hok. exact Hok.
Qed.

(** A 16-bit word is put back together from the two bytes that
    [memory_write_word] stores and [memory_read_word] reads. *)
Lemma word_of_stored_bytes (w16 : Z) :
  0 <= w16 < 65536 ->
  Z.lor (Z.land (Z.land (Z.land w16 0xff) 0xff) 0xff)
        (Z.shiftl (Z.land (Z.land (Z.shiftr w16 8) 0xff) 0xff) 8) = w16.
Proof.
  intros Hw.
  rewrite !land_ff, !Z.mod_mod by lia.
  rewrite (Z.shiftr_div_pow2 w16 8) by lia.
  change (2 ^ 8) with 256.
  pose proof (Z.mod_pos_bound w16 256 ltac:(lia)) as Hlo.
  pose proof (Z.mod_pos_bound (w16 / 256) 256 ltac:(lia)) as Hhi.
  rewrite (proj1 (bytes_join _ _ Hlo Hhi)).
  rewrite (Z.mod_small (w16 / 256)) by (split; [apply Z.div_pos; lia | apply Z.div_lt_upper_bound; lia]).
  pose proof (Z.div_mod w16 256 ltac:(lia)). lia.
Qed.

(** The word PUSH PSW builds from the accumulator and the flag byte. *)
Lemma psw_word (a0 f : Z) :
  0 <= a0 < 256 -> 0 <= f < 256 ->
  let w16 := Z.lor (Z.shiftl a0 8) f in
  0 <= w16 < 65536 /\
  Z.land (Z.shiftr w16 8) 0xff = a0 /\ Z.land w16 0xff = f.
Proof.
  intros Ha Hf. cbv zeta.
  rewrite (proj2 (bytes_join _ _ Hf Ha)).
  rewrite !land_ff, Z.shiftr_div_pow2 by lia. change (2 ^ 8) with 256.
  replace ((f + 256 * a0) / 256) with a0
    by (apply Z.div_unique with f; lia).
  replace ((f + 256 * a0) mod 256) with f
    by (apply Z.mod_unique with a0; lia).
  rewrite Z.mod_small by lia. lia.
Qed.

Lemma memory_read_word_result (addr : Z) (q : bool) (s : state) :
  result (memory_read_word addr q) s =
  Z.lor (Z.land (Memory.read (memory s) (Z.land addr 0xffff) q) 0xff)
        (Z.shiftl (Z.land (Memory.read (memory s) (Z.land (addr + 1) 0xffff) q) 0xff) 8).
Proof. reflexivity. Qed.

(** The word written at a 16-bit address is the word read back there. *)
Lemma memory_word_roundtrip (mem : gmap Z Z) (addr w16 : Z) (q : bool) :
  0 <= addr < 65536 -> 0 <= w16 < 65536 ->
  let mem' :=
    Memory.write
      (Memory.write mem (Z.land addr 0xffff) (Z.land (Z.land w16 0xff) 0xff) q)
      (Z.land (addr + 1) 0xffff) (Z.land (Z.shiftr w16 8) 0xff) q in
  Memory.read mem' (Z.land addr 0xffff) q = Z.land (Z.land w16 0xff) 0xff /\
  Memory.read mem' (Z.land (addr + 1) 0xffff) q = Z.land (Z.shiftr w16 8) 0xff.
Proof.
  intros Haddr Hw. unfold Memory.read, Memory.write. cbv zeta.
  rewrite !land_ffff, !Z.mod_mod by lia.
  rewrite (Z.mod_small addr) by lia.
  assert (Hne : (addr + 1) mod 65536 <> addr).
  { destruct (Z.eq_dec addr 65535) as [->|Hn]; [discriminate|].
    rewrite Z.mod_small; lia. }
  split.
  - rewrite lookup_insert_ne by exact Hne. rewrite lookup_insert_eq. reflexivity.
  - rewrite lookup_insert_eq. reflexivity.
Qed.

Lemma store_flags_result (s : state) :
  result store_flags s =
  flag_byte (truthy (sf s)) (truthy (zf s)) (truthy (hf s))
            (truthy (pf s)) (truthy (cf s)).
Proof.
  unfold result, store_flags; simpl.
  destruct (truthy (sf s)), (truthy (zf s)), (truthy (hf s)),
           (truthy (pf s)), (truthy (cf s)); reflexivity.
Qed.

Lemma flag_byte_bits (s z h p c : bool) :
  let f := flag_byte s z h p c in
  0 <= f < 256 /\
  Z.testbit f 1 = true /\ Z.testbit f 3 = false /\ Z.testbit f 5 = false /\
  negb (Z.land f F_NEG =? 0) = s /\ negb (Z.land f F_ZERO =? 0) = z /\
  negb (Z.land f F_HCARRY =? 0) = h /\ negb (Z.land f F_PARITY =? 0) = p /\
  negb (Z.land f F_CARRY =? 0) = c.
Proof. destruct s, z, h, p, c; vm_compute; intuition congruence. Qed.

Lemma wf_state_flags (s : state) :
  wf_state s = true ->
  is_flag (sf s) = true /\ is_flag (zf s) = true /\ is_flag (hf s) = true /\
  is_flag (pf s) = true /\ is_flag (cf s) = true.
Proof. unfold wf_state. rewrite !andb_true_iff. tauto. Qed.

Lemma wf_state_sp (s : state) : wf_state s = true -> 0 <= sp s < 65536.
Proof.
  unfold wf_state. rewrite !andb_true_iff. intros H. apply is_word_spec. tauto.
Qed.

Lemma push_psw_handler (s : state) :
  run_handler 0xF5 s =
  let sp1 := Z.land (sp s - 2) 0xffff in
  let w16 := Z.lor (Z.shiftl (result a s) 8) (result store_flags s) in
  with_memory
    (Memory.write
       (Memory.write (memory s) (Z.land sp1 0xffff)
                     (Z.land (Z.land w16 0xff) 0xff) true)
       (Z.land (sp1 + 1) 0xffff) (Z.land (Z.shiftr w16 8) 0xff) true)
    (with_sp sp1
       (with_cpu_cycles 11 (with_vcycles T533 (with_last_opcode 0xF5 s)))).
Proof. reflexivity. Qed.

Lemma pop_psw_handler (s : state) :
  run_handler 0xF1 s =
  let w16 := result (memory_read_word (sp s) true) s in
  run (retrieve_flags (Z.land w16 0xff))
    (with_regs (<[7 := Z.land (Z.shiftr w16 8) 0xff]> (regs s))
       (with_sp (Z.land (sp s + 2) 0xffff)
          (with_cpu_cycles 10 (with_vcycles T433 (with_last_opcode 0xF1 s))))).
Proof. reflexivity. Qed.

Lemma retrieve_flags_run (f : Z) (s : state) :
  run (retrieve_flags f) s =
  with_cf (JNum (Z.b2z (negb (Z.land f F_CARRY =? 0))))
    (with_pf (JNum (Z.b2z (negb (Z.land f F_PARITY =? 0))))
       (with_hf (JNum (Z.b2z (negb (Z.land f F_HCARRY =? 0))))
          (with_zf (JNum (Z.b2z (negb (Z.land f F_ZERO =? 0))))
             (with_sf (JNum (Z.b2z (negb (Z.land f F_NEG =? 0)))) s)))).
Proof.
  unfold retrieve_flags, run; simpl.
  destruct (Z.land f F_CARRY =? 0), (Z.land f F_PARITY =? 0),
           (Z.land f F_HCARRY =? 0), (Z.land f F_ZERO =? 0),
           (Z.land f F_NEG =? 0); reflexivity.
Qed.

(** C8. From every state of the data model, PUSH PSW (opcode 0xF5) followed
    by POP PSW (opcode 0xF1) leaves the accumulator and the value, 0 or 1, of
    each of SF, ZF, HF, PF and CF as they were; and the flag byte that
    PUSH PSW writes, the byte at the new top of the stack, has bit 1 set and
    bits 3 and 5 clear. *)
Theorem push_pop_psw (s : state) :
  wf_state s = true ->
  let s1 := run (execute 0xF5) s in
  let s2 := run (execute 0xF1) s1 in
  (result a s2 = result a s /\
   to_number (sf s2) = to_number (sf s) /\
   to_number (zf s2) = to_number (zf s) /\
   to_number (hf s2) = to_number (hf s) /\
   to_number (pf s2) = to_number (pf s) /\
   to_number (cf s2) = to_number (cf s)) /\
  (memory s1 !! sp s1 = Some (result store_flags s) /\
   Z.testbit (result store_flags s) 1 = true /\
   Z.testbit (result store_flags s) 3 = false /\
   Z.testbit (result store_flags s) 5 = false).
Proof.
  intros Hwf. cbv zeta.
  pose proof (wf_state_a s Hwf) as Ha.
  destruct (wf_state_flags s Hwf) as (Fs & Fz & Fh & Fp & Fc).
  pose proof (flag_byte_bits (truthy (sf s)) (truthy (zf s)) (truthy (hf s))
                             (truthy (pf s)) (truthy (cf s))) as Hbits.
  rewrite <- store_flags_result in Hbits. cbv zeta in Hbits.
  destruct Hbits as (Hf & B1 & B3 & B5 & Hs & Hz & Hh & Hp & Hc).
  destruct (psw_word _ _ Ha Hf) as (Hw & Whi & Wlo).
  set (w16 := Z.lor (Z.shiftl (result a s) 8) (result store_flags s)) in *.
  set (sp1 := Z.land (sp s - 2) 0xffff).
  assert (Hsp1 : 0 <= sp1 < 65536).
  { unfold sp1. rewrite land_ffff. apply Z.mod_pos_bound. lia. }
  destruct (memory_word_roundtrip (memory s) sp1 w16 true Hsp1 Hw) as (Rlo & Rhi).
  cbv zeta in Rlo, Rhi.
  (* the state PUSH PSW leaves *)
  assert (Hmem1 : memory (run (execute 0xF5) s) =
            Memory.write
              (Memory.write (memory s) (Z.land sp1 0xffff)
                            (Z.land (Z.land w16 0xff) 0xff) true)
              (Z.land (sp1 + 1) 0xffff) (Z.land (Z.shiftr w16 8) 0xff) true).
  { rewrite run_execute.
    destruct (iff_countdown_frame (run_handler 0xF5 s))
      as (_ & _ & _ & _ & _ & _ & _ & _ & -> & _).
    rewrite push_psw_handler. reflexivity. }
  assert (Hsp : sp (run (execute 0xF5) s) = sp1).
  { rewrite run_execute.
    destruct (iff_countdown_frame (run_handler 0xF5 s)) as (-> & _).
    rewrite push_psw_handler. reflexivity. }
  (* the word POP PSW reads *)
  assert (Hread : result (memory_read_word (sp (run (execute 0xF5) s)) true)
                         (run (execute 0xF5) s) = w16).
  { rewrite memory_read_word_result, Hmem1, Hsp, Rlo, Rhi.
    apply word_of_stored_bytes, Hw. }
  set (s1 := run (execute 0xF5) s) in *.
  split.
  - rewrite execute_a, run_execute.
    destruct (iff_countdown_frame (run_handler 0xF1 s1))
      as (_ & _ & -> & -> & -> & -> & -> & _).
    rewrite pop_psw_handler. cbv zeta. rewrite Hread, retrieve_flags_run.
    rewrite Wlo, Whi, Hs, Hz, Hh, Hp, Hc.
    rewrite (is_flag_spec _ Fs), (is_flag_spec _ Fz), (is_flag_spec _ Fh),
            (is_flag_spec _ Fp), (is_flag_spec _ Fc).
    unfold result, a, reg, regs_get, get in *; simpl.
    rewrite lookup_insert_eq; simpl. repeat split.
  - split; [|tauto].
    rewrite Hmem1, Hsp.
    unfold Memory.write. rewrite !land_ffff, !Z.mod_mod by lia.
    rewrite (Z.mod_small sp1) by lia.
    rewrite lookup_insert_ne, lookup_insert_eq.
    + rewrite Wlo, land_ff, Z.mod_small by lia. reflexivity.
    + destruct (Z.eq_dec sp1 65535) as [->|Hn]; [discriminate|].
      rewrite Z.mod_small; lia.
Qed.

Lemma push_pop_psw_witness :
  let s := with_sp 0x0001 (with_cf (JBool true) (with_zf (JNum 1)
             (run (set_a 0x5A) (new ∅ IO_new)))) in
  let s2 := run (execute 0xF1) (run (execute 0xF5) s) in
  result a s2 = 0x5A /\ to_number (zf s2) = 1 /\ to_number (cf s2) = 1 /\
  to_number (sf s2) = 0.
Proof.
  pose proof (push_pop_psw
    (with_sp 0x0001 (with_cf (JBool true) (with_zf (JNum 1)
       (run (set_a 0x5A) (new ∅ IO_new))))) eq_refl) as H.
  cbv zeta in H. destruct H as ((Ha & Hs & Hz & _ & _ & Hc) & _).
  cbv zeta. rewrite Ha, Hs, Hz, Hc. repeat split.
Defined.

(** ** C10: DAD *)

(** DAD rp is opcode 0x09 + 8 * r for the pair code r that [rp] takes:
    0 (BC), 2 (DE), 4 (HL), 6 (SP). *)
Lemma dad_handler (r : Z) (s : state) :
  r = 0 \/ r = 2 \/ r = 4 \/ r = 6 ->
  run_handler (0x09 + 8 * r) s =
  let sum := result hl s + result (rp r) s in
  with_regs (<[5 := Z.land (Z.land sum 0xff) 0xff]>
               (<[4 := Z.land (Z.shiftr sum 8) 0xff]> (regs s)))
    (with_cf (JBool (negb (Z.land sum 0x10000 =? 0)))
       (with_cpu_cycles 10 (with_vcycles T433
          (with_last_opcode (0x09 + 8 * r) s)))).
Proof. intros [->|[->|[->| ->]]]; reflexivity. Qed.

Lemma split_word (x : Z) :
  x mod 256 + 256 * ((x / 256) mod 256) = x mod 65536.
Proof.
  change 65536 with (256 * 256).
  rewrite (Z.rem_mul_r x 256 256) by lia. reflexivity.
Qed.

(** C10. In a state of the data model, DAD rp for rp among BC, DE, HL and SP
    sets HL to (HL + rp) mod 2^16 and CF to bit 16 of the sum HL + rp; SF,
    ZF, HF and PF, every register other than H and L, SP and the memory are
    as before. *)
Theorem dad_adds_into_hl (s : state) (r : Z) :
  wf_state s = true ->
  r = 0 \/ r = 2 \/ r = 4 \/ r = 6 ->
  let sum := result hl s + result (rp r) s in
  let s' := run (execute (0x09 + 8 * r)) s in
  result hl s' = sum mod 65536 /\
  to_number (cf s') = bit sum 16 /\
  sf s' = sf s /\ zf s' = zf s /\ hf s' = hf s /\ pf s' = pf s /\
  (forall i, i <> 4 -> i <> 5 -> regs s' !! i = regs s !! i) /\
  sp s' = sp s /\ memory s' = memory s.
Proof.
  intros Hwf Hr. cbv zeta.
  set (sum := result hl s + result (rp r) s).
  rewrite run_execute.
  destruct (iff_countdown_frame (run_handler (0x09 + 8 * r) s))
    as (Esp & _ & -> & -> & -> & -> & -> & Eregs & -> & _).
  assert (Ehl : result hl (run iff_countdown (run_handler (0x09 + 8 * r) s)) =
                result hl (run_handler (0x09 + 8 * r) s)).
  { unfold result, hl, rp, regs_get, get; simpl. now rewrite Eregs. }
  rewrite Ehl, Esp, Eregs. clear Ehl Esp Eregs.
  rewrite (dad_handler r s Hr). cbv zeta. fold sum.
  split; [|split; [|repeat split]].
  - unfold result, hl, rp, regs_get, get; simpl.
    rewrite lookup_insert_eq.
    rewrite lookup_insert_ne, lookup_insert_eq by discriminate. simpl.
    rewrite !land_ff, Z.mod_mod, Z.shiftr_div_pow2 by lia.
    change (2 ^ 8) with 256.
    rewrite (proj2 (bytes_join (sum mod 256) ((sum / 256) mod 256)
                      ltac:(apply Z.mod_pos_bound; lia)
                      ltac:(apply Z.mod_pos_bound; lia))).
    apply split_word.
  - simpl. change 65536 with (2 ^ 16). rewrite testbit_mask by lia. reflexivity.
  - intros i H4 H5. simpl. rewrite !lookup_insert_ne by congruence. reflexivity.
Qed.

Lemma dad_adds_into_hl_witness :
  let s := run (set_c 0x01) (run (set_b 0x80)
             (run (set_l 0xFF) (run (set_h 0x80) (new ∅ IO_new)))) in
  result hl (run (execute 0x09) s) = 0x0100 /\
  to_number (cf (run (execute 0x09) s)) = 1.
Proof.
  pose proof (dad_adds_into_hl
    (run (set_c 0x01) (run (set_b 0x80)
       (run (set_l 0xFF) (run (set_h 0x80) (new ∅ IO_new))))) 0
    eq_refl (or_introl eq_refl)) as H.
  cbv zeta in H. destruct H as (Hhl & Hcf & _).
  cbv zeta. split; [exact Hhl | exact Hcf].
Defined.

(** ** C5: T-states *)

Lemma rcc_tstates (opcode : Z) (s : state) :
  cpu_cycles (run (h_rcc opcode) s) =
  if result (condition opcode) s then 11 else 5.
Proof.
  unfold h_rcc. rewrite run_bind.
  change (run (condition opcode) s) with s.
  destruct (result (condition opcode) s); reflexivity.
Qed.

Lemma ccc_tstates (opcode : Z) (s : state) :
  cpu_cycles (run (h_ccc opcode) s) =
  if result (condition opcode) s then 17 else 11.
Proof.
  unfold h_ccc. rewrite run_bind.
  change (run (condition opcode) s) with s.
  destruct (result (condition opcode) s); reflexivity.
Qed.

(** Once [cycles] has stored the count, what follows in the closure leaves
    it there. *)
Lemma cycles_then {A : Type} (v n : Z) (k : unit -> M A) (s : state) :
  (forall x, preserves cpu_cycles (k x)) ->
  cpu_cycles (run (cycles v n ≫= k) s) = n.
Proof. intros Hk. rewrite run_bind, Hk. reflexivity. Qed.

Lemma condition_then {A : Type} (opcode : Z) (k : bool -> M A) (s : state) :
  run (condition opcode ≫= k) s = run (k (result (condition opcode) s)) s.
Proof. reflexivity. Qed.

Lemma mov_tstates (opcode : Z) (s : state) :
  cpu_cycles (run (h_mov opcode) s) =
  if (Z.land opcode 7 =? 6) || (Z.land (Z.shiftr opcode 3) 7 =? 6) then 7 else 5.
Proof.
  unfold h_mov. cbv zeta.
  destruct ((Z.land opcode 7 =? 6) || (Z.land (Z.shiftr opcode 3) 7 =? 6));
    apply cycles_then; frame.
Qed.

Ltac closure_tstates :=
  lazymatch goal with
  | |- cpu_cycles (run (h_nop _) _) = _ => reflexivity
  | |- cpu_cycles (run (h_rcc _) _) = _ => rewrite rcc_tstates; reflexivity
  | |- cpu_cycles (run (h_ccc _) _) = _ => rewrite ccc_tstates; reflexivity
  | |- cpu_cycles (run (h_mov _) _) = _ => rewrite mov_tstates; reflexivity
  | |- cpu_cycles (run (h_jcc _) _) = _ =>
      unfold h_jcc; rewrite condition_then; apply cycles_then; frame
  | |- cpu_cycles (run (?h _) _) = _ =>
      unfold h; cbv zeta; apply cycles_then; frame
  end.

Ltac tstates_case :=
  intros; unfold handler_tstates, run_handler; intros;
  first [ congruence
        | cbv beta iota delta [handler documented_tstates];
          solve [closure_tstates] ].

(** Every opcode but HLT is counted as documented. *)
Lemma tstates_documented (opcode : Z) :
  0 <= opcode < 256 -> opcode <> 0x76 -> handler_tstates opcode.
Proof.
  intros Hrange.
  assert (H : Forall (fun op => op <> 0x76 -> handler_tstates op) (seqZ 0 256)).
  { let l := eval vm_compute in (seqZ 0 256) in change (seqZ 0 256) with l.
    repeat (constructor; [tstates_case|]). constructor. }
  rewrite Forall_forall in H. apply H, elem_of_seqZ. lia.
Qed.

(** C5 (the code's behaviour where it departs from the claim). For HLT
    (opcode 0x76) [execute] returns, and leaves in [cpu_cycles], 4 T-states
    from every state, where the documented count is 7; every other opcode
    is counted as documented. *)
Theorem hlt_counts_4_tstates (s : state) :
  result (execute 0x76) s = 4 /\
  cpu_cycles (run (execute 0x76) s) = 4 /\
  documented_tstates 0x76 (result (condition 0x76) s) = 7.
Proof.
  rewrite result_execute, execute_cpu_cycles. repeat split.
Qed.


(** ** The invariants of the data model are kept by every instruction *)

Lemma wf_state_iff (s : state) :
  wf_state s = true <->
  (forall r, 0 <= r < 8 -> exists v, regs s !! r = Some v /\ 0 <= v < 256) /\
  0 <= pc s < 65536 /\ 0 <= sp s < 65536 /\
  is_flag (sf s) = true /\ is_flag (zf s) = true /\ is_flag (hf s) = true /\
  is_flag (pf s) = true /\ is_flag (cf s) = true.
Proof.
  split.
  - intros H. split; [intros r Hr; now apply wf_state_regs|].
    unfold wf_state in H. rewrite !andb_true_iff, !is_word_spec in H. tauto.
  - intros (Hregs & Hpc & Hsp & Hf).
    unfold wf_state. rewrite !andb_true_iff, !is_word_spec.
    repeat split; try tauto.
    apply forallb_forall. intros r Hr.
    apply list_elem_of_In, elem_of_seqZ in Hr.
    destruct (Hregs r ltac:(lia)) as (v & -> & Hv). simpl.
    now apply is_byte_spec.
Qed.

Lemma wf_with_pc (v : Z) (s : state) :
  wf_state s = true -> 0 <= v < 65536 -> wf_state (with_pc v s) = true.
Proof. rewrite !wf_state_iff. simpl. tauto. Qed.

Lemma wf_with_sp (v : Z) (s : state) :
  wf_state s = true -> 0 <= v < 65536 -> wf_state (with_sp v s) = true.
Proof. rewrite !wf_state_iff. simpl. tauto. Qed.

Lemma wf_with_sf (v : jsval) (s : state) :
  wf_state s = true -> is_flag v = true -> wf_state (with_sf v s) = true.
Proof. rewrite !wf_state_iff. simpl. tauto. Qed.

Lemma wf_with_zf (v : jsval) (s : state) :
  wf_state s = true -> is_flag v = true -> wf_state (with_zf v s) = true.
Proof. rewrite !wf_state_iff. simpl. tauto. Qed.

Lemma wf_with_hf (v : jsval) (s : state) :
  wf_state s = true -> is_flag v = true -> wf_state (with_hf v s) = true.
Proof. rewrite !wf_state_iff. simpl. tauto. Qed.

Lemma wf_with_pf (v : jsval) (s : state) :
  wf_state s = true -> is_flag v = true -> wf_state (with_pf v s) = true.
Proof. rewrite !wf_state_iff. simpl. tauto. Qed.

Lemma wf_with_cf (v : jsval) (s : state) :
  wf_state s = true -> is_flag v = true -> wf_state (with_cf v s) = true.
Proof. rewrite !wf_state_iff. simpl. tauto. Qed.

Lemma wf_with_regs (r v : Z) (s : state) :
  wf_state s = true -> 0 <= r < 8 -> 0 <= v < 256 ->
  wf_state (with_regs (<[r := v]> (regs s)) s) = true.
Proof.
  rewrite !wf_state_iff. simpl. intros (Hregs & Hrest) Hr Hv.
  split; [|exact Hrest].
  intros r' Hr'. destruct (Z.eq_dec r r') as [<-|Hne].
  - exists v. rewrite lookup_insert_eq. tauto.
  - rewrite lookup_insert_ne by exact Hne. now apply Hregs.
Qed.

Lemma land_ff_range (x : Z) : 0 <= Z.land x 0xff < 256.
Proof. rewrite land_ff. apply Z.mod_pos_bound. lia. Qed.

Lemma land_ffff_range (x : Z) : 0 <= Z.land x 0xffff < 65536.
Proof. rewrite land_ffff. apply Z.mod_pos_bound. lia. Qed.

Lemma bytes_word (lo hi : Z) :
  0 <= lo < 256 -> 0 <= hi < 256 ->
  0 <= Z.lor lo (Z.shiftl hi 8) < 65536 /\ 0 <= Z.lor (Z.shiftl hi 8) lo < 65536.
Proof.
  intros Hlo Hhi. destruct (bytes_join lo hi Hlo Hhi) as [H1 H2].
  rewrite H1, H2. lia.
Qed.

Lemma flag_entries_get (t : list Z) (i : Z) :
  flag_entries t = true -> is_flag (JNum (table_get t i)) = true.
Proof.
  unfold flag_entries, table_get. intros H.
  destruct (t !! Z.to_nat i) as [v|] eqn:Hv; simpl; [|reflexivity].
  rewrite forallb_forall in H. apply (H v).
  apply list_elem_of_In, list_elem_of_lookup. eauto.
Qed.

Lemma is_flag_land_1 (x : Z) : is_flag (JNum (Z.land x 0x01)) = true.
Proof.
  unfold is_flag.
  assert (H : Z.land x 0x01 = x mod 2) by (apply (Z.land_ones x 1); lia).
  rewrite H. pose proof (Z.mod_pos_bound x 2 ltac:(lia)).
  apply orb_true_iff. rewrite !Z.eqb_eq. lia.
Qed.

(** *** Rules *)

Lemma keeps_wf_bind {A B : Type} (R : A -> Prop) (R' : B -> Prop)
      (m : M A) (k : A -> M B) :
  keeps_wf R m -> (forall x, R x -> keeps_wf R' (k x)) ->
  keeps_wf R' (m ≫= k).
Proof.
  intros Hm Hk s Hs. rewrite run_bind, result_bind.
  destruct (Hm s Hs) as [Hs' Hx]. exact (Hk _ Hx _ Hs').
Qed.

Lemma keeps_wf_weaken {A : Type} (R R' : A -> Prop) (m : M A) :
  keeps_wf R m -> (forall x, R x -> R' x) -> keeps_wf R' m.
Proof. intros Hm HR s Hs. destruct (Hm s Hs). auto. Qed.

Lemma keeps_wf_ret {A : Type} (R : A -> Prop) (x : A) :
  R x -> keeps_wf R (mret x).
Proof. intros Hx s Hs. split; assumption. Qed.

Lemma keeps_wf_modify (R : unit -> Prop) (f : state -> state) :
  R tt -> (forall s, wf_state s = true -> wf_state (f s) = true) ->
  keeps_wf R (modify f).
Proof. intros HR Hf s Hs. split; [now apply Hf | exact HR]. Qed.

Lemma keeps_wf_get_word (f : state -> Z) :
  (forall s, wf_state s = true -> 0 <= f s < 65536) ->
  keeps_wf (fun v => 0 <= v < 65536) (get f).
Proof. intros Hf s Hs. split; [exact Hs | now apply Hf]. Qed.

Lemma keeps_wf_get_flag (f : state -> jsval) :
  (forall s, wf_state s = true -> is_flag (f s) = true) ->
  keeps_wf (fun v => is_flag v = true) (get f).
Proof. intros Hf s Hs. split; [exact Hs | now apply Hf]. Qed.

Lemma keeps_wf_get_any {A : Type} (f : state -> A) :
  keeps_wf (fun _ => True) (get f).
Proof. intros s Hs. split; [exact Hs | exact I]. Qed.

Lemma keeps_wf_memory_read_byte (addr : Z) (q : bool) :
  keeps_wf (fun v => 0 <= v < 256) (memory_read_byte addr q).
Proof. intros s Hs. split; [exact Hs | apply land_ff_range]. Qed.

Lemma keeps_wf_regs_get (r : Z) :
  0 <= r < 8 -> keeps_wf (fun v => 0 <= v < 256) (regs_get r).
Proof.
  intros Hr s Hs. split; [exact Hs|].
  destruct (wf_state_regs s r Hs Hr) as (v & Hv & Hb).
  unfold result, regs_get, get; simpl. rewrite Hv. exact Hb.
Qed.

Lemma keeps_wf_store_flags : keeps_wf (fun v => 0 <= v < 256) store_flags.
Proof.
  intros s Hs. split; [exact Hs|].
  rewrite store_flags_result. apply flag_byte_bits.
Qed.

Lemma keeps_wf_condition (opcode : Z) : keeps_wf (fun _ => True) (condition opcode).
Proof. intros s Hs. split; [exact Hs | exact I]. Qed.

Lemma keeps_wf_input (port : Z) : keeps_wf (fun _ => True) (input port).
Proof. intros s Hs. split; [exact Hs | exact I]. Qed.

Lemma wf_state_pc (s : state) : wf_state s = true -> 0 <= pc s < 65536.
Proof. rewrite wf_state_iff. tauto. Qed.

Lemma wf_state_cf_flag (s : state) : wf_state s = true -> is_flag (cf s) = true.
Proof. rewrite wf_state_iff. tauto. Qed.

Lemma wf_state_hf_flag (s : state) : wf_state s = true -> is_flag (hf s) = true.
Proof. rewrite wf_state_iff. tauto. Qed.

(** Ranges of the values the code builds. *)
Ltac wf_side :=
  cbv beta in *;
  first
    [ exact I
    | assumption
    | reflexivity
    | apply land_ff_range
    | apply land_ffff_range
    | apply is_flag_land_1
    | apply flag_entries_get; reflexivity
    | apply wf_state_pc; assumption
    | apply wf_state_sp; assumption
    | apply bytes_word; assumption
    | match goal with
      | |- is_flag (if ?b then _ else _) = true =>
          destruct b; first [reflexivity | assumption]
      | |- is_flag (JNum (if ?b then _ else _)) = true =>
          destruct b; reflexivity
      end
    | lia
    | vm_compute; split; [discriminate | reflexivity] ].

(** An assignment to a field keeps the invariants when the value is in the
    field's range. *)
Ltac wf_setter :=
  cbv beta;
  lazymatch goal with
  | |- wf_state (with_pc _ _) = true => apply wf_with_pc; [assumption|]
  | |- wf_state (with_sp _ _) = true => apply wf_with_sp; [assumption|]
  | |- wf_state (with_sf _ _) = true => apply wf_with_sf; [assumption|]
  | |- wf_state (with_zf _ _) = true => apply wf_with_zf; [assumption|]
  | |- wf_state (with_hf _ _) = true => apply wf_with_hf; [assumption|]
  | |- wf_state (with_pf _ _) = true => apply wf_with_pf; [assumption|]
  | |- wf_state (with_cf _ _) = true => apply wf_with_cf; [assumption|]
  | |- wf_state (with_regs (<[_ := _]> _) _) = true =>
      apply wf_with_regs; [assumption| |]
  | |- wf_state _ = true => assumption
  end.

Ltac wf_step :=
  lazymatch goal with
  | |- keeps_wf _ (mbind _ _) => eapply keeps_wf_bind; [|intros ? ?]
  | |- keeps_wf _ (mret _) =>
      first [ apply (keeps_wf_ret (fun v => 0 <= v < 256)); solve [wf_side]
            | apply (keeps_wf_ret (fun v => 0 <= v < 65536)); solve [wf_side]
            | apply (keeps_wf_ret (fun _ => True)); exact I ]
  | |- keeps_wf _ (get pc) =>
      apply keeps_wf_get_word; intros ? ?; apply wf_state_pc; assumption
  | |- keeps_wf _ (get sp) =>
      apply keeps_wf_get_word; intros ? ?; apply wf_state_sp; assumption
  | |- keeps_wf _ (get cf) =>
      apply keeps_wf_get_flag; intros ? ?; apply wf_state_cf_flag; assumption
  | |- keeps_wf _ (get hf) =>
      apply keeps_wf_get_flag; intros ? ?; apply wf_state_hf_flag; assumption
  | |- keeps_wf _ (get _) => apply keeps_wf_get_any
  | |- keeps_wf _ (modify _) =>
      apply (keeps_wf_modify (fun _ => True)); [exact I | intros ? ?]
  | |- keeps_wf _ (if ?c then _ else _) =>
      first [ let c' := eval cbv in c in
              lazymatch c' with
              | true => change c with true
              | false => change c with false
              end; cbv iota
            | destruct c eqn:? ]
  | |- keeps_wf _ (memory_read_byte _ _) => apply keeps_wf_memory_read_byte
  | |- keeps_wf _ (regs_get _) => apply keeps_wf_regs_get
  | |- keeps_wf _ store_flags => apply keeps_wf_store_flags
  | |- keeps_wf _ (condition _) => apply keeps_wf_condition
  | |- keeps_wf _ (input _) => apply keeps_wf_input
  | |- keeps_wf _ ?m => let f := head_of m in unfold f; cbv beta zeta
  end.

Ltac wf_go :=
  repeat (lazymatch goal with
          | |- keeps_wf _ _ => wf_step
          | |- wf_state _ = true => wf_setter
          | |- _ => wf_side
          end).

Ltac handler_wf_case :=
  unfold handler_keeps_wf; cbv beta iota delta [handler]; solve [wf_go].

Lemma handlers_keep_wf (opcode : Z) :
  0 <= opcode < 256 -> handler_keeps_wf opcode.
Proof.
  intros Hrange.
  assert (H : Forall handler_keeps_wf (seqZ 0 256)).
  { let l := eval vm_compute in (seqZ 0 256) in change (seqZ 0 256) with l.
    repeat (constructor; [handler_wf_case|]). constructor. }
  rewrite Forall_forall in H. apply H, elem_of_seqZ. lia.
Qed.

Lemma iff_countdown_keeps_wf (s : state) :
  wf_state s = true -> wf_state (run iff_countdown s) = true.
Proof.
  intros Hs. assert (H : keeps_wf (fun _ => True) iff_countdown) by wf_go.
  apply H, Hs.
Qed.

(** The invariants of the data model hold after every instruction that
    starts from a state where they hold. *)
Lemma execute_keeps_wf (opcode : Z) (s : state) :
  0 <= opcode < 256 ->
  wf_state s = true -> wf_state (run (execute opcode) s) = true.
Proof.
  intros Hop Hs. rewrite run_execute. apply iff_countdown_keeps_wf.
  apply (handlers_keep_wf opcode Hop (with_last_opcode opcode s)), Hs.
Qed.

Lemma instruction_keeps_wf (s : state) :
  wf_state s = true -> wf_state (run instruction s) = true.
Proof.
  intros Hs. rewrite run_instruction. apply execute_keeps_wf.
  - assert (H := memory_read_byte_range (pc s) false s). lia.
  - apply wf_with_pc; [exact Hs | apply land_ffff_range].
Qed.

(** The state the constructor builds, for any memory and device. *)
Lemma new_wf (mem : gmap Z Z) (device : IO) : wf_state (new mem device) = true.
Proof. reflexivity. Qed.


(** * Further properties of the code *)

(** ** The dispatch table and the cycle counts *)

(** X1. The table has a closure for every byte and for nothing else:
    [execute] reaches its "Unhandled opcode" branch for no opcode that
    [next_pc_byte] can fetch. *)
Theorem handler_defined_iff_byte (opcode : Z) :
  is_Some (handler opcode) <-> 0 <= opcode < 256.
Proof.
  opcode_cases opcode
    ltac:(split; [intros [h Hh]; first [lia | discriminate Hh]
                 | intros Hr; first [lia | eexists; reflexivity]]).
Qed.

Lemma execute_vcycles (opcode : Z) (s : state) :
  vcycles (run (execute opcode) s) = vcycles (run_handler opcode s).
Proof. rewrite run_execute. apply iff_countdown_frame. Qed.

Lemma cycle_pair_then {A : Type} (v n : Z) (k : unit -> M A) (s : state) :
  (forall x, preserves cycle_pair (k x)) ->
  cycle_pair (run (cycles v n ≫= k) s) = (v, n).
Proof. intros Hk. rewrite run_bind, Hk. reflexivity. Qed.

Lemma rcc_cycle_pair (opcode : Z) (s : state) :
  cycle_pair (run (h_rcc opcode) s) =
  if result (condition opcode) s then (T533, 11) else (T5, 5).
Proof.
  unfold h_rcc. rewrite run_bind.
  change (run (condition opcode) s) with s.
  destruct (result (condition opcode) s); reflexivity.
Qed.

Lemma ccc_cycle_pair (opcode : Z) (s : state) :
  cycle_pair (run (h_ccc opcode) s) =
  if result (condition opcode) s then (T53333, 17) else (T533, 11).
Proof.
  unfold h_ccc. rewrite run_bind.
  change (run (condition opcode) s) with s.
  destruct (result (condition opcode) s); reflexivity.
Qed.

Lemma mov_cycle_pair (opcode : Z) (s : state) :
  cycle_pair (run (h_mov opcode) s) =
  if (Z.land opcode 7 =? 6) || (Z.land (Z.shiftr opcode 3) 7 =? 6)
  then (T43, 7) else (T5, 5).
Proof.
  unfold h_mov. cbv zeta.
  destruct ((Z.land opcode 7 =? 6) || (Z.land (Z.shiftr opcode 3) 7 =? 6));
    apply cycle_pair_then; frame.
Qed.

Ltac in_cycle_pairs :=
  unfold cycle_pairs;
  repeat first [ apply list_elem_of_here | apply list_elem_of_further ].

Ltac closure_cycle_pair :=
  lazymatch goal with
  | |- cycle_pair (run (h_nop _) _) ∈ _ =>
      change (cycle_pair (run (h_nop _) _)) with (T4, 4); in_cycle_pairs
  | |- cycle_pair (run (h_rcc _) _) ∈ _ =>
      rewrite rcc_cycle_pair;
      match goal with |- context [if ?b then _ else _] => destruct b end;
      in_cycle_pairs
  | |- cycle_pair (run (h_ccc _) _) ∈ _ =>
      rewrite ccc_cycle_pair;
      match goal with |- context [if ?b then _ else _] => destruct b end;
      in_cycle_pairs
  | |- cycle_pair (run (h_mov _) _) ∈ _ =>
      rewrite mov_cycle_pair;
      match goal with |- context [if ?b then _ else _] => destruct b end;
      in_cycle_pairs
  | |- cycle_pair (run (h_jcc _) _) ∈ _ =>
      unfold h_jcc; rewrite condition_then, cycle_pair_then by frame;
      in_cycle_pairs
  | |- cycle_pair (run (?h _) _) ∈ _ =>
      unfold h; cbv zeta; rewrite cycle_pair_then by frame; in_cycle_pairs
  end.

Lemma handlers_cycle_pair (opcode : Z) :
  0 <= opcode < 256 -> handler_cycle_pair opcode.
Proof.
  intros Hrange.
  assert (H : Forall handler_cycle_pair (seqZ 0 256)).
  { let l := eval vm_compute in (seqZ 0 256) in change (seqZ 0 256) with l.
    repeat (constructor;
            [unfold handler_cycle_pair, run_handler; intros;
             cbv beta iota delta [handler]; solve [closure_cycle_pair]|]).
    constructor. }
  rewrite Forall_forall in H. apply H, elem_of_seqZ. lia.
Qed.

(** X2. For every byte opcode [execute] returns the [cpu_cycles] it leaves;
    [vcycles] and [cpu_cycles] are one of the nine pairs of the source
    (4/4, 8/7, 8/5, 12/10, 20/16, 16/13, 16/11, 24/17, 24/18), so that the
    count is between 4 and 18 and [vcycles] is a multiple of 4 that is not
    below it. *)
Theorem execute_cycle_counts (opcode : Z) (s : state) :
  0 <= opcode < 256 ->
  let s' := run (execute opcode) s in
  result (execute opcode) s = cpu_cycles s' /\
  (vcycles s', cpu_cycles s') ∈ cycle_pairs /\
  4 <= cpu_cycles s' <= 18 /\
  vcycles s' mod 4 = 0 /\ cpu_cycles s' <= vcycles s' <= 24.
Proof.
  intros Hop. cbv zeta. rewrite result_execute.
  rewrite execute_cpu_cycles, execute_vcycles.
  pose proof (handlers_cycle_pair opcode Hop s) as Hin.
  unfold cycle_pair in Hin. split; [reflexivity|]. split; [exact Hin|].
  unfold cycle_pairs in Hin. rewrite !elem_of_cons, elem_of_nil in Hin.
  destruct Hin as [H|[H|[H|[H|[H|[H|[H|[H|[H|[]]]]]]]]]];
    injection H as -> ->; vm_compute; intuition congruence.
Qed.

Lemma execute_cycle_counts_witness :
  result (execute 0xE3) (new ∅ IO_new) = 18.
Proof.
  destruct (execute_cycle_counts 0xE3 (new ∅ IO_new)) as (H & _); [lia|].
  rewrite H. reflexivity.
Defined.

(** ** Operand fetch, jumps, calls and returns *)

Lemma execute_pc (opcode : Z) (s : state) :
  pc (run (execute opcode) s) = pc (run_handler opcode s).
Proof. rewrite run_execute. apply iff_countdown_frame. Qed.

Lemma execute_sp (opcode : Z) (s : state) :
  sp (run (execute opcode) s) = sp (run_handler opcode s).
Proof. rewrite run_execute. apply iff_countdown_frame. Qed.

Lemma execute_memory (opcode : Z) (s : state) :
  memory (run (execute opcode) s) = memory (run_handler opcode s).
Proof. rewrite run_execute. apply iff_countdown_frame. Qed.

Lemma mem_byte_range (s : state) (addr : Z) : 0 <= mem_byte s addr < 256.
Proof. apply memory_read_byte_range. Qed.

Lemma mem_byte_mod (s : state) (addr : Z) :
  mem_byte s (addr mod 65536) = mem_byte s addr.
Proof.
  unfold mem_byte, result, memory_read_byte, Memory.read; simpl.
  rewrite !land_ffff, !Z.mod_mod by lia. reflexivity.
Qed.

Lemma mem_byte_memory (s t : state) (addr : Z) :
  memory s = memory t -> mem_byte s addr = mem_byte t addr.
Proof.
  intros H. unfold mem_byte, result, memory_read_byte; simpl. now rewrite H.
Qed.

Lemma mem_word_range (s : state) (addr : Z) : 0 <= mem_word s addr < 65536.
Proof.
  unfold mem_word.
  pose proof (mem_byte_range s addr).
  pose proof (mem_byte_range s ((addr + 1) mod 65536)). lia.
Qed.

Lemma next_pc_word_result (s : state) :
  result next_pc_word s = mem_word s (pc s).
Proof.
  unfold mem_word.
  rewrite <- (proj1 (bytes_join _ _ (mem_byte_range s (pc s))
                       (mem_byte_range s ((pc s + 1) mod 65536)))).
  rewrite mem_byte_mod.
  unfold mem_byte, result, next_pc_byte, next_pc_word, memory_read_byte; simpl.
  unfold Memory.read.
  rewrite !land_ffff, !Z.mod_mod by lia. reflexivity.
Qed.

Lemma next_pc_word_run (s : state) :
  run next_pc_word s = with_pc ((pc s + 2) mod 65536) s.
Proof.
  unfold run, next_pc_word, next_pc_byte; simpl.
  rewrite !land_ffff. rewrite Z.add_mod_idemp_l by lia.
  replace (pc s + 1 + 1) with (pc s + 2) by lia. reflexivity.
Qed.



Lemma loose_eq_flag (f : jsval) (d : bool) :
  is_flag f = true -> loose_eq f d = Bool.eqb (truthy f) d.
Proof.
  intros Hf. unfold loose_eq. rewrite (is_flag_spec f Hf).
  destruct (truthy f), d; reflexivity.
Qed.

Lemma selected_flag_is_flag (cc : Z) (s : state) :
  wf_state s = true -> is_flag (selected_flag cc s) = true.
Proof.
  intros Hwf. destruct (wf_state_flags s Hwf) as (Hs & Hz & Hh & Hp & Hc).
  unfold selected_flag.
  destruct (cc =? 0); [exact Hz|]. destruct (cc =? 1); [exact Hc|].
  destruct (cc =? 2); [exact Hp | exact Hs].
Qed.

Lemma condition_result (opcode cc d : Z) (s : state) :
  0 <= cc < 4 -> 0 <= d < 2 ->
  Z.land (Z.shiftr opcode 4) 0x03 = cc ->
  Z.land opcode 0x08 = 8 * d ->
  result (condition opcode) s = loose_eq (selected_flag cc s) (d =? 1).
Proof.
  intros Hcc Hd Hsel Hdir. unfold result, condition; simpl.
  rewrite Hsel, Hdir.
  assert (cc = 0 \/ cc = 1 \/ cc = 2 \/ cc = 3) as [->|[->|[->| ->]]] by lia;
    (assert (d = 0 \/ d = 1) as [->| ->] by lia); reflexivity.
Qed.

Lemma condition_fields (base cc d : Z) :
  (base = 0xC0 \/ base = 0xC2 \/ base = 0xC4) ->
  0 <= cc < 4 -> 0 <= d < 2 ->
  Z.land (Z.shiftr (base + 16 * cc + 8 * d) 4) 0x03 = cc /\
  Z.land (base + 16 * cc + 8 * d) 0x08 = 8 * d.
Proof.
  intros Hb Hcc Hd.
  assert (cc = 0 \/ cc = 1 \/ cc = 2 \/ cc = 3) as [->|[->|[->| ->]]] by lia;
    (assert (d = 0 \/ d = 1) as [->| ->] by lia);
    destruct Hb as [->|[->| ->]]; split; reflexivity.
Qed.

(** X4. The condition of Rcc (0xC0), Jcc (0xC2) and Ccc (0xC4), opcode
    base + 16 cc + 8 d: in a state of the data model it holds exactly when
    the flag that cc selects (0 ZF, 1 CF, 2 PF, 3 SF) is set for d = 1 and
    clear for d = 0; so of the two opcodes that differ in d only, exactly
    one has its condition hold. *)
Theorem condition_tests_selected_flag (s : state) (base cc d : Z) :
  wf_state s = true ->
  (base = 0xC0 \/ base = 0xC2 \/ base = 0xC4) ->
  0 <= cc < 4 -> 0 <= d < 2 ->
  result (condition (base + 16 * cc + 8 * d)) s =
    Bool.eqb (truthy (selected_flag cc s)) (d =? 1) /\
  result (condition (base + 16 * cc + 8)) s =
    negb (result (condition (base + 16 * cc)) s).
Proof.
  intros Hwf Hb Hcc Hd.
  pose proof (selected_flag_is_flag cc s Hwf) as Hf.
  destruct (condition_fields base cc d Hb Hcc Hd) as [H1 H2].
  destruct (condition_fields base cc 1 Hb Hcc ltac:(lia)) as [H3 H4].
  destruct (condition_fields base cc 0 Hb Hcc ltac:(lia)) as [H5 H6].
  split.
  - rewrite (condition_result _ cc d s Hcc Hd H1 H2). now apply loose_eq_flag.
  - replace (base + 16 * cc + 8) with (base + 16 * cc + 8 * 1) by lia.
    replace (base + 16 * cc) with (base + 16 * cc + 8 * 0) at 2 by lia.
    rewrite (condition_result _ cc 1 s Hcc ltac:(lia) H3 H4).
    rewrite (condition_result _ cc 0 s Hcc ltac:(lia) H5 H6).
    rewrite !loose_eq_flag by exact Hf.
    destruct (truthy (selected_flag cc s)); reflexivity.
Qed.

Lemma condition_tests_selected_flag_witness :
  result (condition 0xCA) (with_zf (JBool true) (new ∅ IO_new)) = true.
Proof.
  destruct (condition_tests_selected_flag
    (with_zf (JBool true) (new ∅ IO_new)) 0xC2 0 1 eq_refl
    (or_intror (or_introl eq_refl)) ltac:(lia) ltac:(lia)) as [H _].
  exact H.
Defined.

Lemma memory_read_word_mem_word (addr : Z) (q : bool) (s : state) :
  result (memory_read_word addr q) s = mem_word s addr.
Proof.
  unfold mem_word.
  rewrite <- (proj1 (bytes_join _ _ (mem_byte_range s addr)
                       (mem_byte_range s ((addr + 1) mod 65536)))).
  rewrite mem_byte_mod. reflexivity.
Qed.

Lemma pop_result (s : state) : result pop s = mem_word s (sp s).
Proof. rewrite <- (memory_read_word_mem_word (sp s) true). reflexivity. Qed.

Lemma pop_run (s : state) : run pop s = with_sp ((sp s + 2) mod 65536) s.
Proof. unfold run, pop; simpl. rewrite land_ffff. reflexivity. Qed.

Lemma push_run (v : Z) (s : state) :
  run (push v) s =
  let sp1 := Z.land (sp s - 2) 0xffff in
  with_memory
    (Memory.write
       (Memory.write (memory s) (Z.land sp1 0xffff)
                     (Z.land (Z.land v 0xff) 0xff) true)
       (Z.land (sp1 + 1) 0xffff) (Z.land (Z.shiftr v 8) 0xff) true)
    (with_sp sp1 s).
Proof. reflexivity. Qed.

(** What [push] does: the stack pointer goes down by two modulo 2^16, the
    word is read back at the new top, and the other cells are as before. *)
Lemma push_spec (v : Z) (s : state) :
  0 <= v < 65536 ->
  let s' := run (push v) s in
  sp s' = (sp s - 2) mod 65536 /\
  mem_word s' (sp s') = v /\
  (forall addr,
     addr mod 65536 <> sp s' -> addr mod 65536 <> (sp s' + 1) mod 65536 ->
     mem_byte s' addr = mem_byte s addr) /\
  pc s' = pc s /\ regs s' = regs s /\ flags s' = flags s.
Proof.
  intros Hv. cbv zeta. rewrite push_run. cbv zeta.
  rewrite <- land_ffff.
  set (sp1 := Z.land (sp s - 2) 0xffff).
  assert (Hsp1 : 0 <= sp1 < 65536).
  { unfold sp1. rewrite land_ffff. apply Z.mod_pos_bound. lia. }
  split; [reflexivity|]. split; [|split; [|repeat split]].
  - rewrite <- (memory_read_word_mem_word _ true), memory_read_word_result.
    simpl sp. simpl memory.
    destruct (memory_word_roundtrip (memory s) sp1 v true Hsp1 Hv) as (Rlo & Rhi).
    cbv zeta in Rlo, Rhi. rewrite Rlo, Rhi.
    apply word_of_stored_bytes, Hv.
  - intros addr H1 H2. simpl sp in H1, H2.
    unfold mem_byte, result, memory_read_byte, Memory.read, Memory.write; simpl.
    rewrite !land_ffff, !Z.mod_mod by lia.
    rewrite (Z.mod_small sp1) by lia.
    rewrite !lookup_insert_ne by congruence. reflexivity.
Qed.

Lemma call_run (w16 : Z) (s : state) :
  run (call w16) s = with_pc w16 (run (push (pc s)) s).
Proof. reflexivity. Qed.

Lemma ret_run (s : state) :
  run ret s = with_pc (mem_word s (sp s)) (with_sp ((sp s + 2) mod 65536) s).
Proof.
  unfold ret. rewrite run_bind, pop_result, pop_run. reflexivity.
Qed.




Lemma cycles_run (v n : Z) (s : state) :
  run (cycles v n) s = with_cpu_cycles n (with_vcycles v s).
Proof. reflexivity. Qed.

Lemma execute_mem_word (opcode : Z) (s : state) (addr : Z) :
  mem_word (run (execute opcode) s) addr = mem_word (run_handler opcode s) addr.
Proof.
  unfold mem_word.
  rewrite !(mem_byte_memory (run (execute opcode) s) (run_handler opcode s))
    by apply execute_memory.
  reflexivity.
Qed.

Lemma call_rst_effect (s : state) (op n : Z) :
  wf_state s = true ->
  op = 0xCD \/ op = 0xDD \/ op = 0xED \/ op = 0xFD ->
  0 <= n < 8 ->
  let s1 := run (execute op) s in
  let s2 := run (execute (0xC7 + 8 * n)) s in
  (pc s1 = mem_word s (pc s) /\
   sp s1 = (sp s - 2) mod 65536 /\
   mem_word s1 (sp s1) = (pc s + 2) mod 65536 /\
   regs s1 = regs s /\ flags s1 = flags s) /\
  (pc s2 = 8 * n /\
   sp s2 = (sp s - 2) mod 65536 /\
   mem_word s2 (sp s2) = pc s /\
   regs s2 = regs s /\ flags s2 = flags s).
Proof.
  intros Hwf Hop Hn. cbv zeta.
  pose proof (wf_state_pc s Hwf) as Hpc.
  assert (Hcall : run_handler op s =
            with_pc (mem_word s (pc s))
              (run (push ((pc s + 2) mod 65536))
                 (with_pc ((pc s + 2) mod 65536)
                    (with_cpu_cycles 17 (with_vcycles T53333
                       (with_last_opcode op s)))))).
  { transitivity (run (h_call op) (with_last_opcode op s)).
    - unfold run_handler.
      destruct Hop as [->|[->|[->| ->]]]; cbv beta iota delta [handler];
        reflexivity.
    - unfold h_call. rewrite !run_bind, cycles_run.
      rewrite next_pc_word_run, next_pc_word_result, call_run. reflexivity. }
  assert (Hrst : run_handler (0xC7 + 8 * n) s =
            with_pc (8 * n)
              (run (push (pc s))
                 (with_cpu_cycles 11 (with_vcycles T533
                    (with_last_opcode (0xC7 + 8 * n) s))))).
  { transitivity (run (h_rst (0xC7 + 8 * n)) (with_last_opcode (0xC7 + 8 * n) s)).
    - unfold run_handler.
      index_cases Hn; cbv beta iota delta [handler]; reflexivity.
    - unfold h_rst, rst.
      rewrite !run_bind, run_modify, result_get, run_get, cycles_run.
      replace (Z.land (0xC7 + 8 * n) 0x38) with (8 * n)
        by (index_cases Hn; reflexivity).
      reflexivity. }
  split.
  - rewrite execute_pc, execute_sp, execute_regs, execute_flags,
      execute_mem_word, Hcall.
    match goal with |- context [run (push ?v) ?t] =>
      destruct (push_spec v t) as (Hsp & Hw & _ & _ & Hr & Hf);
        [apply Z.mod_pos_bound; lia|] end.
    cbv zeta in Hsp, Hw, Hr, Hf.
    split; [reflexivity|]. split; [exact Hsp|]. split; [exact Hw|].
    split; [exact Hr | exact Hf].
  - rewrite execute_pc, execute_sp, execute_regs, execute_flags,
      execute_mem_word, Hrst.
    match goal with |- context [run (push ?v) ?t] =>
      destruct (push_spec v t) as (Hsp & Hw & _ & _ & Hr & Hf);
        [exact Hpc|] end.
    cbv zeta in Hsp, Hw, Hr, Hf.
    split; [reflexivity|]. split; [exact Hsp|]. split; [exact Hw|].
    split; [exact Hr | exact Hf].
Qed.

(** X6. CALL (0xCD and its aliases 0xDD, 0xED, 0xFD) reads its target at
    [pc], pushes the address behind the operand, ([pc] + 2) mod 2^16, and
    jumps: SP goes down by two modulo 2^16, the word at the new top of the
    stack is the return address, and the registers and flags are as
    before.  RST (0xC7 + 8 n) does the same with target 8 n and the return
    address [pc]. *)
Theorem call_pushes_return_address (s : state) (op n : Z) :
  wf_state s = true ->
  op = 0xCD \/ op = 0xDD \/ op = 0xED \/ op = 0xFD ->
  0 <= n < 8 ->
  let s1 := run (execute op) s in
  let s2 := run (execute (0xC7 + 8 * n)) s in
  (pc s1 = mem_word s (pc s) /\
   sp s1 = (sp s - 2) mod 65536 /\
   mem_word s1 (sp s1) = (pc s + 2) mod 65536 /\
   regs s1 = regs s /\ flags s1 = flags s) /\
  (pc s2 = 8 * n /\
   sp s2 = (sp s - 2) mod 65536 /\
   mem_word s2 (sp s2) = pc s /\
   regs s2 = regs s /\ flags s2 = flags s).
Proof. exact (call_rst_effect s op n). Qed.

Lemma call_pushes_return_address_witness :
  let s := with_sp 0x0001 (with_pc 0x0100
             (new (<[0x100 := 0x34]> (<[0x101 := 0x12]> ∅)) IO_new)) in
  pc (run (execute 0xCD) s) = 0x1234 /\ sp (run (execute 0xCD) s) = 0xFFFF.
Proof.
  destruct (call_pushes_return_address
    (with_sp 0x0001 (with_pc 0x0100
       (new (<[0x100 := 0x34]> (<[0x101 := 0x12]> ∅)) IO_new))) 0xCD 0
    eq_refl (or_introl eq_refl) ltac:(lia)) as ((H1 & H2 & _) & _).
  split; [etransitivity; [exact H1 | reflexivity]
         | etransitivity; [exact H2 | reflexivity]].
Defined.

Lemma ret_handler (op : Z) (s : state) :
  op = 0xC9 \/ op = 0xD9 ->
  run_handler op s =
  with_pc (mem_word s (sp s))
    (with_sp ((sp s + 2) mod 65536)
       (with_cpu_cycles 10 (with_vcycles T433 (with_last_opcode op s)))).
Proof.
  intros Hop.
  transitivity (run (h_ret op) (with_last_opcode op s)).
  - unfold run_handler.
    destruct Hop as [->| ->]; cbv beta iota delta [handler]; reflexivity.
  - unfold h_ret. rewrite run_bind, cycles_run, ret_run. reflexivity.
Qed.





(** X8. CALL followed by RET comes back: from a state of the data model,
    after CALL and then RET the program counter is behind the operand of
    the CALL, at ([pc] + 2) mod 2^16, and SP, the registers and the flags
    are what they were before the CALL. *)
Theorem call_ret_returns (s : state) :
  wf_state s = true ->
  let s2 := run (execute 0xC9) (run (execute 0xCD) s) in
  pc s2 = (pc s + 2) mod 65536 /\ sp s2 = sp s /\
  regs s2 = regs s /\ flags s2 = flags s.
Proof.
  intros Hwf. cbv zeta.
  assert (H0 : 0 <= 0 < 8) by lia.
  pose proof (call_rst_effect s 0xCD 0 Hwf (or_introl eq_refl) H0) as H.
  cbv zeta in H. destruct H as [H _].
  destruct H as (_ & Hsp & Hw & Hr & Hf).
  set (s1 := run (execute 0xCD) s) in *. clearbody s1.
  rewrite execute_pc, execute_sp, execute_regs, execute_flags.
  rewrite (ret_handler 0xC9 s1 (or_introl eq_refl)).
  pose proof (wf_state_sp s Hwf) as Hs.
  split; [revert Hw; generalize (mem_word s1 (sp s1)); intros w Hw; exact Hw|].
  split; [|split; [rewrite <- Hr; reflexivity | rewrite <- Hf; reflexivity]].
  change ((sp s1 + 2) mod 65536 = sp s).
  rewrite Hsp, Z.add_mod_idemp_l by lia.
  replace (sp s - 2 + 2) with (sp s) by lia. apply Z.mod_small, Hs.
Qed.

Lemma call_ret_returns_witness :
  let s := with_pc 0x0100 (new (<[0x100 := 0x34]> ∅) IO_new) in
  pc (run (execute 0xC9) (run (execute 0xCD) s)) = 0x0102.
Proof.
  destruct (call_ret_returns
    (with_pc 0x0100 (new (<[0x100 := 0x34]> ∅) IO_new)) eq_refl) as (H & _).
  etransitivity; [exact H | reflexivity].
Defined.

(** ** The stack and the register pairs *)

Lemma rp_result (r : Z) (s : state) :
  r <> 6 ->
  result (rp r) s =
  Z.lor (Z.shiftl (default 0 (regs s !! r)) 8) (default 0 (regs s !! (r + 1))).
Proof.
  intros Hr. unfold rp. destruct (Z.eqb_spec r 6); [contradiction|]. reflexivity.
Qed.

Lemma regs_with_regs (v : gmap Z Z) (s : state) : regs (with_regs v s) = v.
Proof. reflexivity. Qed.

Lemma rp_run (r : Z) (s : state) : run (rp r) s = s.
Proof. unfold rp. destruct (negb (r =? 6)); reflexivity. Qed.

Lemma rp_range (r : Z) (s : state) :
  wf_state s = true -> r = 0 \/ r = 2 \/ r = 4 -> 0 <= result (rp r) s < 65536.
Proof.
  intros Hwf Hr. rewrite rp_result by lia.
  destruct (wf_state_regs s r Hwf ltac:(lia)) as (hi & -> & Hhi).
  destruct (wf_state_regs s (r + 1) Hwf ltac:(lia)) as (lo & -> & Hlo).
  apply bytes_word; assumption.
Qed.

Lemma set_rp_run (r w16 : Z) (s : state) :
  r <> 6 -> r + 1 <> 6 ->
  run (set_rp r w16) s =
  with_regs (<[r + 1 := Z.land (Z.land w16 0xff) 0xff]>
               (<[r := Z.land (Z.shiftr w16 8) 0xff]> (regs s))) s.
Proof.
  intros Hr Hr1. unfold set_rp, set_reg.
  destruct (Z.eqb_spec r 6); [contradiction|].
  destruct (Z.eqb_spec (r + 1) 6); [contradiction|]. reflexivity.
Qed.

(** A pair that is written and read back holds the word, when it is one. *)
Lemma rp_set_rp (r w16 : Z) (s : state) :
  r <> 6 -> r + 1 <> 6 -> 0 <= w16 < 65536 ->
  result (rp r) (run (set_rp r w16) s) = w16.
Proof.
  intros Hr Hr1 Hw.
  rewrite rp_result, set_rp_run by assumption. simpl regs.
  rewrite lookup_insert_ne, !lookup_insert_eq by lia. simpl.
  rewrite !land_ff, Z.mod_mod, Z.shiftr_div_pow2 by lia.
  change (2 ^ 8) with 256.
  rewrite (proj2 (bytes_join (w16 mod 256) ((w16 / 256) mod 256)
                    ltac:(apply Z.mod_pos_bound; lia)
                    ltac:(apply Z.mod_pos_bound; lia))).
  rewrite split_word. apply Z.mod_small, Hw.
Qed.

(** Writing a pair's own word back leaves the registers as they are. *)
Lemma set_rp_same (r : Z) (s : state) :
  wf_state s = true -> r = 0 \/ r = 2 \/ r = 4 ->
  regs (run (set_rp r (result (rp r) s)) s) = regs s.
Proof.
  intros Hwf Hr.
  rewrite set_rp_run, rp_result by lia. simpl regs.
  destruct (wf_state_regs s r Hwf ltac:(lia)) as (hi & Ehi & Hhi).
  destruct (wf_state_regs s (r + 1) Hwf ltac:(lia)) as (lo & Elo & Hlo).
  rewrite Ehi, Elo. simpl.
  destruct (psw_word hi lo Hhi Hlo) as (_ & Whi & Wlo). cbv zeta in Whi, Wlo.
  rewrite Whi, Wlo, land_ff, (Z.mod_small lo) by lia.
  rewrite (insert_id (regs s) r hi Ehi). apply insert_id, Elo.
Qed.

Lemma push_rp_handler (r : Z) (s : state) :
  r = 0 \/ r = 2 \/ r = 4 ->
  run_handler (0xC5 + 8 * r) s =
  run (push (result (rp r) s))
      (with_cpu_cycles 11 (with_vcycles T533 (with_last_opcode (0xC5 + 8 * r) s))).
Proof.
  intros Hr.
  transitivity (run (h_push (0xC5 + 8 * r)) (with_last_opcode (0xC5 + 8 * r) s)).
  - unfold run_handler.
    destruct Hr as [->|[->| ->]]; cbv beta iota delta [handler]; reflexivity.
  - unfold h_push. cbv zeta.
    replace (Z.shiftr (Z.land (0xC5 + 8 * r) 0x30) 3) with r
      by (destruct Hr as [->|[->| ->]]; reflexivity).
    destruct (Z.eqb_spec r 6); [lia|]. simpl negb. cbv iota.
    rewrite !run_bind, cycles_run, rp_run, !rp_result by lia. reflexivity.
Qed.

Lemma pop_rp_handler (r : Z) (s : state) :
  r = 0 \/ r = 2 \/ r = 4 ->
  run_handler (0xC1 + 8 * r) s =
  run (set_rp r (mem_word s (sp s)))
      (with_sp ((sp s + 2) mod 65536)
         (with_cpu_cycles 10 (with_vcycles T433
            (with_last_opcode (0xC1 + 8 * r) s)))).
Proof.
  intros Hr.
  transitivity (run (h_pop (0xC1 + 8 * r)) (with_last_opcode (0xC1 + 8 * r) s)).
  - unfold run_handler.
    destruct Hr as [->|[->| ->]]; cbv beta iota delta [handler]; reflexivity.
  - unfold h_pop. cbv zeta.
    replace (Z.shiftr (Z.land (0xC1 + 8 * r) 0x30) 3) with r
      by (destruct Hr as [->|[->| ->]]; reflexivity).
    destruct (Z.eqb_spec r 6); [lia|]. simpl negb. cbv iota.
    rewrite !run_bind, cycles_run, pop_run, pop_result. reflexivity.
Qed.

(** X9. PUSH rp (0xC5 + 8 r) and POP rp (0xC1 + 8 r) for the pairs BC, DE
    and HL (r = 0, 2, 4), in a state of the data model: PUSH moves SP down
    by two modulo 2^16 and leaves the pair's word at the new top of the
    stack; POP loads the pair with the word at SP and moves SP up by two;
    and PUSH followed by POP leaves the registers, SP and the flags as they
    were. *)
Theorem push_pop_pair (s : state) (r : Z) :
  wf_state s = true ->
  r = 0 \/ r = 2 \/ r = 4 ->
  let s1 := run (execute (0xC5 + 8 * r)) s in
  let s2 := run (execute (0xC1 + 8 * r)) s1 in
  let s3 := run (execute (0xC1 + 8 * r)) s in
  (sp s1 = (sp s - 2) mod 65536 /\ mem_word s1 (sp s1) = result (rp r) s /\
   regs s1 = regs s) /\
  (result (rp r) s3 = mem_word s (sp s) /\ sp s3 = (sp s + 2) mod 65536) /\
  (regs s2 = regs s /\ sp s2 = sp s /\ flags s2 = flags s).
Proof.
  intros Hwf Hr. cbv zeta.
  pose proof (rp_range r s Hwf Hr) as Hw.
  pose proof (wf_state_sp s Hwf) as Hsp.
  assert (Hpush :
    sp (run (execute (0xC5 + 8 * r)) s) = (sp s - 2) mod 65536 /\
    mem_word (run (execute (0xC5 + 8 * r)) s)
             (sp (run (execute (0xC5 + 8 * r)) s)) = result (rp r) s /\
    regs (run (execute (0xC5 + 8 * r)) s) = regs s /\
    flags (run (execute (0xC5 + 8 * r)) s) = flags s).
  { rewrite execute_mem_word, execute_sp, execute_regs, execute_flags.
    rewrite (push_rp_handler r s Hr).
    match goal with |- context [run (push ?v) ?t] =>
      destruct (push_spec v t Hw) as (H1 & H2 & _ & _ & H3 & H4) end.
    cbv zeta in H1, H2, H3, H4.
    split; [exact H1|]. split; [exact H2|]. split; [exact H3 | exact H4]. }
  assert (Hpop : forall t,
    result (rp r) (run (execute (0xC1 + 8 * r)) t) = mem_word t (sp t) /\
    sp (run (execute (0xC1 + 8 * r)) t) = (sp t + 2) mod 65536 /\
    regs (run (execute (0xC1 + 8 * r)) t) =
      regs (run (set_rp r (mem_word t (sp t))) t) /\
    flags (run (execute (0xC1 + 8 * r)) t) = flags t).
  { intros t.
    assert (Hrp : result (rp r) (run (execute (0xC1 + 8 * r)) t) =
                  result (rp r) (run_handler (0xC1 + 8 * r) t)).
    { rewrite !rp_result by lia. now rewrite execute_regs. }
    rewrite Hrp, execute_sp, execute_regs, execute_flags.
    rewrite (pop_rp_handler r t Hr).
    split; [apply rp_set_rp; [lia | lia | apply mem_word_range]|].
    rewrite !set_rp_run by lia. repeat split. }
  destruct Hpush as (P1 & P2 & P3 & P4).
  destruct (Hpop s) as (Q1 & Q2 & _).
  destruct (Hpop (run (execute (0xC5 + 8 * r)) s)) as (_ & R2 & R3 & R4).
  set (s1 := run (execute (0xC5 + 8 * r)) s) in *. clearbody s1.
  split; [split; [exact P1 | split; [exact P2 | exact P3]]|].
  split; [split; [exact Q1 | exact Q2]|].
  split; [|split].
  - pose proof (set_rp_same r s Hwf Hr) as Hsame.
    rewrite set_rp_run, regs_with_regs in Hsame by lia.
    rewrite R3, P2, set_rp_run, regs_with_regs, P3 by lia. exact Hsame.
  - rewrite R2, P1, Z.add_mod_idemp_l by lia.
    replace (sp s - 2 + 2) with (sp s) by lia. apply Z.mod_small, Hsp.
  - rewrite R4. exact P4.
Qed.

Lemma push_pop_pair_witness :
  let s := with_sp 0x0001 (run (set_c 0x34) (run (set_b 0x12) (new ∅ IO_new))) in
  sp (run (execute 0xC5) s) = 0xFFFF /\
  mem_word (run (execute 0xC5) s) 0xFFFF = 0x1234.
Proof.
  pose proof (push_pop_pair
    (with_sp 0x0001 (run (set_c 0x34) (run (set_b 0x12) (new ∅ IO_new)))) 0
    eq_refl (or_introl eq_refl)) as H.
  cbv zeta in H. destruct H as ((H1 & H2 & _) & _).
  split; [etransitivity; [exact H1 | reflexivity]|].
  rewrite H1 in H2. etransitivity; [exact H2 | reflexivity].
Defined.

Lemma xchg_handler (s : state) :
  run_handler 0xEB s =
  let r1 := <[3 := Z.land (default 0 (regs s !! 5)) 0xff]>
              (<[5 := Z.land (default 0 (regs s !! 3)) 0xff]> (regs s)) in
  with_regs
    (<[2 := Z.land (default 0 (r1 !! 4)) 0xff]>
       (<[4 := Z.land (default 0 (r1 !! 2)) 0xff]> r1))
    (with_cpu_cycles 4 (with_vcycles T4 (with_last_opcode 0xEB s))).
Proof. reflexivity. Qed.

(** X10. XCHG (0xEB) swaps DE and HL: in a state of the data model D and H
    and E and L change places and every other slot of [regs] is as before;
    XCHG twice leaves the registers as they were. *)
Theorem xchg_swaps (s : state) :
  wf_state s = true ->
  let s1 := run (execute 0xEB) s in
  let s2 := run (execute 0xEB) s1 in
  (regs s1 !! 2 = regs s !! 4 /\ regs s1 !! 3 = regs s !! 5 /\
   regs s1 !! 4 = regs s !! 2 /\ regs s1 !! 5 = regs s !! 3 /\
   (forall i, i < 2 \/ 5 < i -> regs s1 !! i = regs s !! i)) /\
  (result de s1 = result hl s /\ result hl s1 = result de s) /\
  regs s2 = regs s.
Proof.
  intros Hwf. cbv zeta.
  assert (Hone : forall t, wf_state t = true ->
    regs (run (execute 0xEB) t) !! 2 = regs t !! 4 /\
    regs (run (execute 0xEB) t) !! 3 = regs t !! 5 /\
    regs (run (execute 0xEB) t) !! 4 = regs t !! 2 /\
    regs (run (execute 0xEB) t) !! 5 = regs t !! 3 /\
    (forall i, i < 2 \/ 5 < i -> regs (run (execute 0xEB) t) !! i = regs t !! i)).
  { intros t Ht. rewrite execute_regs, xchg_handler. cbv zeta.
    rewrite regs_with_regs.
    rewrite !(lookup_insert_ne _ 3 4), !(lookup_insert_ne _ 5 4),
            !(lookup_insert_ne _ 3 2), !(lookup_insert_ne _ 5 2) by lia.
    destruct (wf_state_regs t 2 Ht ltac:(lia)) as (d0 & Ed & Hd).
    destruct (wf_state_regs t 3 Ht ltac:(lia)) as (e0 & Ee & He).
    destruct (wf_state_regs t 4 Ht ltac:(lia)) as (h0 & Eh & Hh).
    destruct (wf_state_regs t 5 Ht ltac:(lia)) as (l0 & El & Hl).
    rewrite Ed, Ee, Eh, El. simpl default.
    rewrite !land_ff, !Z.mod_small by lia.
    repeat split.
    - now rewrite lookup_insert_eq.
    - rewrite !lookup_insert_ne by lia. now rewrite lookup_insert_eq.
    - rewrite lookup_insert_ne by lia. now rewrite lookup_insert_eq.
    - rewrite !lookup_insert_ne by lia. now rewrite lookup_insert_eq.
    - intros i Hi. rewrite !lookup_insert_ne by lia. reflexivity. }
  pose proof (Hone s Hwf) as (H2 & H3 & H4 & H5 & Hi).
  pose proof (Hone (run (execute 0xEB) s)
                (execute_keeps_wf 0xEB s ltac:(lia) Hwf))
    as (K2 & K3 & K4 & K5 & Ki).
  set (s1 := run (execute 0xEB) s) in *. clearbody s1.
  split; [tauto|]. split.
  - unfold de, hl. rewrite !rp_result by lia.
    change (2 + 1) with 3. change (4 + 1) with 5.
    rewrite H2, H3, H4, H5. split; reflexivity.
  - apply map_eq. intros i.
    destruct (Z.eq_dec i 2) as [->|]; [now rewrite K2, H4|].
    destruct (Z.eq_dec i 3) as [->|]; [now rewrite K3, H5|].
    destruct (Z.eq_dec i 4) as [->|]; [now rewrite K4, H2|].
    destruct (Z.eq_dec i 5) as [->|]; [now rewrite K5, H3|].
    rewrite Ki, Hi by lia. reflexivity.
Qed.

Lemma xchg_swaps_witness :
  let s := run (set_e 0x34) (run (set_d 0x12) (new ∅ IO_new)) in
  result hl (run (execute 0xEB) s) = 0x1234.
Proof.
  pose proof (xchg_swaps
    (run (set_e 0x34) (run (set_d 0x12) (new ∅ IO_new))) eq_refl) as H.
  cbv zeta in H. destruct H as (_ & (_ & H) & _).
  etransitivity; [exact H | reflexivity].
Defined.

(** ** The memory device *)

Lemma memory_read_after_write (s : state) (addr addr' w8 : Z) (q q' : bool) :
  result (memory_read_byte addr' q') (run (memory_write_byte addr w8 q) s) =
    (if addr' mod 65536 =? addr mod 65536 then w8 mod 256
     else result (memory_read_byte addr' q') s).
Proof.
  unfold result, run, memory_read_byte, memory_write_byte, modify,
    Memory.read, Memory.write; simpl.
  rewrite !land_ffff, !Z.mod_mod by lia.
  destruct (Z.eqb_spec (addr' mod 65536) (addr mod 65536)) as [->|Hne].
  - rewrite lookup_insert_eq. simpl. rewrite !land_ff, Z.mod_mod by lia.
    reflexivity.
  - rewrite lookup_insert_ne by congruence. reflexivity.
Qed.

Lemma mem_byte_write (s : state) (addr w8 x : Z) (q : bool) :
  mem_byte (run (memory_write_byte addr w8 q) s) x =
    (if x mod 65536 =? addr mod 65536 then w8 mod 256 else mem_byte s x).
Proof. apply memory_read_after_write. Qed.

(** X11. A byte written through [memory_write_byte] is read back through
    [memory_read_byte] truncated to eight bits, at every address that is
    the same modulo 2^16; at the other addresses the memory reads as
    before, and so it does after writing back what was read. *)
Theorem memory_write_then_read (s : state) (addr addr' w8 : Z) (q q' : bool) :
  result (memory_read_byte addr' q') (run (memory_write_byte addr w8 q) s) =
    (if addr' mod 65536 =? addr mod 65536 then w8 mod 256
     else result (memory_read_byte addr' q') s) /\
  result (memory_read_byte addr' q')
    (run (memory_write_byte addr (result (memory_read_byte addr q) s) q) s) =
  result (memory_read_byte addr' q') s.
Proof.
  split; [apply memory_read_after_write|].
  rewrite memory_read_after_write.
  destruct (Z.eqb_spec (addr' mod 65536) (addr mod 65536)) as [E|]; [|reflexivity].
  rewrite Z.mod_small by apply memory_read_byte_range.
  unfold result, memory_read_byte; simpl.
  rewrite !land_ffff, E. reflexivity.
Qed.

(** ** The flag byte *)

(** X12. Loading a byte into the flags with [retrieve_flags] and storing
    the flags again with [store_flags] gives the byte with bit 1 set and
    bits 3 and 5 cleared, (f & 0xD5) | 0x02: the five flag bits survive, and
    a byte that [store_flags] produced comes back unchanged. *)
Theorem store_after_retrieve (s : state) (f : Z) :
  0 <= f < 256 ->
  result store_flags (run (retrieve_flags f) s) = Z.lor (Z.land f 0xD5) 0x02 /\
  result store_flags (run (retrieve_flags (result store_flags s)) s) =
    result store_flags s.
Proof.
  intros Hf.
  assert (Hall : forall g, 0 <= g < 256 ->
            result store_flags (run (retrieve_flags g) s) =
            Z.lor (Z.land g 0xD5) 0x02).
  { intros g Hg. rewrite store_flags_result, retrieve_flags_run. simpl.
    assert (H : forallb flag_byte_roundtrip_ok (seqZ 0 256) = true)
      by (vm_compute; reflexivity).
    pose proof (forallb_bytes _ H g Hg) as Hok.
    unfold flag_byte_roundtrip_ok in Hok. apply Z.eqb_eq in Hok.
    rewrite <- Hok.
    destruct (Z.land g F_NEG =? 0), (Z.land g F_ZERO =? 0),
             (Z.land g F_HCARRY =? 0), (Z.land g F_PARITY =? 0),
             (Z.land g F_CARRY =? 0); reflexivity. }
  split; [apply Hall, Hf|].
  rewrite Hall.
  - rewrite store_flags_result.
    destruct (truthy (sf s)), (truthy (zf s)), (truthy (hf s)),
             (truthy (pf s)), (truthy (cf s)); reflexivity.
  - rewrite store_flags_result. apply flag_byte_bits.
Qed.

Lemma store_after_retrieve_witness :
  result store_flags (run (retrieve_flags 0xFF) (new ∅ IO_new)) = 0xD7.
Proof.
  destruct (store_after_retrieve (new ∅ IO_new) 0xFF ltac:(lia)) as [H _].
  etransitivity; [exact H | reflexivity].
Defined.

(** ** Loads and stores *)

Lemma execute_mem_byte (opcode : Z) (s : state) (addr : Z) :
  mem_byte (run (execute opcode) s) addr = mem_byte (run_handler opcode s) addr.
Proof. apply mem_byte_memory, execute_memory. Qed.

Lemma next_addr_differs (addr : Z) :
  0 <= addr < 65536 -> (addr + 1) mod 65536 <> addr.
Proof.
  intros H. destruct (Z.eq_dec addr 65535) as [->|]; [discriminate|].
  rewrite Z.mod_small; lia.
Qed.

Lemma memory_write_word_run (addr w16 : Z) (q : bool) (s : state) :
  run (memory_write_word addr w16 q) s =
  run (memory_write_byte (addr + 1) (Z.shiftr w16 8) q)
      (run (memory_write_byte addr (Z.land w16 0xff) q) s).
Proof. unfold memory_write_word. rewrite run_bind. reflexivity. Qed.

Lemma memory_read_word_run (addr : Z) (q : bool) (s : state) :
  run (memory_read_word addr q) s = s.
Proof. reflexivity. Qed.

Lemma shiftr_8_byte (w16 : Z) :
  0 <= w16 < 65536 -> Z.shiftr w16 8 mod 256 = w16 / 256.
Proof.
  intros H. rewrite (Z.shiftr_div_pow2 w16 8) by lia. change (2 ^ 8) with 256.
  apply Z.mod_small. split; [apply Z.div_pos; lia|].
  apply Z.div_lt_upper_bound; lia.
Qed.

(** A word written at a 16-bit address: its low byte is there, its high
    byte at the next address modulo 2^16, and nothing else changed. *)
Lemma memory_write_word_spec (addr w16 : Z) (q : bool) (s : state) :
  0 <= addr < 65536 -> 0 <= w16 < 65536 ->
  let s' := run (memory_write_word addr w16 q) s in
  mem_byte s' addr = w16 mod 256 /\
  mem_byte s' ((addr + 1) mod 65536) = w16 / 256 /\
  mem_word s' addr = w16 /\
  (forall x, x mod 65536 <> addr -> x mod 65536 <> (addr + 1) mod 65536 ->
     mem_byte s' x = mem_byte s x).
Proof.
  intros Ha Hw. cbv zeta. rewrite memory_write_word_run.
  pose proof (next_addr_differs addr Ha) as Hd.
  assert (Hlo : mem_byte
            (run (memory_write_byte (addr + 1) (Z.shiftr w16 8) q)
               (run (memory_write_byte addr (Z.land w16 0xff) q) s)) addr =
          w16 mod 256).
  { rewrite !mem_byte_write. rewrite (Z.mod_small addr) by lia.
    destruct (Z.eqb_spec addr ((addr + 1) mod 65536)); [congruence|].
    rewrite Z.eqb_refl, land_ff, Z.mod_mod by lia. reflexivity. }
  assert (Hhi : mem_byte
            (run (memory_write_byte (addr + 1) (Z.shiftr w16 8) q)
               (run (memory_write_byte addr (Z.land w16 0xff) q) s))
            ((addr + 1) mod 65536) = w16 / 256).
  { rewrite mem_byte_write, Z.mod_mod, Z.eqb_refl by lia.
    apply shiftr_8_byte, Hw. }
  split; [exact Hlo|]. split; [exact Hhi|]. split.
  - unfold mem_word. rewrite Hlo, Hhi.
    pose proof (Z.div_mod w16 256 ltac:(lia)). lia.
  - intros x H1 H2. rewrite !mem_byte_write.
    rewrite (Z.mod_small addr) by lia.
    destruct (Z.eqb_spec (x mod 65536) ((addr + 1) mod 65536)); [congruence|].
    destruct (Z.eqb_spec (x mod 65536) addr); [congruence|]. reflexivity.
Qed.

Lemma rp_word (r : Z) (s : state) :
  r <> 6 ->
  0 <= default 0 (regs s !! r) < 256 ->
  0 <= default 0 (regs s !! (r + 1)) < 256 ->
  result (rp r) s =
    default 0 (regs s !! (r + 1)) + 256 * default 0 (regs s !! r).
Proof.
  intros Hr Hh Hl. rewrite rp_result by exact Hr.
  apply (proj2 (bytes_join _ _ Hl Hh)).
Qed.

Lemma regs_byte (s : state) (r : Z) :
  wf_state s = true -> 0 <= r < 8 -> 0 <= default 0 (regs s !! r) < 256.
Proof.
  intros Hwf Hr. destruct (wf_state_regs s r Hwf Hr) as (v & -> & Hv).
  exact Hv.
Qed.

Lemma sta_handler (s : state) :
  run_handler 0x32 s =
  run (memory_write_byte (mem_word s (pc s)) (result a s) false)
      (with_pc ((pc s + 2) mod 65536)
         (with_cpu_cycles 13 (with_vcycles T4333 (with_last_opcode 0x32 s)))).
Proof.
  transitivity (run (h_sta 0x32) (with_last_opcode 0x32 s)); [reflexivity|].
  unfold h_sta. rewrite !run_bind, cycles_run.
  rewrite next_pc_word_run, next_pc_word_result. reflexivity.
Qed.

Lemma lda_handler (s : state) :
  run_handler 0x3A s =
  with_regs (<[7 := Z.land (mem_byte s (mem_word s (pc s))) 0xff]> (regs s))
    (with_pc ((pc s + 2) mod 65536)
       (with_cpu_cycles 13 (with_vcycles T4333 (with_last_opcode 0x3A s)))).
Proof.
  transitivity (run (h_lda 0x3A) (with_last_opcode 0x3A s)); [reflexivity|].
  unfold h_lda. rewrite !run_bind, cycles_run.
  rewrite next_pc_word_run, next_pc_word_result. reflexivity.
Qed.

Lemma shld_handler (s : state) :
  run_handler 0x22 s =
  run (memory_write_byte (mem_word s (pc s) + 1) (result h s) false)
    (run (memory_write_byte (mem_word s (pc s)) (result l s) false)
      (with_pc ((pc s + 2) mod 65536)
         (with_cpu_cycles 16 (with_vcycles T43333 (with_last_opcode 0x22 s))))).
Proof.
  transitivity (run (h_shld 0x22) (with_last_opcode 0x22 s)); [reflexivity|].
  unfold h_shld. rewrite !run_bind, cycles_run.
  rewrite next_pc_word_run, next_pc_word_result. reflexivity.
Qed.

Lemma lhld_handler (s : state) :
  run_handler 0x2A s =
  with_regs (<[4 := mem_byte s (mem_word s (pc s) + 1)]>
               (<[5 := mem_byte s (mem_word s (pc s))]> (regs s)))
    (with_pc ((pc s + 2) mod 65536)
       (with_cpu_cycles 16 (with_vcycles T43333 (with_last_opcode 0x2A s)))).
Proof.
  transitivity (run (h_lhld 0x2A) (with_last_opcode 0x2A s)); [reflexivity|].
  unfold h_lhld. rewrite !run_bind, cycles_run.
  rewrite next_pc_word_run, next_pc_word_result. reflexivity.
Qed.

(** X13. Direct addressing, in a state of the data model, with [addr] the
    word at [pc]: STA (0x32) stores A at [addr] and changes no other byte
    of the memory; LDA (0x3A) loads A with the byte at [addr]; SHLD (0x22)
    stores L at [addr] and H at the next address modulo 2^16, so that the
    word at [addr] is HL; LHLD (0x2A) loads HL with the word at [addr].
    All four step [pc] over the operand and leave the flags and SP alone;
    the stores leave the registers, the loads the memory as they were. *)
Theorem direct_addressing (s : state) :
  wf_state s = true ->
  let addr := mem_word s (pc s) in
  let sta := run (execute 0x32) s in
  let lda := run (execute 0x3A) s in
  let shld := run (execute 0x22) s in
  let lhld := run (execute 0x2A) s in
  (mem_byte sta addr = result a s /\
   (forall x, x mod 65536 <> addr -> mem_byte sta x = mem_byte s x) /\
   regs sta = regs s) /\
  (result a lda = mem_byte s addr /\
   (forall r, r <> 7 -> regs lda !! r = regs s !! r) /\
   memory lda = memory s) /\
  (mem_byte shld addr = result l s /\
   mem_byte shld ((addr + 1) mod 65536) = result h s /\
   mem_word shld addr = result hl s /\
   (forall x, x mod 65536 <> addr -> x mod 65536 <> (addr + 1) mod 65536 ->
      mem_byte shld x = mem_byte s x) /\
   regs shld = regs s) /\
  (result l lhld = mem_byte s addr /\
   result h lhld = mem_byte s ((addr + 1) mod 65536) /\
   result hl lhld = mem_word s addr /\
   (forall r, r <> 4 -> r <> 5 -> regs lhld !! r = regs s !! r) /\
   memory lhld = memory s) /\
  (forall op, op = 0x32 \/ op = 0x3A \/ op = 0x22 \/ op = 0x2A ->
     let s' := run (execute op) s in
     pc s' = (pc s + 2) mod 65536 /\ sp s' = sp s /\ flags s' = flags s).
Proof.
  intros Hwf. cbv zeta.
  pose proof (mem_word_range s (pc s)) as Haddr.
  set (addr := mem_word s (pc s)) in *.
  pose proof (wf_state_a s Hwf) as Ha.
  pose proof (reg_range 4 s Hwf ltac:(lia)) as Hh.
  pose proof (reg_range 5 s Hwf ltac:(lia)) as Hl.
  pose proof (next_addr_differs addr Haddr) as Hd.
  split; [|split; [|split; [|split]]].
  - rewrite execute_regs, execute_mem_byte, sta_handler. fold addr.
    split; [|split; [|reflexivity]].
    + rewrite mem_byte_write, Z.eqb_refl. apply Z.mod_small, Ha.
    + intros x Hx. rewrite execute_mem_byte, sta_handler. fold addr.
      rewrite mem_byte_write, (Z.mod_small addr) by lia.
      destruct (Z.eqb_spec (x mod 65536) addr); [congruence|]. reflexivity.
  - rewrite execute_a, execute_regs, execute_memory, lda_handler. fold addr.
    split; [|split; [|reflexivity]].
    + unfold result, a, reg, regs_get, get; simpl.
      rewrite lookup_insert_eq. simpl.
      rewrite land_ff. apply Z.mod_small, mem_byte_range.
    + intros r Hr. rewrite regs_with_regs, lookup_insert_ne by congruence.
      reflexivity.
  - rewrite execute_regs, !execute_mem_byte, execute_mem_word, shld_handler.
    fold addr.
    assert (Hlo : forall t,
      mem_byte (run (memory_write_byte (addr + 1) (result h s) false)
                  (run (memory_write_byte addr (result l s) false) t)) addr =
      result l s).
    { intros t. rewrite !mem_byte_write, (Z.mod_small addr) by lia.
      destruct (Z.eqb_spec addr ((addr + 1) mod 65536)); [congruence|].
      rewrite Z.eqb_refl. apply Z.mod_small, Hl. }
    assert (Hhi : forall t,
      mem_byte (run (memory_write_byte (addr + 1) (result h s) false) t)
               ((addr + 1) mod 65536) = result h s).
    { intros t. rewrite mem_byte_write, Z.mod_mod, Z.eqb_refl by lia.
      apply Z.mod_small, Hh. }
    split; [apply Hlo|]. split; [apply Hhi|]. split; [|split; [|reflexivity]].
    + unfold mem_word. rewrite Hlo, Hhi.
      unfold hl. rewrite rp_word; [reflexivity|lia|exact Hh|exact Hl].
    + intros x H1 H2. rewrite execute_mem_byte, shld_handler. fold addr.
      rewrite !mem_byte_write, (Z.mod_small addr) by lia.
      destruct (Z.eqb_spec (x mod 65536) ((addr + 1) mod 65536)); [congruence|].
      destruct (Z.eqb_spec (x mod 65536) addr); [congruence|]. reflexivity.
  - assert (Hregs : regs (run (execute 0x2A) s) =
                    <[4 := mem_byte s ((addr + 1) mod 65536)]>
                      (<[5 := mem_byte s addr]> (regs s))).
    { rewrite execute_regs, lhld_handler, regs_with_regs. fold addr.
      rewrite mem_byte_mod. reflexivity. }
    assert (E5 : regs (run (execute 0x2A) s) !! 5 = Some (mem_byte s addr)).
    { rewrite Hregs, lookup_insert_ne, lookup_insert_eq by lia. reflexivity. }
    assert (E4 : regs (run (execute 0x2A) s) !! 4 =
                 Some (mem_byte s ((addr + 1) mod 65536))).
    { rewrite Hregs, lookup_insert_eq. reflexivity. }
    split; [|split; [|split; [|split]]].
    + unfold result, l, reg, regs_get, get; simpl. rewrite E5. reflexivity.
    + unfold result, h, reg, regs_get, get; simpl. rewrite E4. reflexivity.
    + unfold hl. rewrite rp_word; change (4 + 1) with 5; rewrite ?E4, ?E5;
        simpl default; first [reflexivity | lia | apply mem_byte_range].
    + intros r H4 H5. rewrite Hregs, !lookup_insert_ne by congruence.
      reflexivity.
    + rewrite execute_memory, lhld_handler. reflexivity.
  - intros op Hop. rewrite execute_pc, execute_sp, execute_flags.
    destruct Hop as [->|[->|[->| ->]]].
    + rewrite sta_handler. repeat split.
    + rewrite lda_handler. repeat split.
    + rewrite shld_handler. repeat split.
    + rewrite lhld_handler. repeat split.
Qed.

Lemma direct_addressing_witness :
  let s := new (<[0 := 0x34]> (<[1 := 0x12]> (<[0x1234 := 0x56]> ∅))) IO_new in
  result a (run (execute 0x3A) s) = 0x56.
Proof.
  pose proof (direct_addressing
    (new (<[0 := 0x34]> (<[1 := 0x12]> (<[0x1234 := 0x56]> ∅))) IO_new)
    eq_refl) as H.
  cbv zeta in H. destruct H as (_ & (H & _) & _).
  etransitivity; [exact H | reflexivity].
Defined.

Lemma byte_pair (lo hi : Z) :
  0 <= lo < 256 -> 0 <= hi < 256 ->
  (lo + 256 * hi) mod 256 = lo /\ (lo + 256 * hi) / 256 = hi.
Proof.
  intros Hlo Hhi. split; symmetry.
  - apply (Z.mod_unique _ 256 hi lo); lia.
  - apply (Z.div_unique _ 256 hi lo); lia.
Qed.

Lemma xthl_handler (s : state) :
  run_handler 0xE3 s =
  let w16 := mem_word s (sp s) in
  with_regs (<[4 := Z.land (Z.shiftr w16 8) 0xff]>
               (<[5 := Z.land (Z.land w16 0xff) 0xff]> (regs s)))
    (run (memory_write_word (sp s) (result hl s) true)
       (with_cpu_cycles 18 (with_vcycles T43335 (with_last_opcode 0xE3 s)))).
Proof.
  transitivity (run (h_xthl 0xE3) (with_last_opcode 0xE3 s)); [reflexivity|].
  unfold h_xthl. rewrite !run_bind, cycles_run, run_get, result_get.
  rewrite memory_read_word_run, memory_read_word_mem_word.
  unfold hl. rewrite rp_run, !rp_result by lia. reflexivity.
Qed.

Lemma xthl_effect (s : state) :
  wf_state s = true ->
  let s1 := run (execute 0xE3) s in
  regs s1 = <[4 := mem_byte s ((sp s + 1) mod 65536)]>
              (<[5 := mem_byte s (sp s)]> (regs s)) /\
  mem_byte s1 (sp s) = result l s /\
  mem_byte s1 ((sp s + 1) mod 65536) = result h s /\
  (forall x, x mod 65536 <> sp s -> x mod 65536 <> (sp s + 1) mod 65536 ->
     mem_byte s1 x = mem_byte s x) /\
  sp s1 = sp s /\ pc s1 = pc s /\ flags s1 = flags s.
Proof.
  intros Hwf. cbv zeta.
  pose proof (wf_state_sp s Hwf) as Hsp.
  pose proof (regs_byte s 4 Hwf ltac:(lia)) as Hh.
  pose proof (regs_byte s 5 Hwf ltac:(lia)) as Hl.
  assert (Hhl : result hl s =
                default 0 (regs s !! 5) + 256 * default 0 (regs s !! 4)).
  { unfold hl. apply rp_word; [lia | exact Hh | exact Hl]. }
  assert (Hw : 0 <= result hl s < 65536) by (rewrite Hhl; lia).
  rewrite execute_regs, execute_sp, execute_pc, execute_flags,
    !execute_mem_byte.
  rewrite xthl_handler. cbv zeta.
  match goal with |- context [run (memory_write_word _ _ _) ?t] =>
    destruct (memory_write_word_spec (sp s) (result hl s) true t Hsp Hw)
      as (Wlo & Whi & _ & Wother) end.
  cbv zeta in Wlo, Whi, Wother.
  split; [|split; [|split; [|split; [|repeat split]]]].
  - rewrite regs_with_regs. unfold mem_word.
    pose proof (mem_byte_range s (sp s)) as B0.
    pose proof (mem_byte_range s ((sp s + 1) mod 65536)) as B1.
    set (lo := mem_byte s (sp s)) in *.
    set (hi := mem_byte s ((sp s + 1) mod 65536)) in *.
    rewrite !land_ff, Z.mod_mod by lia.
    rewrite shiftr_8_byte by lia.
    destruct (byte_pair lo hi B0 B1) as (-> & ->). reflexivity.
  - etransitivity; [exact Wlo|].
    rewrite Hhl. apply (byte_pair _ _ Hl Hh).
  - etransitivity; [exact Whi|].
    rewrite Hhl. apply (byte_pair _ _ Hl Hh).
  - intros x H1 H2. rewrite execute_mem_byte, xthl_handler. cbv zeta.
    apply Wother; assumption.
Qed.

(** X14. XTHL (0xE3), in a state of the data model, exchanges HL with the
    word at the top of the stack: L and H take the bytes at SP and SP + 1
    (modulo 2^16), which take L and H; no other register or byte of the
    memory changes, nor SP, [pc] or the flags.  XTHL twice leaves the
    registers and the memory as they were. *)
Theorem xthl_exchanges (s : state) :
  wf_state s = true ->
  let s1 := run (execute 0xE3) s in
  let s2 := run (execute 0xE3) s1 in
  (result l s1 = mem_byte s (sp s) /\
   result h s1 = mem_byte s ((sp s + 1) mod 65536) /\
   result hl s1 = mem_word s (sp s) /\
   (forall r, r <> 4 -> r <> 5 -> regs s1 !! r = regs s !! r)) /\
  (mem_byte s1 (sp s) = result l s /\
   mem_byte s1 ((sp s + 1) mod 65536) = result h s /\
   mem_word s1 (sp s) = result hl s /\
   (forall x, x mod 65536 <> sp s -> x mod 65536 <> (sp s + 1) mod 65536 ->
      mem_byte s1 x = mem_byte s x)) /\
  (sp s1 = sp s /\ pc s1 = pc s /\ flags s1 = flags s) /\
  (regs s2 = regs s /\ forall x, mem_byte s2 x = mem_byte s x).
Proof.
  intros Hwf. cbv zeta.
  pose proof (xthl_effect s Hwf) as (R1 & L1 & H1 & O1 & S1 & P1 & F1).
  pose proof (xthl_effect _ (execute_keeps_wf 0xE3 s ltac:(lia) Hwf))
    as (R2 & L2 & H2 & O2 & _).
  cbv zeta in R1, L1, H1, O1, S1, P1, F1, R2, L2, H2, O2.
  pose proof (wf_state_sp s Hwf) as Hsp.
  pose proof (regs_byte s 4 Hwf ltac:(lia)) as Hh.
  pose proof (regs_byte s 5 Hwf ltac:(lia)) as Hl.
  destruct (wf_state_regs s 4 Hwf ltac:(lia)) as (h0 & E4 & _).
  destruct (wf_state_regs s 5 Hwf ltac:(lia)) as (l0 & E5 & _).
  set (s1 := run (execute 0xE3) s) in *. clearbody s1.
  set (s2 := run (execute 0xE3) s1) in *. clearbody s2.
  assert (K5 : regs s1 !! 5 = Some (mem_byte s (sp s))).
  { rewrite R1, lookup_insert_ne, lookup_insert_eq by lia. reflexivity. }
  assert (K4 : regs s1 !! 4 = Some (mem_byte s ((sp s + 1) mod 65536))).
  { rewrite R1, lookup_insert_eq. reflexivity. }
  assert (Rl : result l s1 = mem_byte s (sp s)).
  { unfold result, l, reg, regs_get, get; simpl. rewrite K5. reflexivity. }
  assert (Rh : result h s1 = mem_byte s ((sp s + 1) mod 65536)).
  { unfold result, h, reg, regs_get, get; simpl. rewrite K4. reflexivity. }
  split; [|split; [|split]].
  - split; [exact Rl|]. split; [exact Rh|]. split.
    + unfold hl. rewrite rp_word; change (4 + 1) with 5; rewrite ?K4, ?K5;
        simpl default; first [reflexivity | lia | apply mem_byte_range].
    + intros r N4 N5. rewrite R1, !lookup_insert_ne by congruence. reflexivity.
  - split; [exact L1|]. split; [exact H1|]. split; [|exact O1].
    unfold mem_word. rewrite L1, H1. unfold hl.
    rewrite rp_word; [reflexivity | lia | exact Hh | exact Hl].
  - split; [exact S1|]. split; [exact P1 | exact F1].
  - rewrite S1 in *. split.
    + rewrite R2, R1, L1, H1. apply map_eq. intros i.
      destruct (Z.eq_dec i 4) as [->|N4].
      * rewrite lookup_insert_eq, E4.
        unfold result, h, reg, regs_get, get; simpl. rewrite E4. reflexivity.
      * rewrite lookup_insert_ne by congruence.
        destruct (Z.eq_dec i 5) as [->|N5].
        -- rewrite lookup_insert_eq, E5.
           unfold result, l, reg, regs_get, get; simpl. rewrite E5. reflexivity.
        -- rewrite !lookup_insert_ne by congruence. reflexivity.
    + intros x.
      destruct (Z.eq_dec (x mod 65536) (sp s)) as [E|N0].
      * rewrite <- (mem_byte_mod s2 x), <- (mem_byte_mod s x), E, L2. exact Rl.
      * destruct (Z.eq_dec (x mod 65536) ((sp s + 1) mod 65536)) as [E|N1].
        -- rewrite <- (mem_byte_mod s2 x), <- (mem_byte_mod s x), E, H2.
           exact Rh.
        -- rewrite O2, O1 by assumption. reflexivity.
Qed.

Lemma xthl_exchanges_witness :
  let s := new (<[0 := 0x34]> (<[1 := 0x12]> ∅)) IO_new in
  result hl (run (execute 0xE3) s) = 0x1234.
Proof.
  pose proof (xthl_exchanges (new (<[0 := 0x34]> (<[1 := 0x12]> ∅)) IO_new)
                eq_refl) as H.
  cbv zeta in H. destruct H as ((_ & _ & H & _) & _).
  etransitivity; [exact H | reflexivity].
Defined.

(** ** Register pairs: INX, DCX, LXI, SPHL, PCHL *)

Lemma rp_ext (r : Z) (s t : state) :
  regs t = regs s -> sp t = sp s -> result (rp r) t = result (rp r) s.
Proof.
  intros Hr Hs. unfold result, rp, regs_get, get.
  destruct (negb (r =? 6)); simpl; rewrite ?Hr, ?Hs; reflexivity.
Qed.

Lemma execute_rp (opcode r : Z) (s : state) :
  result (rp r) (run (execute opcode) s) = result (rp r) (run_handler opcode s).
Proof. apply rp_ext; [apply execute_regs | apply execute_sp]. Qed.

Lemma rp_range_all (r : Z) (s : state) :
  wf_state s = true -> r = 0 \/ r = 2 \/ r = 4 \/ r = 6 ->
  0 <= result (rp r) s < 65536.
Proof.
  intros Hwf [->|[->|[->| ->]]];
    [apply rp_range; auto | apply rp_range; auto | apply rp_range; auto
    | exact (wf_state_sp s Hwf)].
Qed.

Lemma rp_set_rp_all (r w16 : Z) (s : state) :
  r = 0 \/ r = 2 \/ r = 4 \/ r = 6 -> 0 <= w16 < 65536 ->
  result (rp r) (run (set_rp r w16) s) = w16.
Proof.
  intros [->|[->|[->| ->]]] Hw;
    [apply rp_set_rp; lia | apply rp_set_rp; lia | apply rp_set_rp; lia
    | reflexivity].
Qed.

Lemma inx_handler (r : Z) (s : state) :
  r = 0 \/ r = 2 \/ r = 4 \/ r = 6 ->
  run_handler (0x03 + 8 * r) s =
  run (set_rp r ((result (rp r) s + 1) mod 65536))
      (with_cpu_cycles 5 (with_vcycles T5 (with_last_opcode (0x03 + 8 * r) s))).
Proof.
  intros Hr. rewrite <- land_ffff.
  destruct Hr as [->|[->|[->| ->]]]; reflexivity.
Qed.

Lemma dcx_handler (r : Z) (s : state) :
  r = 0 \/ r = 2 \/ r = 4 \/ r = 6 ->
  run_handler (0x0B + 8 * r) s =
  run (set_rp r ((result (rp r) s - 1) mod 65536))
      (with_cpu_cycles 5 (with_vcycles T5 (with_last_opcode (0x0B + 8 * r) s))).
Proof.
  intros Hr. rewrite <- land_ffff.
  destruct Hr as [->|[->|[->| ->]]]; reflexivity.
Qed.

Lemma set_rp_frame (r w16 : Z) (s : state) :
  r = 0 \/ r = 2 \/ r = 4 \/ r = 6 ->
  let s' := run (set_rp r w16) s in
  flags s' = flags s /\ memory s' = memory s /\ pc s' = pc s /\
  (forall i, i <> r -> i <> r + 1 -> regs s' !! i = regs s !! i) /\
  (r = 6 -> regs s' = regs s) /\
  (r <> 6 -> sp s' = sp s).
Proof.
  intros Hr. cbv zeta.
  destruct (Z.eq_dec r 6) as [->|Hne].
  - split; [reflexivity|]. split; [reflexivity|]. split; [reflexivity|].
    split; [intros; reflexivity|]. split; [intros _; reflexivity|].
    intros H. exfalso. apply H. reflexivity.
  - rewrite set_rp_run by lia.
    split; [reflexivity|]. split; [reflexivity|]. split; [reflexivity|].
    split; [|split; [intros H; congruence | reflexivity]].
    intros i H1 H2. rewrite regs_with_regs, !lookup_insert_ne by congruence.
    reflexivity.
Qed.

Lemma inx_dcx_effect (s : state) (r : Z) :
  wf_state s = true ->
  r = 0 \/ r = 2 \/ r = 4 \/ r = 6 ->
  let s1 := run (execute (0x03 + 8 * r)) s in
  let s2 := run (execute (0x0B + 8 * r)) s in
  (result (rp r) s1 = (result (rp r) s + 1) mod 65536 /\
   result (rp r) s2 = (result (rp r) s - 1) mod 65536) /\
  (flags s1 = flags s /\ memory s1 = memory s /\ pc s1 = pc s /\
   (forall i, i <> r -> i <> r + 1 -> regs s1 !! i = regs s !! i) /\
   (r = 6 -> regs s1 = regs s) /\
   (r <> 6 -> sp s1 = sp s)) /\
  (flags s2 = flags s /\ memory s2 = memory s /\ pc s2 = pc s /\
   (forall i, i <> r -> i <> r + 1 -> regs s2 !! i = regs s !! i) /\
   (r = 6 -> regs s2 = regs s) /\
   (r <> 6 -> sp s2 = sp s)).
Proof.
  intros Hwf Hr. cbv zeta.
  rewrite !execute_rp, !execute_flags, !execute_memory, !execute_pc,
    !execute_regs, !execute_sp.
  rewrite inx_handler, dcx_handler by exact Hr.
  split; [split|split].
  - apply rp_set_rp_all; [exact Hr | apply Z.mod_pos_bound; lia].
  - apply rp_set_rp_all; [exact Hr | apply Z.mod_pos_bound; lia].
  - match goal with |- context [run (set_rp r ?w) ?t] =>
      exact (set_rp_frame r w t Hr) end.
  - match goal with |- context [run (set_rp r ?w) ?t] =>
      exact (set_rp_frame r w t Hr) end.
Qed.

(** X15. INX rp (0x03 + 8 r) and DCX rp (0x0B + 8 r), for r = 0, 2, 4, 6
    (BC, DE, HL, SP) in a state of the data model, add and subtract one
    modulo 2^16 (0xFFFF + 1 = 0, 0 - 1 = 0xFFFF); they change no flag, no
    other register (for SP, none of the eight register slots; for BC, DE
    and HL, no other slot and not SP) and no byte of the memory; INX
    followed by DCX restores the pair. *)
Theorem inx_dcx_step (s : state) (r : Z) :
  wf_state s = true ->
  r = 0 \/ r = 2 \/ r = 4 \/ r = 6 ->
  let s1 := run (execute (0x03 + 8 * r)) s in
  let s2 := run (execute (0x0B + 8 * r)) s in
  (result (rp r) s1 = (result (rp r) s + 1) mod 65536 /\
   result (rp r) s2 = (result (rp r) s - 1) mod 65536) /\
  (flags s1 = flags s /\ memory s1 = memory s /\ pc s1 = pc s /\
   (forall i, i <> r -> i <> r + 1 -> regs s1 !! i = regs s !! i) /\
   (r = 6 -> regs s1 = regs s) /\
   (r <> 6 -> sp s1 = sp s)) /\
  (flags s2 = flags s /\ memory s2 = memory s /\ pc s2 = pc s /\
   (forall i, i <> r -> i <> r + 1 -> regs s2 !! i = regs s !! i) /\
   (r = 6 -> regs s2 = regs s) /\
   (r <> 6 -> sp s2 = sp s)) /\
  result (rp r) (run (execute (0x0B + 8 * r)) s1) = result (rp r) s.
Proof.
  intros Hwf Hr. cbv zeta.
  pose proof (inx_dcx_effect s r Hwf Hr) as (Hv & Hf1 & Hf2).
  cbv zeta in Hv, Hf1, Hf2.
  split; [exact Hv|]. split; [exact Hf1|]. split; [exact Hf2|].
  assert (Hwf1 : wf_state (run (execute (0x03 + 8 * r)) s) = true)
    by (apply execute_keeps_wf; [lia | exact Hwf]).
  pose proof (inx_dcx_effect _ r Hwf1 Hr) as ((_ & Hd) & _).
  cbv zeta in Hd. rewrite Hd, (proj1 Hv).
  pose proof (rp_range_all r s Hwf Hr) as Hrange.
  revert Hrange. generalize (result (rp r) s). intros x Hx.
  destruct (Z.eq_dec x 65535) as [->|]; [reflexivity|].
  rewrite (Z.mod_small (x + 1)) by lia.
  replace (x + 1 - 1) with x by lia. apply Z.mod_small, Hx.
Qed.

Lemma inx_dcx_step_witness :
  let s := run (set_rp 4 0xFFFF) (new ∅ IO_new) in
  result hl (run (execute 0x23) s) = 0.
Proof.
  pose proof (inx_dcx_step (run (set_rp 4 0xFFFF) (new ∅ IO_new)) 4
                eq_refl ltac:(tauto)) as H.
  cbv zeta in H. destruct H as ((H & _) & _).
  etransitivity; [exact H | reflexivity].
Defined.

Lemma lxi_handler (r : Z) (s : state) :
  r = 0 \/ r = 2 \/ r = 4 \/ r = 6 ->
  run_handler (0x01 + 8 * r) s =
  run (set_rp r (mem_word s (pc s)))
      (with_pc ((pc s + 2) mod 65536)
         (with_cpu_cycles 10 (with_vcycles T433
            (with_last_opcode (0x01 + 8 * r) s)))).
Proof.
  intros Hr.
  transitivity (run (h_lxi (0x01 + 8 * r)) (with_last_opcode (0x01 + 8 * r) s)).
  - unfold run_handler.
    destruct Hr as [->|[->|[->| ->]]]; cbv beta iota delta [handler];
      reflexivity.
  - unfold h_lxi.
    replace (Z.shiftr (0x01 + 8 * r) 3) with r
      by (destruct Hr as [->|[->|[->| ->]]]; reflexivity).
    rewrite !run_bind, cycles_run, next_pc_word_run, next_pc_word_result.
    reflexivity.
Qed.

(** X16. Loading the 16-bit registers, in a state of the data model: LXI rp
    (0x01 + 8 r, r = 0, 2, 4, 6 for BC, DE, HL, SP) loads the pair with the
    word at [pc], low byte first, and steps [pc] by two, changing no other
    register (for SP, none of the eight register slots; for BC, DE and HL,
    no other slot and not SP); SPHL (0xF9) copies HL to SP and PCHL (0xE9)
    copies HL to [pc], a 16-bit value in both cases.  None of them changes
    a flag or the memory. *)
Theorem lxi_sphl_pchl (s : state) (r : Z) :
  wf_state s = true ->
  r = 0 \/ r = 2 \/ r = 4 \/ r = 6 ->
  let lxi := run (execute (0x01 + 8 * r)) s in
  let sphl := run (execute 0xF9) s in
  let pchl := run (execute 0xE9) s in
  (result (rp r) lxi = mem_word s (pc s) /\ pc lxi = (pc s + 2) mod 65536 /\
   (forall i, i <> r -> i <> r + 1 -> regs lxi !! i = regs s !! i) /\
   (r = 6 -> regs lxi = regs s) /\
   (r <> 6 -> sp lxi = sp s)) /\
  (sp sphl = result hl s /\ pc sphl = pc s /\ regs sphl = regs s) /\
  (pc pchl = result hl s /\ sp pchl = sp s /\ regs pchl = regs s) /\
  0 <= result hl s < 65536 /\
  (flags lxi = flags s /\ flags sphl = flags s /\ flags pchl = flags s) /\
  (memory lxi = memory s /\ memory sphl = memory s /\ memory pchl = memory s).
Proof.
  intros Hwf Hr. cbv zeta.
  rewrite !execute_rp, !execute_flags, !execute_memory, !execute_pc,
    !execute_regs, !execute_sp.
  rewrite lxi_handler by exact Hr.
  match goal with |- context [run (set_rp r ?w) ?t] =>
    pose proof (set_rp_frame r w t Hr) as (F & Me & P & R & R6 & S);
    pose proof (rp_set_rp_all r w t Hr (mem_word_range s (pc s))) as V end.
  split; [|split; [|split; [|split; [|split]]]].
  - split; [exact V|]. split; [exact P|]. split; [exact R|].
    split; [exact R6 | exact S].
  - repeat split.
  - repeat split.
  - apply (rp_range 4 s Hwf). tauto.
  - split; [exact F|]. split; reflexivity.
  - split; [exact Me|]. split; reflexivity.
Qed.

Lemma lxi_sphl_pchl_witness :
  let s := new (<[0 := 0x34]> (<[1 := 0x12]> ∅)) IO_new in
  result (rp 6) (run (execute 0x31) s) = 0x1234.
Proof.
  pose proof (lxi_sphl_pchl (new (<[0 := 0x34]> (<[1 := 0x12]> ∅)) IO_new) 6
                eq_refl ltac:(tauto)) as H.
  cbv zeta in H. destruct H as ((H & _) & _).
  etransitivity; [exact H | reflexivity].
Defined.

(** ** MVI, STAX, LDAX *)

Lemma reg_ext (r : Z) (s t : state) :
  regs t = regs s -> memory t = memory s ->
  result (reg r) t = result (reg r) s.
Proof.
  intros Hr Hm. unfold result, reg, hl, rp, regs_get, get, memory_read_byte.
  destruct (negb (r =? 6)); simpl; rewrite ?Hr, ?Hm; reflexivity.
Qed.

Lemma execute_reg (opcode r : Z) (s : state) :
  result (reg r) (run (execute opcode) s) = result (reg r) (run_handler opcode s).
Proof. apply reg_ext; [apply execute_regs | apply execute_memory]. Qed.

Lemma next_pc_byte_result (s : state) : result next_pc_byte s = mem_byte s (pc s).
Proof. reflexivity. Qed.

Lemma next_pc_byte_run (s : state) :
  run next_pc_byte s = with_pc ((pc s + 1) mod 65536) s.
Proof. unfold run, next_pc_byte; simpl. rewrite land_ffff. reflexivity. Qed.


(** What [set_reg] stores is what [reg] reads back, M included. *)
Lemma reg_set_reg (r w8 : Z) (s : state) :
  result (reg r) (run (set_reg r w8) s) = w8 mod 256.
Proof.
  unfold reg, set_reg. cbv zeta.
  destruct (Z.eqb_spec r 6) as [->|Hne]; simpl negb; cbv iota.
  - rewrite run_bind, result_bind. unfold hl. rewrite !rp_run.
    replace (result (rp 4) (run (memory_write_byte (result (rp 4) s)
                                   (Z.land w8 0xff) false) s))
      with (result (rp 4) s) by reflexivity.
    rewrite memory_read_after_write, Z.eqb_refl, land_ff, Z.mod_mod by lia.
    reflexivity.
  - unfold result, regs_get, get, run, modify; simpl.
    rewrite lookup_insert_eq. simpl. apply land_ff.
Qed.



Lemma stax_handler (r : Z) (s : state) :
  r = 0 \/ r = 2 ->
  run_handler (0x02 + 8 * r) s =
  run (memory_write_byte (result (rp r) s) (result a s) false)
      (with_cpu_cycles 7 (with_vcycles T43 (with_last_opcode (0x02 + 8 * r) s))).
Proof. intros [->| ->]; reflexivity. Qed.

Lemma ldax_handler (r : Z) (s : state) :
  r = 0 \/ r = 2 ->
  run_handler (0x0A + 8 * r) s =
  with_regs (<[7 := Z.land (mem_byte s (result (rp r) s)) 0xff]> (regs s))
    (with_cpu_cycles 7 (with_vcycles T43 (with_last_opcode (0x0A + 8 * r) s))).
Proof. intros [->| ->]; reflexivity. Qed.

(** X18. Register-indirect access to the accumulator, in a state of the
    data model: STAX rp (0x02 + 8 r, r = 0 for BC, 2 for DE) stores A at
    the address in the pair and changes no other byte and no register;
    LDAX rp (0x0A + 8 r) loads A with the byte there and changes no other
    register and no memory; neither changes a flag, [pc] or SP; and LDAX
    after STAX gives back A. *)
Theorem stax_ldax_indirect (s : state) (r : Z) :
  wf_state s = true ->
  r = 0 \/ r = 2 ->
  let addr := result (rp r) s in
  let stax := run (execute (0x02 + 8 * r)) s in
  let ldax := run (execute (0x0A + 8 * r)) s in
  (mem_byte stax addr = result a s /\
   (forall x, x mod 65536 <> addr -> mem_byte stax x = mem_byte s x) /\
   regs stax = regs s) /\
  (result a ldax = mem_byte s addr /\
   (forall i, i <> 7 -> regs ldax !! i = regs s !! i) /\
   memory ldax = memory s) /\
  (flags stax = flags s /\ pc stax = pc s /\ sp stax = sp s) /\
  (flags ldax = flags s /\ pc ldax = pc s /\ sp ldax = sp s) /\
  result a (run (execute (0x0A + 8 * r)) stax) = result a s.
Proof.
  intros Hwf Hr. cbv zeta.
  assert (Hr' : r = 0 \/ r = 2 \/ r = 4) by tauto.
  pose proof (rp_range r s Hwf Hr') as Haddr.
  pose proof (wf_state_a s Hwf) as Ha.
  assert (Hst : mem_byte (run (execute (0x02 + 8 * r)) s) (result (rp r) s) =
                result a s).
  { rewrite execute_mem_byte, stax_handler by exact Hr.
    rewrite mem_byte_write, Z.eqb_refl. apply Z.mod_small, Ha. }
  assert (Hld : forall t, result a (run (execute (0x0A + 8 * r)) t) =
                          mem_byte t (result (rp r) t)).
  { intros t. rewrite execute_a, ldax_handler by exact Hr.
    unfold result at 1. unfold a, reg, regs_get, get; simpl.
    rewrite lookup_insert_eq. simpl.
    rewrite land_ff. apply Z.mod_small, mem_byte_range. }
  assert (Hregs : regs (run (execute (0x02 + 8 * r)) s) = regs s).
  { rewrite execute_regs, stax_handler by exact Hr. reflexivity. }
  assert (Hsp : sp (run (execute (0x02 + 8 * r)) s) = sp s).
  { rewrite execute_sp, stax_handler by exact Hr. reflexivity. }
  split; [|split; [|split; [|split]]].
  - split; [exact Hst|]. split; [|exact Hregs].
    intros x Hx. rewrite execute_mem_byte, stax_handler by exact Hr.
    rewrite mem_byte_write, (Z.mod_small (result (rp r) s)) by lia.
    destruct (Z.eqb_spec (x mod 65536) (result (rp r) s)); [congruence|].
    reflexivity.
  - split; [apply Hld|]. split.
    + intros i Hi. rewrite execute_regs, ldax_handler by exact Hr.
      rewrite regs_with_regs, lookup_insert_ne by congruence. reflexivity.
    + rewrite execute_memory, ldax_handler by exact Hr. reflexivity.
  - rewrite execute_flags, execute_pc, stax_handler by exact Hr.
    split; [reflexivity|]. split; [reflexivity | exact Hsp].
  - rewrite execute_flags, execute_pc, execute_sp, ldax_handler by exact Hr.
    repeat split.
  - rewrite Hld, (rp_ext r s _ Hregs Hsp). exact Hst.
Qed.

Lemma stax_ldax_indirect_witness :
  let s := run (set_a 0x5A) (run (set_rp 0 0x1234) (new ∅ IO_new)) in
  mem_byte (run (execute 0x02) s) 0x1234 = 0x5A.
Proof.
  pose proof (stax_ldax_indirect
    (run (set_a 0x5A) (run (set_rp 0 0x1234) (new ∅ IO_new))) 0
    eq_refl ltac:(tauto)) as H.
  cbv zeta in H. destruct H as ((H & _) & _).
  etransitivity; [exact H | reflexivity].
Defined.

(** ** What an instruction leaves alone *)

Ltac frame_case :=
  let H := fresh in
  intros H;
  first [ exfalso; vm_compute in H; first [discriminate H | apply H; reflexivity]
        | unfold closure; cbv beta iota delta [handler]; solve [frame] ].

Ltac all_opcodes tac :=
  let l := eval vm_compute in (seqZ 0 256) in
  change (seqZ 0 256) with l;
  repeat (constructor; [tac|]); constructor.

Lemma run_handler_closure (opcode : Z) (s : state) :
  run_handler opcode s = run (closure opcode) (with_last_opcode opcode s).
Proof. reflexivity. Qed.

Lemma closures_keep_flags (opcode : Z) :
  0 <= opcode < 256 -> affects_flags opcode = false ->
  preserves flags (closure opcode).
Proof.
  intros Hrange.
  assert (H : Forall (fun op => affects_flags op = false ->
                                preserves flags (closure op)) (seqZ 0 256)).
  { all_opcodes frame_case. }
  rewrite Forall_forall in H. apply H, elem_of_seqZ. lia.
Qed.

Lemma closures_keep_memory (opcode : Z) :
  0 <= opcode < 256 -> writes_memory opcode = false ->
  preserves memory (closure opcode).
Proof.
  intros Hrange.
  assert (H : Forall (fun op => writes_memory op = false ->
                                preserves memory (closure op)) (seqZ 0 256)).
  { all_opcodes frame_case. }
  rewrite Forall_forall in H. apply H, elem_of_seqZ. lia.
Qed.

(** X19. Only the arithmetic and logic instructions, the rotates, DAA, STC,
    CMC, DAD and POP PSW assign flags: every other opcode (the moves, loads
    and stores, INX and DCX, CMA, the jumps, calls and returns, PUSH, the
    other POPs, IN, OUT, EI, DI, HLT, NOP) leaves SF, ZF, HF, PF and CF as
    it found them. *)
Theorem flags_untouched (opcode : Z) (s : state) :
  0 <= opcode < 256 -> affects_flags opcode = false ->
  flags (run (execute opcode) s) = flags s.
Proof.
  intros Hrange Hop.
  rewrite execute_flags, run_handler_closure.
  exact (closures_keep_flags opcode Hrange Hop (with_last_opcode opcode s)).
Qed.

Lemma flags_untouched_witness :
  let s := run (retrieve_flags 0xD7) (new ∅ IO_new) in
  flags (run (execute 0x2F) s) = flags s.
Proof.
  exact (flags_untouched 0x2F (run (retrieve_flags 0xD7) (new ∅ IO_new))
           ltac:(lia) eq_refl).
Defined.

(** X20. Only the stores (STAX, SHLD, STA, MOV M,r, MVI M), INR M and
    DCR M, and the instructions that push (PUSH, CALL, Ccc, RST) or
    exchange with the stack (XTHL) write to the memory: every other opcode
    leaves the memory as it found it. *)
Theorem memory_untouched (opcode : Z) (s : state) :
  0 <= opcode < 256 -> writes_memory opcode = false ->
  memory (run (execute opcode) s) = memory s.
Proof.
  intros Hrange Hop.
  rewrite execute_memory, run_handler_closure.
  exact (closures_keep_memory opcode Hrange Hop (with_last_opcode opcode s)).
Qed.

Lemma memory_untouched_witness :
  let s := new (<[0 := 0x55]> ∅) IO_new in
  memory (run (execute 0x7E) s) = memory s.
Proof.
  exact (memory_untouched 0x7E (new (<[0 := 0x55]> ∅) IO_new)
           ltac:(lia) eq_refl).
Defined.

(** ** The device *)









(** ** Subtraction and comparison *)

Lemma sub_im8_run (s : state) (v : Z) (carry : jsval) :
  let '(a1, sf1, zf1, hf1, pf1, cf1) :=
    sub_im8_result (result a s) v (to_number carry) in
  run (sub_im8 v carry) s =
  with_regs (<[7 := Z.land a1 0xff]> (regs s))
    (with_cf cf1 (with_pf pf1 (with_hf hf1 (with_zf zf1 (with_sf sf1 s))))).
Proof. reflexivity. Qed.

Lemma sub_flags_ok_bytes (a0 v c : Z) :
  0 <= a0 < 256 -> 0 <= v < 256 -> 0 <= c <= 1 ->
  sub_flags_ok a0 v c = true.
Proof.
  intros Ha Hv Hc.
  assert (H : forallb (fun x => forallb (fun y =>
                sub_flags_ok x y 0 && sub_flags_ok x y 1) (seqZ 0 256))
                (seqZ 0 256) = true) by (vm_compute; reflexivity).
  pose proof (forallb_bytes2 _ H a0 v Ha Hv) as Hxy.
  apply andb_true_iff in Hxy. destruct Hxy as [H0 H1].
  assert (c = 0 \/ c = 1) as [-> | ->] by lia; assumption.
Qed.

Lemma flag_number_range (s : state) :
  wf_state s = true -> 0 <= to_number (cf s) <= 1.
Proof.
  intros Hwf. rewrite (wf_state_cf s Hwf). destruct (truthy (cf s)); simpl; lia.
Qed.

Lemma sub_family_run (opcode : Z) (s : state) (v c : Z) :
  sub_family opcode s = Some (v, c) ->
  exists carry s0,
    run_handler opcode s = run (sub_im8 v carry) s0 /\
    to_number carry = c /\ regs s0 = regs s /\
    (wf_state s = true -> 0 <= v < 256 /\ 0 <= c <= 1).
Proof.
  unfold sub_family. intros H.
  assert (Hc0 : 0 <= 0 <= 1) by lia.
  destruct ((0x90 <=? opcode) && (opcode <=? 0x97)) eqn:Hsub;
    [|destruct ((0x98 <=? opcode) && (opcode <=? 0x9F)) eqn:Hsbb;
      [|destruct (Z.eqb_spec opcode 0xD6) as [->|_];
        [|destruct (Z.eqb_spec opcode 0xDE) as [->|_]; [|discriminate]]]].
  - apply andb_true_iff in Hsub. rewrite Z.leb_le, Z.leb_le in Hsub.
    injection H as <- <-.
    assert (Hr : 0 <= opcode - 0x90 < 8) by lia.
    exists (JNum 0), (with_cpu_cycles (if opcode =? 0x96 then 7 else 4)
                     (with_vcycles (if opcode =? 0x96 then T43 else T4)
                        (with_last_opcode opcode s))).
    split; [|split; [reflexivity|split; [reflexivity|]]].
    + assert (opcode = 0x90 \/ opcode = 0x91 \/ opcode = 0x92 \/ opcode = 0x93 \/
              opcode = 0x94 \/ opcode = 0x95 \/ opcode = 0x96 \/ opcode = 0x97)
        as Hcase by lia.
      repeat (destruct Hcase as [->|Hcase]; [reflexivity|]). subst; reflexivity.
    + intros Hwf. split; [apply reg_range; assumption | exact Hc0].
  - apply andb_true_iff in Hsbb. rewrite Z.leb_le, Z.leb_le in Hsbb.
    injection H as <- <-.
    assert (Hr : 0 <= opcode - 0x98 < 8) by lia.
    exists (cf s), (with_cpu_cycles (if opcode =? 0x9E then 7 else 4)
                     (with_vcycles (if opcode =? 0x9E then T43 else T4)
                        (with_last_opcode opcode s))).
    split; [|split; [reflexivity|split; [reflexivity|]]].
    + assert (opcode = 0x98 \/ opcode = 0x99 \/ opcode = 0x9A \/ opcode = 0x9B \/
              opcode = 0x9C \/ opcode = 0x9D \/ opcode = 0x9E \/ opcode = 0x9F)
        as Hcase by lia.
      repeat (destruct Hcase as [->|Hcase]; [reflexivity|]). subst; reflexivity.
    + intros Hwf.
      split; [apply reg_range; assumption | exact (flag_number_range s Hwf)].
  - injection H as <- <-.
    exists (JNum 0), (with_pc (Z.land (pc s + 1) 0xffff)
                     (with_cpu_cycles 7 (with_vcycles T43 (with_last_opcode 0xD6 s)))).
    split; [reflexivity|]. split; [reflexivity|]. split; [reflexivity|].
    intros Hwf. split; [|exact Hc0].
    rewrite next_pc_byte_result. apply mem_byte_range.
  - injection H as <- <-.
    exists (cf s), (with_pc (Z.land (pc s + 1) 0xffff)
                     (with_cpu_cycles 7 (with_vcycles T43 (with_last_opcode 0xDE s)))).
    split; [reflexivity|]. split; [reflexivity|]. split; [reflexivity|].
    intros Hwf. split; [|exact (flag_number_range s Hwf)].
    rewrite next_pc_byte_result. apply mem_byte_range.
Qed.

(** The facts [sub_im8] establishes, on bytes. *)
Lemma sub_im8_effect (s0 : state) (a0 v : Z) (carry : jsval) :
  result a s0 = a0 ->
  0 <= a0 < 256 -> 0 <= v < 256 -> 0 <= to_number carry <= 1 ->
  let c := to_number carry in
  let r := (a0 - v - c) mod 256 in
  let s' := run (sub_im8 v carry) s0 in
  result a s' = r /\
  truthy (cf s') = (a0 <? v + c) /\
  truthy (zf s') = (r =? 0) /\
  to_number (sf s') = bit r 7 /\
  to_number (pf s') = even_parity r /\
  truthy (hf s') = (v mod 16 + c <=? a0 mod 16).
Proof.
  intros Ea Ha Hv Hc. cbv zeta.
  pose proof (sub_flags_ok_bytes a0 v (to_number carry) Ha Hv Hc) as Hok.
  pose proof (sub_im8_run s0 v carry) as Hst.
  rewrite Ea in Hst. unfold sub_flags_ok in Hok.
  destruct (sub_im8_result a0 v (to_number carry))
    as [[[[[a1 sf1] zf1] hf1] pf1] cf1].
  rewrite !andb_true_iff, !Z.eqb_eq, !eqb_true_iff in Hok.
  destruct Hok as (((((H1 & H2) & H3) & H4) & H5) & H6).
  rewrite Hst.
  unfold result, a, reg, regs_get, get; simpl.
  rewrite lookup_insert_eq; simpl. tauto.
Qed.

(** X22. For an instruction of the SUB family (SUB, SBB, SUI, SBI)
    executed in a state of the data model, with accumulator A, operand v
    and borrow-in c (0, or CF for SBB and SBI): the accumulator becomes
    (A - v - c) mod 256; CF tells a borrow, A < v + c; ZF tells whether the
    result is 0; SF is bit 7 of the result and PF its even parity; HF is
    set when the low nibble does not borrow, v mod 16 + c <= A mod 16. *)
Theorem sub_family_result (s : state) (opcode v c : Z) :
  wf_state s = true ->
  sub_family opcode s = Some (v, c) ->
  let a0 := result a s in
  let r := (a0 - v - c) mod 256 in
  let s' := run (execute opcode) s in
  result a s' = r /\
  truthy (cf s') = (a0 <? v + c) /\
  truthy (zf s') = (r =? 0) /\
  to_number (sf s') = bit r 7 /\
  to_number (pf s') = even_parity r /\
  truthy (hf s') = (v mod 16 + c <=? a0 mod 16).
Proof.
  intros Hwf Hfam. cbv zeta.
  destruct (sub_family_run opcode s v c Hfam)
    as (carry & s0 & Hrun & Hc & Hregs & Hrange).
  destruct (Hrange Hwf) as [Hv Hcr].
  pose proof (wf_state_a s Hwf) as Ha.
  assert (Ha0 : result a s0 = result a s).
  { unfold result, a, reg, regs_get, get; simpl. now rewrite Hregs. }
  rewrite <- Hc in Hcr.
  pose proof (sub_im8_effect s0 (result a s) v carry Ha0 Ha Hv Hcr) as Heff.
  cbv zeta in Heff. rewrite Hc in Heff.
  rewrite execute_a, run_execute.
  destruct (iff_countdown_frame (run_handler opcode s))
    as (_ & _ & -> & -> & -> & -> & -> & _).
  rewrite Hrun. exact Heff.
Qed.

Lemma sub_family_result_witness :
  let s := run (set_b 0x01) (run (set_a 0x10) (new ∅ IO_new)) in
  result a (run (execute 0x90) s) = 0x0F /\
  truthy (hf (run (execute 0x90) s)) = false.
Proof.
  pose proof (sub_family_result
    (run (set_b 0x01) (run (set_a 0x10) (new ∅ IO_new))) 0x90 1 0
    eq_refl eq_refl) as H.
  cbv zeta in H. destruct H as (Hr & _ & _ & _ & _ & Hh).
  split.
  - etransitivity; [exact Hr | reflexivity].
  - etransitivity; [exact Hh | reflexivity].
Defined.

(** X23. CMP r (0xB8 + r, r = 6 for M) and CPI (0xFE) compare the
    accumulator with their operand v, in a state of the data model: ZF is
    set exactly when A = v and CF exactly when A < v (unsigned), and the
    registers are as before. *)
Theorem cmp_orders (s : state) (r : Z) :
  wf_state s = true ->
  0 <= r < 8 ->
  let v := result (reg r) s in
  let d8 := mem_byte s (pc s) in
  let s1 := run (execute (0xB8 + r)) s in
  let s2 := run (execute 0xFE) s in
  (truthy (zf s1) = (result a s =? v) /\ truthy (cf s1) = (result a s <? v) /\
   regs s1 = regs s) /\
  (truthy (zf s2) = (result a s =? d8) /\ truthy (cf s2) = (result a s <? d8) /\
   regs s2 = regs s).
Proof.
  intros Hwf Hr. cbv zeta.
  pose proof (wf_state_a s Hwf) as Ha.
  pose proof (reg_range r s Hwf Hr) as Hv.
  pose proof (mem_byte_range s (pc s)) as Hd.
  destruct (wf_state_regs s 7 Hwf ltac:(lia)) as (a0 & E7 & _).
  assert (Hcmp : forall (t : state) (w : Z),
            regs t = regs s -> 0 <= w < 256 ->
            truthy (zf (run (cmp_im8 w) t)) = (result a s =? w) /\
            truthy (cf (run (cmp_im8 w) t)) = (result a s <? w) /\
            regs (run (cmp_im8 w) t) = regs s).
  { intros t w Ht Hw.
    assert (Hat : result a t = result a s).
    { unfold result, a, reg, regs_get, get; simpl. now rewrite Ht. }
    pose proof (sub_im8_effect t (result a s) w (JNum 0) Hat Ha Hw
                  ltac:(simpl; lia)) as (Er & Ec & Ez & _).
    replace (zf (run (cmp_im8 w) t)) with (zf (run (sub_im8 w (JNum 0)) t))
      by reflexivity.
    replace (cf (run (cmp_im8 w) t)) with (cf (run (sub_im8 w (JNum 0)) t))
      by reflexivity.
    rewrite Ez, Ec. simpl to_number. rewrite Z.sub_0_r, Z.add_0_r.
    split; [|split; [reflexivity|]].
    - destruct (Z.eqb_spec (result a s) w) as [->|Hne].
      + rewrite Z.sub_diag. reflexivity.
      + apply Z.eqb_neq. intros H0.
        apply Z.mod_divide in H0; [|lia].
        destruct H0 as [k Hk]. lia.
    - unfold cmp_im8. rewrite !run_bind.
      change (regs (run (set_a (result a t))
                 (run (sub_im8 w (JNum 0)) (run a t))))
        with (<[7 := Z.land (result a t) 0xff]>
                (regs (run (sub_im8 w (JNum 0)) t))).
      pose proof (sub_im8_run t w (JNum 0)) as Hst.
      destruct (sub_im8_result (result a t) w (to_number (JNum 0)))
        as [[[[[a1 sf1] zf1] hf1] pf1] cf1].
      rewrite Hst, regs_with_regs, insert_insert_eq, Ht, Hat.
      apply insert_id.
      unfold result, a, reg, regs_get, get in *; simpl in *.
      rewrite E7 in *. simpl in *.
      rewrite land_ff, Z.mod_small by lia. reflexivity. }
  split.
  - rewrite execute_regs, run_execute.
    destruct (iff_countdown_frame (run_handler (0xB8 + r) s))
      as (_ & _ & _ & _ & _ & -> & -> & _).
    rewrite cmp_handler_run by exact Hr.
    apply Hcmp; [reflexivity | exact Hv].
  - rewrite execute_regs, run_execute.
    destruct (iff_countdown_frame (run_handler 0xFE s))
      as (_ & _ & _ & _ & _ & -> & -> & _).
    rewrite cpi_handler_run.
    apply Hcmp; [reflexivity | exact Hd].
Qed.

Lemma cmp_orders_witness :
  let s := run (set_b 0x20) (run (set_a 0x10) (new ∅ IO_new)) in
  truthy (cf (run (execute 0xB8) s)) = true.
Proof.
  pose proof (cmp_orders
    (run (set_b 0x20) (run (set_a 0x10) (new ∅ IO_new))) 0
    eq_refl ltac:(lia)) as H.
  cbv zeta in H. destruct H as ((_ & H & _) & _).
  etransitivity; [exact H | reflexivity].
Defined.

(** ** The parity table and the logic instructions *)

Lemma parity_table_even (x : Z) :
  0 <= x < 256 -> table_get parity_table x = even_parity x.
Proof.
  intros Hx.
  assert (H : forallb (fun x => table_get parity_table x =? even_parity x)
                (seqZ 0 256) = true) by (vm_compute; reflexivity).
  apply Z.eqb_eq, (forallb_bytes _ H x Hx).
Qed.

Lemma logic_apply_byte (op : logic_op) (x y : Z) :
  0 <= x < 256 -> 0 <= y < 256 -> 0 <= logic_apply op x y < 256.
Proof.
  intros Hx Hy.
  assert (H : forallb (fun x => forallb (logic_bytes_ok x) (seqZ 0 256))
                (seqZ 0 256) = true) by (vm_compute; reflexivity).
  pose proof (forallb_bytes2 _ H x y Hx Hy) as Hok.
  unfold logic_bytes_ok in Hok. rewrite !andb_true_iff, !is_byte_spec in Hok.
  destruct op; simpl; tauto.
Qed.

Lemma logic_im8_run (op : logic_op) (v : Z) (s : state) :
  let a1 := logic_apply op (result a s) v in
  let s' := run (logic_im8 op v) s in
  regs s' = <[7 := Z.land a1 0xff]> (regs s) /\
  sf s' = JBool (negb (Z.land a1 0x80 =? 0)) /\
  zf s' = JBool (a1 =? 0) /\
  pf s' = JNum (table_get parity_table a1) /\
  cf s' = JNum 0 /\
  hf s' = match op with
          | OpAnd => JBool (negb (Z.land (Z.lor (result a s) v) 0x08 =? 0))
          | _ => JNum 0
          end.
Proof. destruct op; repeat split. Qed.

Lemma logic_family_run (opcode : Z) (s : state) (op : logic_op) (v : Z) :
  logic_family opcode s = Some (op, v) ->
  exists s0,
    run_handler opcode s = run (logic_im8 op v) s0 /\
    regs s0 = regs s /\
    (wf_state s = true -> 0 <= v < 256).
Proof.
  unfold logic_family. intros H.
  assert (Hd : 0 <= result next_pc_byte s < 256)
    by (rewrite next_pc_byte_result; apply mem_byte_range).
  destruct ((0xA0 <=? opcode) && (opcode <=? 0xA7)) eqn:Hand;
    [|destruct ((0xA8 <=? opcode) && (opcode <=? 0xAF)) eqn:Hxor;
      [|destruct ((0xB0 <=? opcode) && (opcode <=? 0xB7)) eqn:Hor;
        [|destruct (Z.eqb_spec opcode 0xE6) as [->|_];
          [|destruct (Z.eqb_spec opcode 0xEE) as [->|_];
            [|destruct (Z.eqb_spec opcode 0xF6) as [->|_]; [|discriminate]]]]]].
  - apply andb_true_iff in Hand. rewrite Z.leb_le, Z.leb_le in Hand.
    injection H as <- <-.
    exists (with_cpu_cycles (if opcode =? 0xA6 then 7 else 4)
              (with_vcycles (if opcode =? 0xA6 then T43 else T4)
                 (with_last_opcode opcode s))).
    split; [|split; [reflexivity | intros Hwf; apply reg_range; [exact Hwf | lia]]].
    assert (opcode = 0xA0 \/ opcode = 0xA1 \/ opcode = 0xA2 \/ opcode = 0xA3 \/
            opcode = 0xA4 \/ opcode = 0xA5 \/ opcode = 0xA6 \/ opcode = 0xA7)
      as Hcase by lia.
    repeat (destruct Hcase as [->|Hcase]; [reflexivity|]). subst; reflexivity.
  - apply andb_true_iff in Hxor. rewrite Z.leb_le, Z.leb_le in Hxor.
    injection H as <- <-.
    exists (with_cpu_cycles (if opcode =? 0xAE then 7 else 4)
              (with_vcycles (if opcode =? 0xAE then T43 else T4)
                 (with_last_opcode opcode s))).
    split; [|split; [reflexivity | intros Hwf; apply reg_range; [exact Hwf | lia]]].
    assert (opcode = 0xA8 \/ opcode = 0xA9 \/ opcode = 0xAA \/ opcode = 0xAB \/
            opcode = 0xAC \/ opcode = 0xAD \/ opcode = 0xAE \/ opcode = 0xAF)
      as Hcase by lia.
    repeat (destruct Hcase as [->|Hcase]; [reflexivity|]). subst; reflexivity.
  - apply andb_true_iff in Hor. rewrite Z.leb_le, Z.leb_le in Hor.
    injection H as <- <-.
    exists (with_cpu_cycles (if opcode =? 0xB6 then 7 else 4)
              (with_vcycles (if opcode =? 0xB6 then T43 else T4)
                 (with_last_opcode opcode s))).
    split; [|split; [reflexivity | intros Hwf; apply reg_range; [exact Hwf | lia]]].
    assert (opcode = 0xB0 \/ opcode = 0xB1 \/ opcode = 0xB2 \/ opcode = 0xB3 \/
            opcode = 0xB4 \/ opcode = 0xB5 \/ opcode = 0xB6 \/ opcode = 0xB7)
      as Hcase by lia.
    repeat (destruct Hcase as [->|Hcase]; [reflexivity|]). subst; reflexivity.
  - injection H as <- <-.
    exists (with_pc (Z.land (pc s + 1) 0xffff)
              (with_cpu_cycles 7 (with_vcycles T43 (with_last_opcode 0xE6 s)))).
    split; [reflexivity|]. split; [reflexivity | intros _; exact Hd].
  - injection H as <- <-.
    exists (with_pc (Z.land (pc s + 1) 0xffff)
              (with_cpu_cycles 7 (with_vcycles T43 (with_last_opcode 0xEE s)))).
    split; [reflexivity|]. split; [reflexivity | intros _; exact Hd].
  - injection H as <- <-.
    exists (with_pc (Z.land (pc s + 1) 0xffff)
              (with_cpu_cycles 7 (with_vcycles T43 (with_last_opcode 0xF6 s)))).
    split; [reflexivity|]. split; [reflexivity | intros _; exact Hd].
Qed.

(** X24. For a logic instruction (ANA, XRA, ORA with a register or M, and
    ANI, XRI, ORI with the byte at [pc]) executed in a state of the data
    model, with accumulator A and operand v: the accumulator becomes A and
    v, A xor v or A or v, bit by bit; CF is cleared; ZF tells whether the
    result is 0, SF is its bit 7 and PF its even parity; HF is cleared by
    XRA and ORA, and ANA sets it to bit 3 of A or v.  In particular XRA A
    clears the accumulator and sets ZF. *)
Theorem logic_family_result (s : state) (opcode : Z) (op : logic_op) (v : Z) :
  wf_state s = true ->
  logic_family opcode s = Some (op, v) ->
  let a0 := result a s in
  let r := logic_apply op a0 v in
  let s' := run (execute opcode) s in
  result a s' = r /\
  to_number (cf s') = 0 /\
  truthy (zf s') = (r =? 0) /\
  to_number (sf s') = bit r 7 /\
  to_number (pf s') = even_parity r /\
  to_number (hf s') = (match op with
                       | OpAnd => bit (Z.lor a0 v) 3
                       | _ => 0
                       end) /\
  (opcode = 0xAF -> result a s' = 0 /\ truthy (zf s') = true).
Proof.
  intros Hwf Hfam. cbv zeta.
  pose proof (wf_state_a s Hwf) as Ha.
  destruct (logic_family_run opcode s op v Hfam) as (s0 & Hrun & Hregs & Hv).
  specialize (Hv Hwf).
  assert (Ha0 : result a s0 = result a s).
  { unfold result, a, reg, regs_get, get; simpl. now rewrite Hregs. }
  pose proof (logic_apply_byte op (result a s) v Ha Hv) as Hr.
  pose proof (logic_im8_run op v s0) as (Rr & Rs & Rz & Rp & Rc & Rh).
  cbv zeta in Rr, Rs, Rz, Rp, Rc, Rh. rewrite Ha0 in *.
  assert (Hmain :
    result a (run (execute opcode) s) = logic_apply op (result a s) v /\
    to_number (cf (run (execute opcode) s)) = 0 /\
    truthy (zf (run (execute opcode) s)) = (logic_apply op (result a s) v =? 0) /\
    to_number (sf (run (execute opcode) s)) = bit (logic_apply op (result a s) v) 7 /\
    to_number (pf (run (execute opcode) s)) =
      even_parity (logic_apply op (result a s) v) /\
    to_number (hf (run (execute opcode) s)) =
      match op with OpAnd => bit (Z.lor (result a s) v) 3 | _ => 0 end).
  { rewrite execute_a, run_execute.
    destruct (iff_countdown_frame (run_handler opcode s))
      as (_ & _ & -> & -> & -> & -> & -> & _).
    rewrite Hrun, Rs, Rz, Rp, Rc, Rh.
    split; [|split; [reflexivity|split; [reflexivity|split; [|split]]]].
    - unfold result at 1. unfold a, reg, regs_get, get; simpl.
      rewrite Rr, lookup_insert_eq. simpl.
      rewrite land_ff. apply Z.mod_small, Hr.
    - simpl to_number. unfold bit. change 0x80 with (2 ^ 7).
      rewrite testbit_mask by lia. destruct (Z.testbit _ 7); reflexivity.
    - simpl to_number. apply parity_table_even, Hr.
    - destruct op; [|reflexivity|reflexivity].
      simpl to_number. unfold bit. change 0x08 with (2 ^ 3).
      rewrite testbit_mask by lia. destruct (Z.testbit _ 3); reflexivity. }
  destruct Hmain as (M1 & M2 & M3 & M4 & M5 & M6).
  split; [exact M1|]. split; [exact M2|]. split; [exact M3|].
  split; [exact M4|]. split; [exact M5|]. split; [exact M6|].
  intros ->. unfold logic_family in Hfam. simpl in Hfam.
  injection Hfam as <- <-.
  rewrite M1, M3. simpl logic_apply.
  change (result (reg (0xAF - 0xA8)) s) with (result a s).
  rewrite Z.lxor_nilpotent. split; reflexivity.
Qed.

Lemma logic_family_result_witness :
  let s := run (set_b 0x0F) (run (set_a 0x3C) (new ∅ IO_new)) in
  result a (run (execute 0xA0) s) = 0x0C.
Proof.
  pose proof (logic_family_result
    (run (set_b 0x0F) (run (set_a 0x3C) (new ∅ IO_new))) 0xA0 OpAnd 0x0F
    eq_refl eq_refl) as H.
  cbv zeta in H. destruct H as (H & _).
  etransitivity; [exact H | reflexivity].
Defined.

(** ** INR and DCR *)

Lemma reg_run (r : Z) (s : state) : run (reg r) s = s.
Proof. unfold reg. destruct (negb (r =? 6)); reflexivity. Qed.

Lemma inr_run (r : Z) (s : state) :
  run (inr r) s =
  let v := Z.land (result (reg r) s + 1) 0xff in
  with_pf (JNum (table_get parity_table v))
    (with_hf (JBool (Z.land v 0x0f =? 0))
       (with_zf (JBool (v =? 0))
          (with_sf (JBool (negb (Z.land v 0x80 =? 0)))
             (run (set_reg r v) s)))).
Proof.
  unfold inr. cbv zeta. rewrite !run_bind, reg_run. reflexivity.
Qed.

Lemma dcr_run (r : Z) (s : state) :
  run (dcr r) s =
  let v := Z.land (result (reg r) s - 1) 0xff in
  with_pf (JNum (table_get parity_table v))
    (with_hf (JBool (negb (Z.land v 0x0f =? 0x0f)))
       (with_zf (JBool (v =? 0))
          (with_sf (JBool (negb (Z.land v 0x80 =? 0)))
             (run (set_reg r v) s)))).
Proof.
  unfold dcr. cbv zeta. rewrite !run_bind, reg_run. reflexivity.
Qed.

Lemma inr_handler (r : Z) (s : state) :
  0 <= r < 8 ->
  run_handler (0x04 + 8 * r) s =
  run (inr r)
      (with_cpu_cycles (if r =? 6 then 10 else 5)
         (with_vcycles (if r =? 6 then T433 else T5)
            (with_last_opcode (0x04 + 8 * r) s))).
Proof. intros Hr. index_cases Hr; reflexivity. Qed.

Lemma dcr_handler (r : Z) (s : state) :
  0 <= r < 8 ->
  run_handler (0x05 + 8 * r) s =
  run (dcr r)
      (with_cpu_cycles (if r =? 6 then 10 else 5)
         (with_vcycles (if r =? 6 then T433 else T5)
            (with_last_opcode (0x05 + 8 * r) s))).
Proof. intros Hr. index_cases Hr; reflexivity. Qed.

Lemma set_reg_cf (r w8 : Z) (s : state) : cf (run (set_reg r w8) s) = cf s.
Proof. unfold set_reg. cbv zeta. destruct (negb (r =? 6)); reflexivity. Qed.

Lemma bit7_mask (v : Z) :
  to_number (JBool (negb (Z.land v 0x80 =? 0))) = bit v 7.
Proof.
  simpl to_number. unfold bit. change 0x80 with (2 ^ 7).
  rewrite testbit_mask by lia. destruct (Z.testbit v 7); reflexivity.
Qed.

Lemma land_0f (x : Z) : Z.land x 0x0f = x mod 16.
Proof. apply (Z.land_ones x 4). lia. Qed.

Lemma inr_dcr_effect (s : state) (r : Z) :
  wf_state s = true ->
  0 <= r < 8 ->
  let v := result (reg r) s in
  let s1 := run (execute (0x04 + 8 * r)) s in
  let s2 := run (execute (0x05 + 8 * r)) s in
  let r1 := (v + 1) mod 256 in
  let r2 := (v - 1) mod 256 in
  (result (reg r) s1 = r1 /\ truthy (zf s1) = (r1 =? 0) /\
   to_number (sf s1) = bit r1 7 /\ to_number (pf s1) = even_parity r1 /\
   truthy (hf s1) = (r1 mod 16 =? 0) /\ cf s1 = cf s) /\
  (result (reg r) s2 = r2 /\ truthy (zf s2) = (r2 =? 0) /\
   to_number (sf s2) = bit r2 7 /\ to_number (pf s2) = even_parity r2 /\
   truthy (hf s2) = negb (r2 mod 16 =? 15) /\ cf s2 = cf s).
Proof.
  intros Hwf Hr. cbv zeta.
  assert (H1 : 0 <= (result (reg r) s + 1) mod 256 < 256)
    by (apply Z.mod_pos_bound; lia).
  assert (H2 : 0 <= (result (reg r) s - 1) mod 256 < 256)
    by (apply Z.mod_pos_bound; lia).
  split.
  - rewrite execute_reg, run_execute.
    destruct (iff_countdown_frame (run_handler (0x04 + 8 * r) s))
      as (_ & _ & -> & -> & -> & -> & -> & _).
    rewrite inr_handler by exact Hr.
    match goal with |- context [run (inr r) ?t] =>
      set (s0 := t);
      assert (E0 : result (reg r) s0 = result (reg r) s)
        by (apply reg_ext; reflexivity) end.
    rewrite inr_run. cbv zeta. rewrite E0.
    rewrite land_ff.
    set (r1 := (result (reg r) s + 1) mod 256) in *.
    split; [|split; [reflexivity|split; [apply bit7_mask|split; [|split]]]].
    + match goal with |- result (reg r) ?t = _ =>
        rewrite (reg_ext r (run (set_reg r r1) s0) t) by reflexivity end.
      rewrite reg_set_reg. apply Z.mod_small, H1.
    + simpl to_number. apply parity_table_even, H1.
    + simpl truthy. rewrite land_0f. reflexivity.
    + simpl cf. rewrite set_reg_cf. reflexivity.
  - rewrite execute_reg, run_execute.
    destruct (iff_countdown_frame (run_handler (0x05 + 8 * r) s))
      as (_ & _ & -> & -> & -> & -> & -> & _).
    rewrite dcr_handler by exact Hr.
    match goal with |- context [run (dcr r) ?t] =>
      set (s0 := t);
      assert (E0 : result (reg r) s0 = result (reg r) s)
        by (apply reg_ext; reflexivity) end.
    rewrite dcr_run. cbv zeta. rewrite E0.
    rewrite land_ff.
    set (r2 := (result (reg r) s - 1) mod 256) in *.
    split; [|split; [reflexivity|split; [apply bit7_mask|split; [|split]]]].
    + match goal with |- result (reg r) ?t = _ =>
        rewrite (reg_ext r (run (set_reg r r2) s0) t) by reflexivity end.
      rewrite reg_set_reg. apply Z.mod_small, H2.
    + simpl to_number. apply parity_table_even, H2.
    + simpl truthy. rewrite land_0f. reflexivity.
    + simpl cf. rewrite set_reg_cf. reflexivity.
Qed.

(** X25. INR r (0x04 + 8 r) and DCR r (0x05 + 8 r), r = 0..7 with 6 for M,
    in a state of the data model: the register, or the byte at HL, goes up
    or down by one modulo 256; ZF, SF and PF are those of the result; HF is
    set by INR when the result's low nibble is 0 and by DCR unless it is
    0xF; CF is left as it was.  INR followed by DCR restores the
    operand. *)
Theorem inr_dcr_step (s : state) (r : Z) :
  wf_state s = true ->
  0 <= r < 8 ->
  let v := result (reg r) s in
  let s1 := run (execute (0x04 + 8 * r)) s in
  let s2 := run (execute (0x05 + 8 * r)) s in
  let r1 := (v + 1) mod 256 in
  let r2 := (v - 1) mod 256 in
  (result (reg r) s1 = r1 /\ truthy (zf s1) = (r1 =? 0) /\
   to_number (sf s1) = bit r1 7 /\ to_number (pf s1) = even_parity r1 /\
   truthy (hf s1) = (r1 mod 16 =? 0) /\ cf s1 = cf s) /\
  (result (reg r) s2 = r2 /\ truthy (zf s2) = (r2 =? 0) /\
   to_number (sf s2) = bit r2 7 /\ to_number (pf s2) = even_parity r2 /\
   truthy (hf s2) = negb (r2 mod 16 =? 15) /\ cf s2 = cf s) /\
  result (reg r) (run (execute (0x05 + 8 * r)) s1) = v.
Proof.
  intros Hwf Hr. cbv zeta.
  pose proof (inr_dcr_effect s r Hwf Hr) as (Hi & Hd).
  cbv zeta in Hi, Hd.
  split; [exact Hi|]. split; [exact Hd|].
  assert (Hwf1 : wf_state (run (execute (0x04 + 8 * r)) s) = true)
    by (apply execute_keeps_wf; [lia | exact Hwf]).
  pose proof (inr_dcr_effect _ r Hwf1 Hr) as (_ & (Hd1 & _)).
  cbv zeta in Hd1. rewrite Hd1, (proj1 Hi).
  pose proof (reg_range r s Hwf Hr) as Hv.
  revert Hv. generalize (result (reg r) s). intros x Hx.
  destruct (Z.eq_dec x 255) as [->|]; [reflexivity|].
  rewrite (Z.mod_small (x + 1)) by lia.
  replace (x + 1 - 1) with x by lia. apply Z.mod_small, Hx.
Qed.

Lemma inr_dcr_step_witness :
  let s := run (set_c 0xFF) (new ∅ IO_new) in
  result c (run (execute 0x0C) s) = 0 /\
  truthy (zf (run (execute 0x0C) s)) = true.
Proof.
  pose proof (inr_dcr_step (run (set_c 0xFF) (new ∅ IO_new)) 1
                eq_refl ltac:(lia)) as H.
  cbv zeta in H. destruct H as ((H1 & H2 & _) & _).
  split.
  - etransitivity; [exact H1 | reflexivity].
  - etransitivity; [exact H2 | reflexivity].
Defined.

(** ** Rotates and complement *)

Lemma rotate_ok_bytes (x : Z) : 0 <= x < 256 -> rotate_ok x = true.
Proof.
  intros Hx.
  assert (H : forallb rotate_ok (seqZ 0 256) = true) by (vm_compute; reflexivity).
  exact (forallb_bytes _ H x Hx).
Qed.

Lemma rotate_handlers (s : state) :
  let x := result a s in
  let top := JBool (negb (Z.land x 0x80 =? 0)) in
  let low := JNum (Z.land x 0x01) in
  (regs (run_handler 0x07 s) =
     <[7 := Z.land (Z.lor (Z.land (Z.shiftl x 1) 0xff) (to_number top)) 0xff]>
       (regs s) /\
   cf (run_handler 0x07 s) = top) /\
  (regs (run_handler 0x0F s) =
     <[7 := Z.land (Z.lor (Z.shiftr x 1) (Z.shiftl (to_number low) 7)) 0xff]>
       (regs s) /\
   cf (run_handler 0x0F s) = low) /\
  (regs (run_handler 0x17 s) =
     <[7 := Z.land (Z.lor (Z.shiftl x 1) (to_number (cf s))) 0xff]> (regs s) /\
   cf (run_handler 0x17 s) = top) /\
  (regs (run_handler 0x1F s) =
     <[7 := Z.land (Z.lor (Z.shiftr x 1) (Z.shiftl (to_number (cf s)) 7)) 0xff]>
       (regs s) /\
   cf (run_handler 0x1F s) = low) /\
  (regs (run_handler 0x2F s) = <[7 := Z.land (Z.lxor x 0xff) 0xff]> (regs s) /\
   cf (run_handler 0x2F s) = cf s).
Proof. repeat split. Qed.

Lemma a_of_regs (s : state) (v : gmap Z Z) (x : Z) :
  regs s = <[7 := x]> v -> result a s = x.
Proof.
  intros H. unfold result, a, reg, regs_get, get; simpl.
  rewrite H, lookup_insert_eq. reflexivity.
Qed.

Lemma execute_cf_field (opcode : Z) (s : state) :
  cf (run (execute opcode) s) = cf (run_handler opcode s).
Proof. rewrite run_execute. apply iff_countdown_frame. Qed.

Lemma rotate_effect (s : state) :
  wf_state s = true ->
  let x := result a s in
  let c := to_number (cf s) in
  let rlc := run (execute 0x07) s in
  let rrc := run (execute 0x0F) s in
  let ral := run (execute 0x17) s in
  let rar := run (execute 0x1F) s in
  let cma := run (execute 0x2F) s in
  (result a rlc = (2 * x) mod 256 + x / 128 /\ to_number (cf rlc) = x / 128) /\
  (result a rrc = x / 2 + 128 * (x mod 2) /\ to_number (cf rrc) = x mod 2) /\
  (result a ral = (2 * x + c) mod 256 /\ to_number (cf ral) = x / 128) /\
  (result a rar = x / 2 + 128 * c /\ to_number (cf rar) = x mod 2) /\
  (result a cma = 255 - x /\ cf cma = cf s).
Proof.
  intros Hwf. cbv zeta.
  pose proof (wf_state_a s Hwf) as Ha.
  pose proof (flag_number_range s Hwf) as Hc.
  pose proof (rotate_ok_bytes (result a s) Ha) as Hok.
  unfold rotate_ok in Hok. cbv zeta in Hok. simpl forallb in Hok.
  rewrite !andb_true_iff, !Z.eqb_eq in Hok.
  destruct Hok as ((((((K1 & K2) & K3) & K4) & (K50 & K51 & _)) & K6) & _).
  destruct K50 as (((L0 & R0) & _) & _). destruct K51 as (((L1 & R1) & _) & _).
  pose proof (rotate_handlers s)
    as ((A1 & C1) & (A2 & C2) & (A3 & C3) & (A4 & C4) & (A5 & C5)).
  cbv zeta in A1, C1, A2, C2, A3, C3, A4, C4, A5, C5.
  rewrite !execute_a, !execute_cf_field.
  rewrite C1, C2, C3, C4, C5.
  rewrite (a_of_regs _ _ _ A1), (a_of_regs _ _ _ A2), (a_of_regs _ _ _ A3),
    (a_of_regs _ _ _ A4), (a_of_regs _ _ _ A5).
  split; [split; [exact K1 | exact K2]|].
  split; [split; [exact K3 | exact K4]|].
  assert (Hcase : to_number (cf s) = 0 \/ to_number (cf s) = 1) by lia.
  split; [|split].
  - split; [|exact K2]. destruct Hcase as [-> | ->]; assumption.
  - split; [|exact K4]. destruct Hcase as [-> | ->]; assumption.
  - split; [exact K6 | reflexivity].
Qed.

(** X26. The rotates and CMA, in a state of the data model with
    accumulator A and carry c: RLC (0x07) rotates A left, its bit 7 going
    to bit 0 and to CF; RRC (0x0F) rotates A right, its bit 0 going to bit
    7 and to CF; RAL (0x17) and RAR (0x1F) rotate through the carry, which
    enters at the free end while the bit that leaves becomes CF; CMA
    (0x2F) complements A.  RRC undoes RLC, RAR undoes RAL, the carry
    included, and CMA undoes itself. *)
Theorem rotates_and_cma (s : state) :
  wf_state s = true ->
  let x := result a s in
  let c := to_number (cf s) in
  let rlc := run (execute 0x07) s in
  let rrc := run (execute 0x0F) s in
  let ral := run (execute 0x17) s in
  let rar := run (execute 0x1F) s in
  let cma := run (execute 0x2F) s in
  (result a rlc = (2 * x) mod 256 + x / 128 /\ to_number (cf rlc) = x / 128) /\
  (result a rrc = x / 2 + 128 * (x mod 2) /\ to_number (cf rrc) = x mod 2) /\
  (result a ral = (2 * x + c) mod 256 /\ to_number (cf ral) = x / 128) /\
  (result a rar = x / 2 + 128 * c /\ to_number (cf rar) = x mod 2) /\
  (result a cma = 255 - x /\ cf cma = cf s) /\
  result a (run (execute 0x0F) rlc) = x /\
  (result a (run (execute 0x1F) ral) = x /\
   to_number (cf (run (execute 0x1F) ral)) = c) /\
  result a (run (execute 0x2F) cma) = x.
Proof.
  intros Hwf. cbv zeta.
  pose proof (rotate_effect s Hwf) as (E1 & E2 & E3 & E4 & E5).
  cbv zeta in E1, E2, E3, E4, E5.
  split; [exact E1|]. split; [exact E2|]. split; [exact E3|].
  split; [exact E4|]. split; [exact E5|].
  pose proof (wf_state_a s Hwf) as Ha.
  pose proof (flag_number_range s Hwf) as Hc.
  pose proof (rotate_ok_bytes (result a s) Ha) as Hok.
  unfold rotate_ok in Hok. cbv zeta in Hok. simpl forallb in Hok.
  rewrite !andb_true_iff, !Z.eqb_eq in Hok.
  destruct Hok as ((((((_ & _) & _) & _) & (K50 & K51 & _)) & _) & K7).
  destruct K50 as (((_ & _) & B0) & D0). destruct K51 as (((_ & _) & B1) & D1).
  assert (W1 : wf_state (run (execute 0x07) s) = true)
    by (apply execute_keeps_wf; [lia | exact Hwf]).
  assert (W3 : wf_state (run (execute 0x17) s) = true)
    by (apply execute_keeps_wf; [lia | exact Hwf]).
  assert (W5 : wf_state (run (execute 0x2F) s) = true)
    by (apply execute_keeps_wf; [lia | exact Hwf]).
  pose proof (rotate_effect _ W1) as (_ & (F2 & _) & _).
  pose proof (rotate_effect _ W3) as (_ & _ & _ & (F4 & G4) & _).
  pose proof (rotate_effect _ W5) as (_ & _ & _ & _ & (F5 & _)).
  cbv zeta in F2, F4, G4, F5.
  split; [|split; [split|]].
  - rewrite F2, (proj1 E1). exact K7.
  - rewrite F4, (proj1 E3), (proj2 E3).
    assert (Hcase : to_number (cf s) = 0 \/ to_number (cf s) = 1) by lia.
    destruct Hcase as [-> | ->]; assumption.
  - rewrite G4, (proj1 E3).
    assert (Hcase : to_number (cf s) = 0 \/ to_number (cf s) = 1) by lia.
    destruct Hcase as [-> | ->]; assumption.
  - rewrite F5, (proj1 E5). lia.
Qed.

Lemma rotates_and_cma_witness :
  let s := run (set_a 0x81) (new ∅ IO_new) in
  result a (run (execute 0x07) s) = 0x03.
Proof.
  pose proof (rotates_and_cma (run (set_a 0x81) (new ∅ IO_new)) eq_refl) as H.
  cbv zeta in H. destruct H as ((H & _) & _).
  etransitivity; [exact H | reflexivity].
Defined.

(** ** Decimal adjustment *)

Lemma forallb_below (n : Z) (P : Z -> bool) :
  forallb P (seqZ 0 n) = true -> forall x, 0 <= x < n -> P x = true.
Proof.
  intros H x Hx. rewrite forallb_forall in H. apply H.
  apply list_elem_of_In, elem_of_seqZ. lia.
Qed.

Lemma bcd_add_ok_digits (x y : Z) :
  0 <= x < 100 -> 0 <= y < 100 -> bcd_add_ok x y = true.
Proof.
  intros Hx Hy.
  assert (H : forallb (fun x => forallb (bcd_add_ok x) (seqZ 0 100))
                (seqZ 0 100) = true) by (vm_compute; reflexivity).
  apply (forallb_below 100 (bcd_add_ok x)); [|exact Hy].
  apply (forallb_below 100 (fun x => forallb (bcd_add_ok x) (seqZ 0 100)));
    assumption.
Qed.

Lemma daa_handler (s : state) :
  regs (run_handler 0x27 s) =
    <[7 := fst (daa_result (result a s) (hf s) (cf s))]> (regs s) /\
  cf (run_handler 0x27 s) = snd (daa_result (result a s) (hf s) (cf s)).
Proof. split; reflexivity. Qed.

Lemma add_daa (s : state) (opcode x y : Z) (carry : jsval) :
  wf_state s = true ->
  0 <= x < 100 -> 0 <= y < 100 ->
  0 <= to_number carry <= 1 ->
  result a s = bcd x ->
  (exists s0, run_handler opcode s = run (add_im8 (bcd y) carry) s0 /\
              regs s0 = regs s) ->
  let s2 := run (execute 0x27) (run (execute opcode) s) in
  result a s2 = bcd ((x + y + to_number carry) mod 100) /\
  truthy (cf s2) = (100 <=? x + y + to_number carry).
Proof.
  intros Hwf Hx Hy Hc Ha (s0 & Hrun & Hregs). cbv zeta.
  assert (Ha0 : result a s0 = bcd x).
  { rewrite <- Ha. unfold result, a, reg, regs_get, get; simpl.
    now rewrite Hregs. }
  pose proof (bcd_add_ok_digits x y Hx Hy) as Hok.
  unfold bcd_add_ok in Hok. rewrite forallb_forall in Hok.
  specialize (Hok (to_number carry)).
  assert (Hin : In (to_number carry) [0; 1]).
  { assert (Hcase : to_number carry = 0 \/ to_number carry = 1) by lia.
    destruct Hcase as [-> | ->]; simpl; tauto. }
  specialize (Hok Hin). cbv beta in Hok. rename Hok into K.
  pose proof (add_im8_run s0 (bcd y) carry) as Hst. rewrite Ha0 in Hst.
  destruct (add_im8_result (bcd x) (bcd y) (to_number carry))
    as [[[[[a1 sf1] zf1] hf1] pf1] cf1].
  destruct (daa_handler (run (execute opcode) s)) as (Dr & Dc).
  assert (E1 : result a (run (execute opcode) s) = Z.land a1 0xff).
  { rewrite execute_a, Hrun, Hst. apply (a_of_regs _ (regs s0)). reflexivity. }
  assert (E2 : hf (run (execute opcode) s) = hf1).
  { rewrite run_execute.
    destruct (iff_countdown_frame (run_handler opcode s))
      as (_ & _ & _ & _ & -> & _).
    rewrite Hrun, Hst. reflexivity. }
  assert (E3 : cf (run (execute opcode) s) = cf1).
  { rewrite execute_cf_field, Hrun, Hst. reflexivity. }
  rewrite E1, E2, E3 in Dr, Dc.
  destruct (daa_result (Z.land a1 0xff) hf1 cf1) as [a2 cf2].
  simpl fst in Dr. simpl snd in Dc.
  apply andb_true_iff in K. destruct K as (Ka & Kc).
  apply Z.eqb_eq in Ka. rewrite eqb_true_iff in Kc.
  rewrite execute_a, execute_cf_field, Dc.
  rewrite (a_of_regs _ _ _ Dr). split; assumption.
Qed.

(** X27. DAA (0x27) completes a decimal addition.  In a state of the data
    model where A and B hold two numbers x and y below 100 as decimal
    digits, one per nibble, ADD B followed by DAA leaves in A the digits of
    (x + y) mod 100 and sets CF exactly when x + y reaches 100; ADC B
    followed by DAA does the same for x + y + CF. *)
Theorem daa_decimal_addition (s : state) (x y : Z) :
  wf_state s = true ->
  0 <= x < 100 -> 0 <= y < 100 ->
  result a s = bcd x -> result b s = bcd y ->
  let c := to_number (cf s) in
  let add := run (execute 0x27) (run (execute 0x80) s) in
  let adc := run (execute 0x27) (run (execute 0x88) s) in
  (result a add = bcd ((x + y) mod 100) /\ truthy (cf add) = (100 <=? x + y)) /\
  (result a adc = bcd ((x + y + c) mod 100) /\
   truthy (cf adc) = (100 <=? x + y + c)).
Proof.
  intros Hwf Hx Hy Ha Hb. cbv zeta.
  split.
  - pose proof (add_daa s 0x80 x y (JNum 0) Hwf Hx Hy ltac:(simpl; lia) Ha) as H.
    cbv zeta in H. simpl to_number in H. rewrite Z.add_0_r in H.
    apply H. rewrite <- Hb.
    exists (with_cpu_cycles 4 (with_vcycles T4 (with_last_opcode 0x80 s))).
    split; reflexivity.
  - apply (add_daa s 0x88 x y (cf s) Hwf Hx Hy (flag_number_range s Hwf) Ha).
    rewrite <- Hb.
    exists (with_cpu_cycles 4 (with_vcycles T4 (with_last_opcode 0x88 s))).
    split; reflexivity.
Qed.

Lemma daa_decimal_addition_witness :
  let s := run (set_b 0x48) (run (set_a 0x75) (new ∅ IO_new)) in
  result a (run (execute 0x27) (run (execute 0x80) s)) = 0x23 /\
  truthy (cf (run (execute 0x27) (run (execute 0x80) s))) = true.
Proof.
  pose proof (daa_decimal_addition
    (run (set_b 0x48) (run (set_a 0x75) (new ∅ IO_new))) 75 48
    eq_refl ltac:(lia) ltac:(lia) eq_refl eq_refl) as H.
  cbv zeta in H. destruct H as ((H1 & H2) & _).
  split.
  - etransitivity; [exact H1 | reflexivity].
  - etransitivity; [exact H2 | reflexivity].
Defined.

(** ** Conditional calls *)

Lemma ccc_opcode_handler (cc d : Z) (s : state) :
  0 <= cc < 4 -> 0 <= d < 2 ->
  run_handler (0xC4 + 16 * cc + 8 * d) s =
  run (h_ccc (0xC4 + 16 * cc + 8 * d))
      (with_last_opcode (0xC4 + 16 * cc + 8 * d) s).
Proof.
  intros Hcc Hd. unfold run_handler.
  assert (cc = 0 \/ cc = 1 \/ cc = 2 \/ cc = 3) as [->|[->|[->| ->]]] by lia;
    (assert (d = 0 \/ d = 1) as [->| ->] by lia);
    cbv beta iota delta [handler]; reflexivity.
Qed.

Lemma ccc_handler (opcode : Z) (s : state) :
  run (h_ccc opcode) s =
  let s0 := with_cpu_cycles 11 (with_vcycles T533
              (with_pc ((pc s + 2) mod 65536) s)) in
  if result (condition opcode) s
  then with_pc (mem_word s (pc s))
         (run (push ((pc s + 2) mod 65536))
            (with_cpu_cycles 17 (with_vcycles T53333 s0)))
  else s0.
Proof.
  unfold h_ccc. rewrite condition_then, !run_bind.
  rewrite next_pc_word_run, next_pc_word_result, cycles_run.
  destruct (result (condition opcode) s).
  - rewrite !run_bind, cycles_run, call_run. reflexivity.
  - reflexivity.
Qed.

Lemma push_cpu_cycles (v : Z) (s : state) :
  cpu_cycles (run (push v) s) = cpu_cycles s.
Proof. reflexivity. Qed.

(** Assigning [pc] changes nothing else. *)
Lemma with_pc_frame (v : Z) (s : state) :
  sp (with_pc v s) = sp s /\ regs (with_pc v s) = regs s /\
  flags (with_pc v s) = flags s /\ cpu_cycles (with_pc v s) = cpu_cycles s /\
  (forall addr, mem_word (with_pc v s) addr = mem_word s addr).
Proof. repeat split. Qed.

(** X28. Ccc (0xC4 + 16 cc + 8 d), in a state of the data model: when its
    condition holds it calls, [pc] taking the word at [pc], SP going down
    by two modulo 2^16 with the address behind the operand at the new top
    of the stack, for 17 T-states; otherwise it only steps [pc] over the
    operand, for 11 T-states, and SP and the memory are as before.  The
    registers and the flags are unchanged either way. *)
Theorem ccc_calls_when (s : state) (cc d : Z) :
  wf_state s = true ->
  0 <= cc < 4 -> 0 <= d < 2 ->
  let ccc := 0xC4 + 16 * cc + 8 * d in
  let s' := run (execute ccc) s in
  (if result (condition ccc) s
   then pc s' = mem_word s (pc s) /\ sp s' = (sp s - 2) mod 65536 /\
        mem_word s' (sp s') = (pc s + 2) mod 65536 /\
        result (execute ccc) s = 17
   else pc s' = (pc s + 2) mod 65536 /\ sp s' = sp s /\
        memory s' = memory s /\ result (execute ccc) s = 11) /\
  regs s' = regs s /\ flags s' = flags s.
Proof.
  intros Hwf Hcc Hd. cbv zeta.
  rewrite result_execute, execute_cpu_cycles.
  rewrite !execute_pc, !execute_sp, !execute_regs, !execute_flags,
    !execute_memory, !execute_mem_word.
  rewrite (ccc_opcode_handler cc d s Hcc Hd), ccc_handler. cbv zeta.
  change (result (condition (0xC4 + 16 * cc + 8 * d))
            (with_last_opcode (0xC4 + 16 * cc + 8 * d) s))
    with (result (condition (0xC4 + 16 * cc + 8 * d)) s).
  destruct (result (condition (0xC4 + 16 * cc + 8 * d)) s);
    [|repeat split].
  match goal with |- context [run (push ?v) ?t] =>
    destruct (push_spec v t) as (Hsp & Hw & _ & _ & Hr & Hf);
      [apply Z.mod_pos_bound; lia|];
    cbv zeta in Hsp, Hw, Hr, Hf;
    pose proof (push_cpu_cycles v t) as Hcy;
    set (s1 := run (push v) t) in *; clearbody s1 end.
  match goal with |- context [with_pc ?w s1] =>
    destruct (with_pc_frame w s1) as (-> & -> & -> & -> & Hm);
    rewrite Hm end.
  split; [|split; [exact Hr | exact Hf]].
  split; [reflexivity|]. split; [exact Hsp|]. split; [exact Hw | exact Hcy].
Qed.

Lemma ccc_calls_when_witness :
  let s := with_sp 0x100 (new (<[0 := 0x34]> (<[1 := 0x12]> ∅)) IO_new) in
  pc (run (execute 0xC4) s) = 0x1234 /\ sp (run (execute 0xC4) s) = 0xFE.
Proof.
  pose proof (ccc_calls_when
    (with_sp 0x100 (new (<[0 := 0x34]> (<[1 := 0x12]> ∅)) IO_new)) 0 0
    eq_refl ltac:(lia) ltac:(lia)) as H.
  cbv zeta in H. destruct H as ((H1 & H2 & _) & _).
  split.
  - etransitivity; [exact H1 | reflexivity].
  - etransitivity; [exact H2 | reflexivity].
Defined.

(** ** The data model along a run *)

(** X29. The invariants of the data model (the eight register slots hold
    bytes, [pc] and SP are 16-bit, the flags are 0, 1 or booleans) hold in
    the state the constructor builds, are kept by [execute] on every byte
    as opcode and by [instruction], and so hold after any number of
    instructions from reset, whatever the memory holds and the device
    answers. *)
Theorem data_model_invariant (mem : gmap Z Z) (device : IO) (n : nat) :
  wf_state (instructions n (new mem device)) = true /\
  (forall s opcode, wf_state s = true -> 0 <= opcode < 256 ->
     wf_state (run (execute opcode) s) = true) /\
  (forall s, wf_state s = true -> wf_state (run instruction s) = true).
Proof.
  split; [|split].
  - generalize (new_wf mem device). generalize (new mem device).
    induction n as [|n IH]; intros s Hs; [exact Hs|].
    simpl. apply IH, instruction_keeps_wf, Hs.
  - intros s opcode Hs Hop. apply execute_keeps_wf; assumption.
  - intros s Hs. apply instruction_keeps_wf, Hs.
Qed.

(** ** MOV *)

Lemma mov_fields (dst src : Z) :
  0 <= dst < 8 -> 0 <= src < 8 ->
  Z.land (0x40 + 8 * dst + src) 7 = src /\
  Z.land (Z.shiftr (0x40 + 8 * dst + src) 3) 7 = dst.
Proof. intros Hd Hs. index_cases Hd; index_cases Hs; split; reflexivity. Qed.

Lemma mov_opcode_handler (dst src : Z) (s : state) :
  0 <= dst < 8 -> 0 <= src < 8 -> (dst <> 6 \/ src <> 6) ->
  run_handler (0x40 + 8 * dst + src) s =
  run (h_mov (0x40 + 8 * dst + src)) (with_last_opcode (0x40 + 8 * dst + src) s).
Proof.
  intros Hd Hs Hne. unfold run_handler.
  index_cases Hd; index_cases Hs; try (exfalso; lia);
    cbv beta iota delta [handler]; reflexivity.
Qed.

Lemma mov_handler (dst src : Z) (s : state) :
  0 <= dst < 8 -> 0 <= src < 8 -> (dst <> 6 \/ src <> 6) ->
  exists s0,
    run_handler (0x40 + 8 * dst + src) s =
      run (set_reg dst (result (reg src) s)) s0 /\
    regs s0 = regs s /\ memory s0 = memory s /\ flags s0 = flags s /\
    pc s0 = pc s /\ sp s0 = sp s.
Proof.
  intros Hd Hs Hne.
  rewrite (mov_opcode_handler dst src s Hd Hs Hne).
  unfold h_mov. cbv zeta.
  destruct (mov_fields dst src Hd Hs) as (-> & ->).
  rewrite !run_bind, reg_run.
  match goal with |- context [run (if ?b then ?x else ?y) ?t] =>
    set (c0 := if b then x else y);
    exists (run c0 t);
    assert (E : result (reg src) (run c0 t) = result (reg src) s)
      by (apply reg_ext; subst c0; destruct b; reflexivity);
    rewrite E; split; [reflexivity | subst c0; destruct b; repeat split] end.
Qed.

Lemma set_reg_frame (r w8 : Z) (s : state) :
  let s' := run (set_reg r w8) s in
  flags s' = flags s /\ pc s' = pc s /\ sp s' = sp s /\
  (r <> 6 -> memory s' = memory s /\
             forall i, i <> r -> regs s' !! i = regs s !! i) /\
  (r = 6 -> regs s' = regs s /\
            forall x, x mod 65536 <> result hl s mod 65536 ->
                      mem_byte s' x = mem_byte s x).
Proof.
  cbv zeta. unfold set_reg. cbv zeta.
  destruct (Z.eqb_spec r 6) as [->|Hne]; simpl negb; cbv iota.
  - split; [reflexivity|]. split; [reflexivity|]. split; [reflexivity|].
    split; [intros H; lia|]. intros _. split; [reflexivity|].
    intros x Hx. rewrite run_bind. unfold hl in *. rewrite rp_run.
    rewrite mem_byte_write.
    destruct (Z.eqb_spec (x mod 65536) (result (rp 4) s mod 65536));
      [congruence | reflexivity].
  - split; [reflexivity|]. split; [reflexivity|]. split; [reflexivity|].
    split; [|intros H; lia]. intros _. split; [reflexivity|].
    intros i Hi. rewrite run_modify, regs_with_regs, lookup_insert_ne by congruence.
    reflexivity.
Qed.

(** X30. MOV dst, src (0x40 + 8 dst + src, with 6 for M, the byte at HL,
    and not both M: that byte is HLT), in a state of the data model, copies
    the source to the destination, where [reg] reads it back; it takes 7
    T-states when the source or the destination is M and 5 otherwise.  A
    move to a register changes no other register and no memory; a move to
    M changes no register and no other byte; the flags, [pc] and SP are
    as before. *)
Theorem mov_copies (s : state) (dst src : Z) :
  wf_state s = true ->
  0 <= dst < 8 -> 0 <= src < 8 -> (dst <> 6 \/ src <> 6) ->
  let opcode := 0x40 + 8 * dst + src in
  let s' := run (execute opcode) s in
  result (reg dst) s' = result (reg src) s /\
  result (execute opcode) s = (if (src =? 6) || (dst =? 6) then 7 else 5) /\
  (dst <> 6 -> memory s' = memory s /\
               forall i, i <> dst -> regs s' !! i = regs s !! i) /\
  (dst = 6 -> regs s' = regs s /\
              forall x, x mod 65536 <> result hl s mod 65536 ->
                        mem_byte s' x = mem_byte s x) /\
  flags s' = flags s /\ pc s' = pc s /\ sp s' = sp s.
Proof.
  intros Hwf Hd Hs Hne. cbv zeta.
  destruct (mov_handler dst src s Hd Hs Hne)
    as (s0 & Hrun & Hregs & Hmem & Hflags & Hpc & Hsp).
  assert (Hcycles : result (execute (0x40 + 8 * dst + src)) s =
                    (if (src =? 6) || (dst =? 6) then 7 else 5)).
  { rewrite result_execute, execute_cpu_cycles.
    rewrite (mov_opcode_handler dst src s Hd Hs Hne), mov_tstates.
    destruct (mov_fields dst src Hd Hs) as (-> & ->). reflexivity. }
  pose proof (reg_range src s Hwf Hs) as Hv.
  destruct (set_reg_frame dst (result (reg src) s) s0)
    as (Ff & Fp & Fs & Freg & Fmem).
  assert (Hhl : result hl s0 = result hl s)
    by (apply rp_ext; assumption).
  split; [|split; [exact Hcycles|split; [|split; [|split; [|split]]]]].
  - rewrite execute_reg, Hrun, reg_set_reg. apply Z.mod_small, Hv.
  - intros H6. destruct (Freg H6) as (Fm & Fr).
    rewrite execute_memory, Hrun, Fm. split; [exact Hmem|].
    intros i Hi. rewrite execute_regs, Hrun, (Fr i Hi), Hregs. reflexivity.
  - intros H6. destruct (Fmem H6) as (Fr & Fm).
    rewrite execute_regs, Hrun, Fr. split; [exact Hregs|].
    intros x Hx. rewrite execute_mem_byte, Hrun, Fm by (rewrite Hhl; exact Hx).
    apply mem_byte_memory, Hmem.
  - rewrite execute_flags, Hrun, Ff. exact Hflags.
  - rewrite execute_pc, Hrun, Fp. exact Hpc.
  - rewrite execute_sp, Hrun, Fs. exact Hsp.
Qed.

Lemma mov_copies_witness :
  let s := run (set_a 0x5A) (new ∅ IO_new) in
  result (reg 0) (run (execute 0x47) s) = 0x5A.
Proof.
  pose proof (mov_copies (run (set_a 0x5A) (new ∅ IO_new)) 0 7
                eq_refl ltac:(lia) ltac:(lia) ltac:(lia)) as H.
  cbv zeta in H. destruct H as (H & _).
  etransitivity; [exact H | reflexivity].
Defined.
